(** * hikari.files: resources, readers and their scoped handles

    A shallow embedding of [src/hikari/files.py].

    Conventions of the embedding.
    - Python [bytes] values are [list byte].
    - Python [str] values that name things (file names, URLs, MIME types,
      data URIs, exception messages) are Rocq strings, one [ascii] per code
      point, so they range over the code points U+0000..U+00FF.  Text chunks
      handed to [IteratorReader] are lists of arbitrary code points
      ([pystr]), since their UTF-8 encoding is what the reader computes.
    - A raising call returns [Raise e]; a returning call returns [Ok v].
    - [async] functions are embedded as the function of their result: the
      event loop only interleaves them with unrelated tasks.  An asynchronous
      generator is embedded as the list of the chunks it yields, in order,
      together with the way it ends. *)

From Stdlib Require Import ZArith NArith List Bool Lia.
From Stdlib.Strings Require Import String Ascii Byte.
Import ListNotations.

Local Open Scope string_scope.
Local Open Scope list_scope.
Local Open Scope Z_scope.

(** ** Results of calls that may raise *)

Inductive pyexc : Type :=
| TypeError (msg : string)
| ValueError (msg : string)
| RuntimeError (msg : string)
| AttributeError (msg : string)
| UnicodeEncodeError
| FileExistsError (path : string)
| FileNotFoundError (path : string)
| IsADirectoryError (path : string)
| NotADirectoryError (path : string)
| OSError (errno : Z) (path : string)
| SameFileError
| HTTPResponseError (status : Z).

Inductive result (A : Type) : Type :=
| Ok (v : A)
| Raise (e : pyexc).

Arguments Ok {A} v.
Arguments Raise {A} e.

Definition bind {A B : Type} (r : result A) (k : A -> result B) : result B :=
  match r with
  | Ok v => k v
  | Raise e => Raise e
  end.

Notation "x <- r ;; k" := (bind r (fun x => k))
  (at level 61, r at next level, right associativity).

Definition bytes : Type := list byte.

(** [len(b)] as a Python integer. *)
Definition len {A : Type} (l : list A) : Z := Z.of_nat (List.length l).

(** ** The [str] methods the module uses *)

Module Str.

(** [c in s] for a one-character [c]. *)
Fixpoint contains (c : ascii) (s : string) : bool :=
  match s with
  | EmptyString => false
  | String a s' => Ascii.eqb a c || contains c s'
  end.

(** [s.startswith(p)]. *)
Fixpoint startswith (s p : string) {struct p} : bool :=
  match p with
  | EmptyString => true
  | String c p' =>
      match s with
      | EmptyString => false
      | String a s' => Ascii.eqb a c && startswith s' p'
      end
  end.

(** The split of [s] at the last [c]: the text before it and the text
    after it, or [None] when [c] does not occur. *)
Fixpoint rsplit1 (c : ascii) (s : string) : option (string * string) :=
  match s with
  | EmptyString => None
  | String a s' =>
      match rsplit1 c s' with
      | Some (h, t) => Some (String a h, t)
      | None => if Ascii.eqb a c then Some (EmptyString, s') else None
      end
  end.

(** [s.rpartition(c)] for a one-character separator. *)
Definition rpartition (s : string) (c : ascii) : string * string * string :=
  match rsplit1 c s with
  | Some (h, t) => (h, String c EmptyString, t)
  | None => (EmptyString, EmptyString, s)
  end.

(** The split of [s] at the first [c], or [None] when [c] does not occur. *)
Fixpoint split1 (c : ascii) (s : string) : option (string * string) :=
  match s with
  | EmptyString => None
  | String a s' =>
      if Ascii.eqb a c then Some (EmptyString, s')
      else match split1 c s' with
           | Some (h, t) => Some (String a h, t)
           | None => None
           end
  end.

(** [s.endswith(p)]. *)
Definition endswith (s p : string) : bool :=
  (String.length p <=? String.length s)%nat &&
  String.eqb (String.substring (String.length s - String.length p)
                               (String.length p) s) p.

(** [s[:-n]] for [n > 0]. *)
Definition drop_last (n : nat) (s : string) : string :=
  String.substring 0 (String.length s - n) s.

(** [s.lstrip(chars)] and [s.rstrip(chars)], the characters to strip
    given as a predicate. *)
Fixpoint lstrip (strip : ascii -> bool) (s : string) : string :=
  match s with
  | EmptyString => EmptyString
  | String a s' => if strip a then lstrip strip s' else s
  end.

Fixpoint rstrip (strip : ascii -> bool) (s : string) : string :=
  match s with
  | EmptyString => EmptyString
  | String a s' =>
      match rstrip strip s' with
      | EmptyString => if strip a then EmptyString else String a EmptyString
      | r => String a r
      end
  end.

(** What [str.strip()] strips, among the code points below U+0100. *)
Definition isspace (a : ascii) : bool :=
  let c := N_of_ascii a in
  ((9 <=? c) && (c <=? 13) || (28 <=? c) && (c <=? 32)
   || (c =? 0x85) || (c =? 0xA0))%N.

(** [s.strip()]. *)
Definition strip (s : string) : string := rstrip isspace (lstrip isspace s).

(** [s] without the characters that satisfy [drop]. *)
Fixpoint remove (drop : ascii -> bool) (s : string) : string :=
  match s with
  | EmptyString => EmptyString
  | String a s' => if drop a then remove drop s' else String a (remove drop s')
  end.

(** The longest prefix of characters satisfying [keep], and the rest. *)
Fixpoint span (keep : ascii -> bool) (s : string) : string * string :=
  match s with
  | EmptyString => (EmptyString, EmptyString)
  | String a s' =>
      if keep a then let (h, t) := span keep s' in (String a h, t)
      else (EmptyString, s)
  end.

Fixpoint forallb (p : ascii -> bool) (s : string) : bool :=
  match s with
  | EmptyString => true
  | String a s' => p a && forallb p s'
  end.

Definition existsb (p : ascii -> bool) (s : string) : bool :=
  negb (forallb (fun a => negb (p a)) s).

(** [c.lower()] below U+0100. *)
Definition lower_char (a : ascii) : ascii :=
  let c := N_of_ascii a in
  (if (65 <=? c) && (c <=? 90)
      || (0xC0 <=? c) && (c <=? 0xDE) && negb (c =? 0xD7)
   then ascii_of_N (c + 32) else a)%N.

Fixpoint lower (s : string) : string :=
  match s with
  | EmptyString => EmptyString
  | String a s' => String (lower_char a) (lower s')
  end.

(** [s[n:]]. *)
Fixpoint drop (n : nat) (s : string) : string :=
  match n, s with
  | O, _ => s
  | S n', String _ s' => drop n' s'
  | S _, EmptyString => EmptyString
  end.

End Str.

(** ** pathlib paths (POSIX flavour) *)

Inductive PathRoot : Type := NoRoot | Root1 | Root2.

Record Path : Type := mkPath {
  root : PathRoot;
  parts : list string
}.

(** The components of a string between slashes. *)
Fixpoint split_slash (s : string) (cur : string) : list string :=
  match s with
  | EmptyString => [cur]
  | String a s' =>
      if Ascii.eqb a "/" then cur :: split_slash s' EmptyString
      else split_slash s' (cur ++ String a EmptyString)%string
  end.

Fixpoint count_leading_slash (s : string) : nat :=
  match s with
  | String a s' => if Ascii.eqb a "/" then S (count_leading_slash s') else 0%nat
  | EmptyString => 0%nat
  end.

(** [_PosixFlavour.splitroot]: exactly two leading slashes are kept as a
    root of their own, any other number is one slash. *)
Definition splitroot (s : string) : PathRoot :=
  match count_leading_slash s with
  | 0%nat => NoRoot
  | 2%nat => Root2
  | _ => Root1
  end.

Definition keep_part (x : string) : bool :=
  negb (String.eqb x EmptyString) && negb (String.eqb x ".").

(** [pathlib.Path(s)] for a string: empty and ["."] components are
    dropped. *)
Definition pathlib_Path (s : string) : Path :=
  mkPath (splitroot s) (filter keep_part (split_slash s EmptyString)).

(** A string or a path object. *)
Inductive Pathish : Type :=
| PathStr (s : string)
| PathObj (p : Path).

(** [ensure_path]. *)
Definition ensure_path (pathish : Pathish) : Path :=
  match pathish with
  | PathStr s => pathlib_Path s
  | PathObj p => p
  end.

(** [Path.name]: the final component, the empty string when there is
    none. *)
Definition path_name (p : Path) : string := List.last (parts p) EmptyString.

(** [Path.joinpath(name)]: a rooted argument replaces the path. *)
Definition joinpath (p : Path) (name : string) : Path :=
  let q := pathlib_Path name in
  match root q with
  | NoRoot => mkPath (root p) (parts p ++ parts q)
  | _ => q
  end.

Definition root_str (r : PathRoot) : string :=
  match r with NoRoot => EmptyString | Root1 => "/" | Root2 => "//" end.

(** [str(path)]. *)
Definition path_str (p : Path) : string :=
  match root p, parts p with
  | NoRoot, [] => "."
  | r, ps => (root_str r ++ String.concat "/" ps)%string
  end.

(** ** UTF-8 *)

(** A code point of a Python [str]. *)
Definition codepoint : Type := N.

(** A Python [str] holding arbitrary text. *)
Definition pystr : Type := list codepoint.

(** The byte of a number below 256. *)
Definition byte_of_N (n : N) : byte :=
  match Byte.of_N n with
  | Some b => b
  | None => x00
  end.

(** The UTF-8 encoding of one code point; a lone surrogate has none, and
    nothing above U+10FFFF is a code point. *)
Definition utf8_codepoint (c : codepoint) : option bytes :=
  (if c <? 0x80 then Some [byte_of_N c]
   else if c <? 0x800 then
     Some [byte_of_N (0xC0 + c / 64); byte_of_N (0x80 + c mod 64)]
   else if (0xD800 <=? c) && (c <=? 0xDFFF) then None
   else if c <? 0x10000 then
     Some [byte_of_N (0xE0 + c / 4096); byte_of_N (0x80 + (c / 64) mod 64);
           byte_of_N (0x80 + c mod 64)]
   else if c <? 0x110000 then
     Some [byte_of_N (0xF0 + c / 262144); byte_of_N (0x80 + (c / 4096) mod 64);
           byte_of_N (0x80 + (c / 64) mod 64); byte_of_N (0x80 + c mod 64)]
   else None)%N.

(** [bytes(s, "utf-8")]. *)
Fixpoint utf8_encode (s : pystr) : result bytes :=
  match s with
  | [] => Ok []
  | c :: s' =>
      match utf8_codepoint c with
      | None => Raise UnicodeEncodeError
      | Some bs => rest <- utf8_encode s' ;; Ok (bs ++ rest)
      end
  end.

(** [s.encode("utf-8")] for a [str] over U+0000..U+00FF: one or two bytes
    per character. *)
Fixpoint encode_utf8 (s : string) : bytes :=
  match s with
  | EmptyString => []
  | String a s' =>
      let c := N_of_ascii a in
      (if (c <? 0x80)%N then [byte_of_ascii a]
       else [byte_of_N (0xC0 + c / 64); byte_of_N (0x80 + c mod 64)])
      ++ encode_utf8 s'
  end.

(** ** IteratorReader *)

Definition _MAGIC : Z := 50 * 1024.
Definition SPOILER_TAG : string := "SPOILER_".

(** A value a chunk source may produce: [bytes], [str], or an object of
    some other type, of which only [type(data).__name__] matters. *)
Inductive pyobj : Type :=
| PyBytes (b : bytes)
| PyStr (s : pystr)
| PyOther (type_name : string).

(** The shapes [_wrap_iter] tells apart, in the order it tests them. *)
Inductive iter_kind : Type :=
| AsyncIterator
| Iterator
| Generator
| Iterable
| AsyncIterable.

(** [IteratorReader.data]: a flat buffer, a finite producer of chunks, or
    something that is neither. *)
Inductive ByteData : Type :=
| DataBytes (b : bytes)
| DataChunks (kind : iter_kind) (chunks : list pyobj)
| DataOther (type_name : string).

(** What an asynchronous generator does: the chunks it yields, then either
    a normal end or an exception. *)
Definition trace : Type := (list bytes * option pyexc)%type.

(** [IteratorReader._assert_bytes]. *)
Definition _assert_bytes (data : pyobj) : result bytes :=
  match data with
  | PyStr s => utf8_encode s
  | PyBytes b => Ok b
  | PyOther type_name =>
      Raise (TypeError ("Expected bytes but received " ++ type_name))
  end.

(** [data[i : i + _MAGIC] for i in range(0, len(data), _MAGIC)]; the fuel
    is the number of slices, at most [len(data)]. *)
Fixpoint slices (fuel : nat) (data : bytes) : list bytes :=
  match fuel, data with
  | _, [] => []
  | O, _ => []
  | S fuel', _ =>
      firstn (Z.to_nat _MAGIC) data :: slices fuel' (skipn (Z.to_nat _MAGIC) data)
  end.

(** The loop of every iterating branch of [_wrap_iter]: yield
    [_assert_bytes] of each item until one raises. *)
Fixpoint assert_each (chunks : list pyobj) : trace :=
  match chunks with
  | [] => ([], None)
  | c :: rest =>
      match _assert_bytes c with
      | Raise e => ([], Some e)
      | Ok b => let (ys, ending) := assert_each rest in (b :: ys, ending)
      end
  end.

(** [IteratorReader._wrap_iter]. *)
Definition _wrap_iter (data : ByteData) : trace :=
  match data with
  | DataBytes b => (slices (List.length b) b, None)
  | DataChunks AsyncIterator chunks => assert_each chunks
  | DataChunks Iterator chunks => assert_each chunks
  | DataChunks Generator chunks => assert_each chunks
  | DataChunks Iterable chunks => assert_each chunks
  | DataChunks AsyncIterable chunks => assert_each chunks
  | DataOther type_name =>
      match _assert_bytes (PyOther type_name) with
      | Raise e => ([], Some e)
      | Ok _ => ([], None)
      end
  end.

(** The loops of [IteratorReader.__aiter__] over what [_wrap_iter]
    produces.  [buff] is the bytearray; it is shorter than [_MAGIC] whenever
    the inner [while] is entered, so the inner loop always pulls a chunk
    first and the test [len(buff) < _MAGIC] follows each [extend].  When the
    source ends normally ([StopAsyncIteration]) a non-empty [buff] is
    yielded; any other exception leaves the generator at once. *)
Fixpoint rebuffer (buff : bytes) (chunks : list bytes) (ending : option pyexc)
  : trace :=
  match chunks with
  | [] =>
      match ending with
      | None => (match buff with [] => [] | _ => [buff] end, None)
      | Some e => ([], Some e)
      end
  | chunk :: rest =>
      let buff' := buff ++ chunk in
      if len buff' <? _MAGIC then rebuffer buff' rest ending
      else let (ys, e) := rebuffer [] rest ending in (buff' :: ys, e)
  end.

(** [IteratorReader.__aiter__]. *)
Definition IteratorReader_aiter (data : ByteData) : trace :=
  let (chunks, ending) := _wrap_iter data in rebuffer [] chunks ending.

(** [AsyncReader.read]: the concatenation of the chunks, unless the
    iteration raises. *)
Definition AsyncReader_read (t : trace) : result bytes :=
  match t with
  | (ys, None) => Ok (List.concat ys)
  | (_, Some e) => Raise e
  end.

(** ** Standard-library functions the module calls (CPython 3.11) *)

Module posixpath.

(** [os.path.basename]: the text after the last slash. *)
Definition basename (p : string) : string :=
  match Str.rsplit1 "/" p with
  | Some (_, t) => t
  | None => p
  end.

End posixpath.

Module urllib_parse.

Definition is_c0_control_or_space (a : ascii) : bool :=
  (N_of_ascii a <=? 0x20)%N.

(** [_UNSAFE_URL_BYTES_TO_REMOVE]: tab, carriage return, line feed. *)
Definition is_unsafe_url_byte (a : ascii) : bool :=
  let c := N_of_ascii a in ((c =? 9) || (c =? 13) || (c =? 10))%N.

Definition is_ascii_alpha (a : ascii) : bool :=
  let c := N_of_ascii a in
  ((65 <=? c) && (c <=? 90) || (97 <=? c) && (c <=? 122))%N.

Definition is_digit (a : ascii) : bool :=
  let c := N_of_ascii a in ((48 <=? c) && (c <=? 57))%N.

(** [c in scheme_chars]. *)
Definition is_scheme_char (a : ascii) : bool :=
  is_ascii_alpha a || is_digit a
  || Ascii.eqb a "+" || Ascii.eqb a "-" || Ascii.eqb a ".".

Definition uses_params : list string :=
  [EmptyString; "ftp"; "hdl"; "prospero"; "http"; "imap"; "https"; "shttp";
   "rtsp"; "rtspu"; "sip"; "sips"; "mms"; "sftp"; "tel"].

Definition in_list (s : string) (l : list string) : bool :=
  List.existsb (String.eqb s) l.

(** The scheme of [urlsplit] (empty by default) and what follows it. *)
Definition split_scheme (url : string) : string * string :=
  match Str.split1 ":" url with
  | Some (String a0 pre, post) =>
      if is_ascii_alpha a0 && Str.forallb is_scheme_char (String a0 pre)
      then (Str.lower (String a0 pre), post)
      else (EmptyString, url)
  | _ => (EmptyString, url)
  end.

(** [_splitnetloc(url, 2)]: the text from index 2 to the first of
    [/], [?], [#], and the text from there on. *)
Definition _splitnetloc (url : string) : string * string :=
  Str.span (fun a => negb (Ascii.eqb a "/" || Ascii.eqb a "?" || Ascii.eqb a "#"))
           (Str.drop 2 url).

Definition isascii (s : string) : bool :=
  Str.forallb (fun a => (N_of_ascii a <? 128)%N) s.

(** [s.split(c, 1)[0]]. *)
Definition before (c : ascii) (s : string) : string :=
  match Str.split1 c s with
  | Some (h, _) => h
  | None => s
  end.

(** [_splitparams(url)[0]]. *)
Definition _splitparams (url : string) : string :=
  match Str.rsplit1 "/" url with
  | Some (h, t) =>
      match Str.split1 ";" t with
      | Some (t1, _) => (h ++ "/" ++ t1)%string
      | None => url
      end
  | None => before ";" url
  end.

Section WithNetlocChecks.

(** [_check_bracketed_netloc] on a netloc that holds both brackets:
    [None] when it returns, else the message of the [ValueError] it
    raises (its own, or the one of the [ipaddress] module). *)
Variable bracketed_netloc_error : string -> option string.
(** [_checknetloc] accepts a netloc that is not ASCII (a test under
    NFKC normalisation). *)
Variable nfkc_netloc_ok : string -> bool.

(** [urlsplit(url)]: its scheme and its path. *)
Definition urlsplit (url : string) : result (string * string) :=
  let url := Str.lstrip is_c0_control_or_space url in
  let url := Str.remove is_unsafe_url_byte url in
  let (scheme, url) := split_scheme url in
  let (netloc, url) :=
    if Str.startswith url "//" then _splitnetloc url else (EmptyString, url) in
  let lb := Str.contains "[" netloc in
  let rb := Str.contains "]" netloc in
  if (lb && negb rb) || (rb && negb lb) then Raise (ValueError "Invalid IPv6 URL")
  else
    match (if lb && rb then bracketed_netloc_error netloc else None) with
    | Some msg => Raise (ValueError msg)
    | None =>
        let url := before "#" url in
        let url := before "?" url in
        if negb (String.eqb netloc EmptyString) && negb (isascii netloc)
           && negb (nfkc_netloc_ok netloc)
        then Raise (ValueError ("netloc '" ++ netloc ++ "' contains invalid "
                                ++ "characters under NFKC normalization"))
        else Ok (scheme, url)
    end.

(** [urlparse(url).path]. *)
Definition urlparse_path (url : string) : result string :=
  sp <- urlsplit url ;;
  let (scheme, path) := sp in
  if in_list scheme uses_params && Str.contains ";" path
  then Ok (_splitparams path)
  else Ok path.

End WithNetlocChecks.

(** [_splittype]: a non-empty run of characters other than [/] and [:],
    then a colon, matched at the start; the scheme comes back in lower
    case. *)
Definition _splittype (url : string) : option string * string :=
  match Str.span (fun a => negb (Ascii.eqb a "/" || Ascii.eqb a ":")) url with
  | (String a pre, String colon data) =>
      if Ascii.eqb colon ":" then (Some (Str.lower (String a pre)), data)
      else (None, url)
  | _ => (None, url)
  end.

(** [unwrap]. *)
Definition unwrap (url : string) : string :=
  let url := Str.strip url in
  let url :=
    if Str.startswith url "<" && Str.endswith url ">"
    then Str.strip (Str.drop_last 1 (Str.drop 1 url)) else url in
  if Str.startswith url "URL:" then Str.strip (Str.drop 4 url) else url.

(** [_splittag]: split at the last [#]. *)
Definition _splittag (url : string) : string * option string :=
  match Str.rsplit1 "#" url with
  | Some (path, tag) => (path, Some tag)
  | None => (url, None)
  end.

Definition hexval (b : byte) : option N :=
  let c := Byte.to_N b in
  (if (48 <=? c) && (c <=? 57) then Some (c - 48)
   else if (65 <=? c) && (c <=? 70) then Some (c - 55)
   else if (97 <=? c) && (c <=? 102) then Some (c - 87)
   else None)%N.

(** The percent-decoding of [unquote_to_bytes], on the encoded bytes: a
    [%] followed by two hexadecimal digits is the byte they denote, any
    other [%] stays. *)
Fixpoint unquote (s : bytes) : bytes :=
  match s with
  | [] => []
  | b :: rest =>
      if Byte.eqb b "%"%byte then
        match rest with
        | h1 :: h2 :: rest' =>
            match hexval h1, hexval h2 with
            | Some v1, Some v2 => byte_of_N (16 * v1 + v2) :: unquote rest'
            | _, _ => b :: unquote rest
            end
        | _ => b :: unquote rest
        end
      else b :: unquote rest
  end.

(** [unquote_to_bytes(string)] for a [str]. *)
Definition unquote_to_bytes (s : string) : bytes := unquote (encode_utf8 s).

End urllib_parse.

Module binascii.

Definition alphabet : bytes :=
  list_byte_of_string
    "ABCDEFGHIJKLMNOPQRSTUVWXYZabcdefghijklmnopqrstuvwxyz0123456789+/".

Definition BASE64_PAD : byte := "="%byte.

(** [table_b2a_base64[n]]. *)
Definition table_b2a_base64 (n : N) : byte :=
  List.nth (N.to_nat n) alphabet x00.

Fixpoint index_of (b : byte) (l : bytes) (i : N) : option N :=
  match l with
  | [] => None
  | x :: l' => if Byte.eqb x b then Some i else index_of b l' (N.succ i)
  end.

(** [table_a2b_base64[ch]], [None] for the entries of 64 and above. *)
Definition table_a2b_base64 (ch : byte) : option N := index_of ch alphabet 0%N.

Local Open Scope N_scope.

(** The four 6-bit groups of three bytes. *)
Definition sextet1 (b1 : N) : N := N.shiftr b1 2.
Definition sextet2 (b1 b2 : N) : N :=
  N.lor (N.shiftl (N.land b1 3) 4) (N.shiftr b2 4).
Definition sextet3 (b2 b3 : N) : N :=
  N.lor (N.shiftl (N.land b2 15) 2) (N.shiftr b3 6).
Definition sextet4 (b3 : N) : N := N.land b3 63.

(** [b2a_base64(data, newline=False)]. *)
Fixpoint b2a_base64 (data : bytes) : bytes :=
  match data with
  | [] => []
  | [b1] =>
      let n1 := Byte.to_N b1 in
      [table_b2a_base64 (sextet1 n1); table_b2a_base64 (sextet2 n1 0);
       BASE64_PAD; BASE64_PAD]
  | [b1; b2] =>
      let n1 := Byte.to_N b1 in
      let n2 := Byte.to_N b2 in
      [table_b2a_base64 (sextet1 n1); table_b2a_base64 (sextet2 n1 n2);
       table_b2a_base64 (sextet3 n2 0); BASE64_PAD]
  | b1 :: b2 :: b3 :: rest =>
      let n1 := Byte.to_N b1 in
      let n2 := Byte.to_N b2 in
      let n3 := Byte.to_N b3 in
      table_b2a_base64 (sextet1 n1) :: table_b2a_base64 (sextet2 n1 n2)
      :: table_b2a_base64 (sextet3 n2 n3) :: table_b2a_base64 (sextet4 n3)
      :: b2a_base64 rest
  end.

(** The loop of [a2b_base64] outside strict mode.  Padding ends the input
    once a quad holds two or three characters and the pads fill it;
    characters outside the alphabet are skipped. *)
Fixpoint a2b_loop (data : bytes) (quad_pos leftchar pads : N) : result bytes :=
  match data with
  | [] =>
      if quad_pos =? 0 then Ok []
      else if quad_pos =? 1 then
        Raise (ValueError "Invalid base64-encoded string: number of data characters cannot be 1 more than a multiple of 4")
      else Raise (ValueError "Incorrect padding")
  | this_ch :: rest =>
      if Byte.eqb this_ch BASE64_PAD then
        if 2 <=? quad_pos then
          if 4 <=? quad_pos + (pads + 1) then Ok []
          else a2b_loop rest quad_pos leftchar (pads + 1)
        else a2b_loop rest quad_pos leftchar pads
      else
        match table_a2b_base64 this_ch with
        | None => a2b_loop rest quad_pos leftchar pads
        | Some v =>
            if quad_pos =? 0 then a2b_loop rest 1 v 0
            else if quad_pos =? 1 then
              out <- a2b_loop rest 2 (N.land v 15) 0 ;;
              Ok (byte_of_N (N.lor (N.shiftl leftchar 2) (N.shiftr v 4)) :: out)
            else if quad_pos =? 2 then
              out <- a2b_loop rest 3 (N.land v 3) 0 ;;
              Ok (byte_of_N (N.lor (N.shiftl leftchar 4) (N.shiftr v 2)) :: out)
            else
              out <- a2b_loop rest 0 0 0 ;;
              Ok (byte_of_N (N.lor (N.shiftl leftchar 6) v) :: out)
        end
  end.

(** The characters [b2a_base64] writes. *)
Definition is_base64_char (c : byte) : bool :=
  List.existsb (Byte.eqb c) (BASE64_PAD :: alphabet).

(** [a2b_base64(data)]; [binascii.Error] is a [ValueError]. *)
Definition a2b_base64 (data : bytes) : result bytes := a2b_loop data 0 0 0.

End binascii.

Module base64.
Definition b64encode (s : bytes) : bytes := binascii.b2a_base64 s.
Definition decodebytes (s : bytes) : result bytes := binascii.a2b_base64 s.
End base64.

Module mimetypes.

(** The branch of [MimeTypes.guess_type] for the [data] scheme, on the
    text after the scheme. *)
Definition guess_type_data (url : string) : option string :=
  match Str.split1 "," url with
  | None => None
  | Some (before_comma, _) =>
      let type := urllib_parse.before ";" before_comma in
      if Str.contains "=" type || negb (Str.contains "/" type)
      then Some "text/plain" else Some type
  end.

(** [guess_type(url)[0]].  [types_map] stands for the lookup of the
    suffix of a name in the tables of the registry. *)
Definition guess_type (types_map : string -> option string) (url : string)
  : option string :=
  match urllib_parse._splittype url with
  | (Some "data", rest) => guess_type_data rest
  | (_, rest) => types_map rest
  end.

End mimetypes.

Module urllib_request.

(** A [Request]: [_full_url], [fragment] and [type]. *)
Record Request : Type := mkRequest {
  _full_url : string;
  fragment : option string;
  type : string
}.

(** [Request(url)]: the setter of [full_url], then [_parse]. *)
Definition Request_init (url : string) : result Request :=
  let (full, frag) := urllib_parse._splittag (urllib_parse.unwrap url) in
  match urllib_parse._splittype full with
  | (None, _) => Raise (ValueError "unknown url type")
  | (Some ty, _) => Ok (mkRequest full frag ty)
  end.

(** The property [Request.full_url]. *)
Definition full_url (req : Request) : string :=
  match fragment req with
  | Some (String a f) => (_full_url req ++ "#" ++ String a f)%string
  | _ => _full_url req
  end.

Definition is_control (a : ascii) : bool :=
  let c := N_of_ascii a in ((c <=? 0x1F) || (c =? 0x7F))%N.

(** [DataHandler.data_open], then [response.read()]. *)
Definition data_open (req : Request) : result bytes :=
  match Str.split1 ":" (full_url req) with
  | None => Raise (ValueError "not enough values to unpack")
  | Some (_, data) =>
      match Str.split1 "," data with
      | None => Raise (ValueError "not enough values to unpack")
      | Some (mediatype, data) =>
          if Str.existsb is_control mediatype
          then Raise (ValueError "Control characters not allowed in data: mediatype")
          else
            let data := urllib_parse.unquote_to_bytes data in
            if Str.endswith mediatype ";base64"
            then base64.decodebytes data
            else Ok data
      end
  end.

(** [urlopen(url).read()].  Only the [data] scheme is decided here; what
    any other scheme answers is [remote]. *)
Definition urlopen_read (remote : string -> result bytes) (url : string)
  : result bytes :=
  req <- Request_init url ;;
  if String.eqb (type req) "data" then data_open req else remote url.

End urllib_request.

(** ** The file system and the network, as far as the module uses them *)

(** What the operating system finds at a path: a directory, a regular file,
    or a refusal.  [Broken errno] stands for a path that the system cannot
    examine and answers with that error number: no search permission on a
    directory above it, a name that is too long, and the like. *)
Inductive node : Type :=
| Dir
| RegFile (content : bytes)
| Broken (errno : Z).

Definition ENOENT : Z := 2.
Definition EBADF : Z := 9.
Definition ENOTDIR : Z := 20.
Definition EISDIR : Z := 21.
Definition ELOOP : Z := 40.

(** The exception for an error number of the system: [OSError] picks its
    subclass by the number.  The subclasses that the module never tells
    apart ([PermissionError] and the like) stay [OSError] with their
    number. *)
Definition oserror (errno : Z) (filename : string) : pyexc :=
  if errno =? ENOENT then FileNotFoundError filename
  else if errno =? ENOTDIR then NotADirectoryError filename
  else if errno =? EISDIR then IsADirectoryError filename
  else OSError errno filename.

(** The [errno] attribute of an exception; the already-exists error that
    [_to_write_path] raises is built from a message and has none. *)
Definition errno_of (e : pyexc) : option Z :=
  match e with
  | FileNotFoundError _ => Some ENOENT
  | NotADirectoryError _ => Some ENOTDIR
  | IsADirectoryError _ => Some EISDIR
  | OSError errno _ => Some errno
  | _ => None
  end.

(** [isinstance(e, OSError)]. *)
Definition is_OSError (e : pyexc) : bool :=
  match e with
  | FileExistsError _ | FileNotFoundError _ | IsADirectoryError _
  | NotADirectoryError _ | OSError _ _ | SameFileError => true
  | _ => false
  end.

(** [pathlib._ignore_error]. *)
Definition _ignore_error (e : pyexc) : bool :=
  match errno_of e with
  | Some n => (n =? ENOENT) || (n =? ENOTDIR) || (n =? EBADF) || (n =? ELOOP)
  | None => false
  end.

Definition PathRoot_eqb (a b : PathRoot) : bool :=
  match a, b with
  | NoRoot, NoRoot | Root1, Root1 | Root2, Root2 => true
  | _, _ => false
  end.

Fixpoint parts_eqb (a b : list string) : bool :=
  match a, b with
  | [], [] => true
  | x :: a', y :: b' => String.eqb x y && parts_eqb a' b'
  | _, _ => false
  end.

Definition Path_eqb (p q : Path) : bool :=
  PathRoot_eqb (root p) (root q) && parts_eqb (parts p) (parts q).

(** The state of the file system.  Several paths can name one file (a
    relative and an absolute spelling, a path through [..], a link):
    [realpath] gives the canonical name of what a path denotes, and [entry]
    says what is there, by canonical name.  The module creates and writes
    regular files only, which leaves [realpath] as it is.  Access rights are
    not part of the state: a file that is there can be read and written. *)
Record FS : Type := mkFS {
  realpath : Path -> Path;
  entry : Path -> option node
}.

(** A path with a NUL character in it.  The system calls refuse it with
    [ValueError] before anything is looked up, so it names nothing. *)
Definition has_nul (p : Path) : bool :=
  List.existsb (Str.contains "000"%char) (parts p).

(** What a path names.  An [FS] applied to a path stands for it. *)
Definition lookup (fs : FS) (p : Path) : option node :=
  if has_nul p then None else entry fs (realpath fs p).

Coercion lookup : FS >-> Funclass.

Arguments lookup : simpl never.

(** Two paths name one file. *)
Definition same_name (fs : FS) (p q : Path) : bool :=
  negb (has_nul p) && negb (has_nul q) && Path_eqb (realpath fs p) (realpath fs q).

Definition fs_set (fs : FS) (p : Path) (n : node) : FS :=
  mkFS (realpath fs)
       (fun q => if Path_eqb q (realpath fs p) then Some n else entry fs q).

(** The directories a canonical path goes through, below the root. *)
Definition ancestors (c : Path) : list Path :=
  map (fun k => mkPath (root c) (firstn k (parts c)))
      (seq 1 (List.length (parts c) - 1)).

(** The error number for a path at which nothing is: [ENOTDIR] when the
    path goes through a regular file, else [ENOENT]. *)
Definition missing_errno (fs : FS) (p : Path) : Z :=
  if List.existsb
       (fun q => match entry fs q with Some (RegFile _) => true | _ => false end)
       (ancestors (realpath fs p))
  then ENOTDIR else ENOENT.

(** [os.stat(path)], as far as it is used: whether the path is a directory
    ([S_ISDIR] of the mode), or the error of the lookup. *)
Definition os_stat (fs : FS) (p : Path) : result bool :=
  if has_nul p then Raise (ValueError "embedded null byte")
  else
    match fs p with
    | Some Dir => Ok true
    | Some (RegFile _) => Ok false
    | Some (Broken errno) => Raise (oserror errno (path_str p))
    | None => Raise (oserror (missing_errno fs p) (path_str p))
    end.

(** [Path.is_dir()] and [Path.exists()]: an [OSError] of [stat] that
    [_ignore_error] does not cover is raised again; a [ValueError] counts as
    nothing there. *)
Definition is_dir (fs : FS) (p : Path) : result bool :=
  match os_stat fs p with
  | Ok d => Ok d
  | Raise e =>
      if is_OSError e then if negb (_ignore_error e) then Raise e else Ok false
      else match e with ValueError _ => Ok false | _ => Raise e end
  end.

Definition path_exists (fs : FS) (p : Path) : result bool :=
  match os_stat fs p with
  | Ok _ => Ok true
  | Raise e =>
      if is_OSError e then if negb (_ignore_error e) then Raise e else Ok false
      else match e with ValueError _ => Ok false | _ => Raise e end
  end.

(** [os.path.isdir], which turns every error of [stat] into [False]. *)
Definition os_path_isdir (fs : FS) (p : Path) : bool :=
  match os_stat fs p with
  | Ok d => d
  | Raise _ => false
  end.

(** [os.path.samefile]: both paths are looked up, and name one file. *)
Definition samefile (fs : FS) (f1 f2 : Path) : result bool :=
  _ <- os_stat fs f1 ;;
  _ <- os_stat fs f2 ;;
  Ok (same_name fs f1 f2).

(** The directory a new entry would go into exists; a name just below the
    root or in the working directory has it. *)
Definition parent_is_dir (fs : FS) (p : Path) : bool :=
  let c := realpath fs p in
  match removelast (parts c) with
  | [] => true
  | ps => match entry fs (mkPath (root c) ps) with Some Dir => true | _ => false end
  end.

(** [path.open("wb")]: the file is created or truncated. *)
Definition open_wb (fs : FS) (p : Path) : result FS :=
  if has_nul p then Raise (ValueError "embedded null byte")
  else
    match fs p with
    | Some Dir => Raise (IsADirectoryError (path_str p))
    | Some (Broken errno) => Raise (oserror errno (path_str p))
    | Some (RegFile _) => Ok (fs_set fs p (RegFile []))
    | None =>
        if missing_errno fs p =? ENOTDIR then Raise (NotADirectoryError (path_str p))
        else if parent_is_dir fs p then Ok (fs_set fs p (RegFile []))
        else Raise (FileNotFoundError (path_str p))
    end.

(** [fs'] is [fs] with [n] at the file that [p] names: every path that
    names that file finds [n], and every other path what it found before. *)
Definition updated_at (fs fs' : FS) (p : Path) (n : node) : Prop :=
  realpath fs' = realpath fs
  /\ (forall q : Path, same_name fs q p = true -> fs' q = Some n)
  /\ (forall q : Path, same_name fs q p = false -> fs' q = fs q).

(** [file.write(chunk)] on the file opened at [p]. *)
Definition fs_write (fs : FS) (p : Path) (chunk : bytes) : FS :=
  match fs p with
  | Some (RegFile content) => fs_set fs p (RegFile (content ++ chunk))
  | _ => fs
  end.

(** [path.open("rb")]: the content to read. *)
Definition open_rb (fs : FS) (p : Path) : result bytes :=
  if has_nul p then Raise (ValueError "embedded null byte")
  else
    match fs p with
    | Some (RegFile content) => Ok content
    | Some Dir => Raise (IsADirectoryError (path_str p))
    | Some (Broken errno) => Raise (oserror errno (path_str p))
    | None => Raise (oserror (missing_errno fs p) (path_str p))
    end.

(** An [aiohttp.ClientResponse], as far as [WebReader] looks at it. *)
Record ClientResponse : Type := mkClientResponse {
  resp_status : Z;
  resp_reason : string;
  resp_real_url : string;
  resp_charset : option string;
  resp_content_length : option Z;
  resp_content_type : string;
  resp_content_disposition_type : option (option string);
  resp_content : list bytes
}.

(** The executor argument: [None], a [ThreadPoolExecutor], or another
    executor.  [concurrent.futures] has one other, [ProcessPoolExecutor], and
    [OtherExecutor] is followed as that one: a call runs in a worker process
    and what it returns comes back pickled.  An executor is taken in working
    order: it has not been shut down. *)
Inductive Executor : Type :=
| NoExecutor
| ThreadPoolExecutor
| OtherExecutor.

(** ** Resources *)

Inductive Rawish : Type :=
| RawBytes (b : bytes)
| RawBytearray (b : bytes)
| RawMemoryview (b : bytes)
| RawBytesIO (unread : bytes)
| RawStringIO (unread : pystr)
| RawReleasedMemoryview
| RawClosedBytesIO
| RawClosedStringIO.

(** [unwrap_bytes].  [tobytes()] on a released [memoryview] and [read()]
    on a closed [BytesIO] or [StringIO] raise [ValueError]. *)
Definition unwrap_bytes (data : Rawish) : result bytes :=
  match data with
  | RawBytearray b => Ok b
  | RawMemoryview b => Ok b
  | RawReleasedMemoryview =>
      Raise (ValueError "operation forbidden on released memoryview object")
  | RawStringIO s => utf8_encode s
  | RawClosedStringIO => Raise (ValueError "I/O operation on closed file")
  | RawBytesIO b => Ok b
  | RawClosedBytesIO => Raise (ValueError "I/O operation on closed file.")
  | RawBytes b => Ok b
  end.

(** [data.startswith(prefix)] on bytes. *)
Fixpoint bstartswith (data prefix : bytes) : bool :=
  match prefix, data with
  | [], _ => true
  | p :: prefix', d :: data' => Byte.eqb p d && bstartswith data' prefix'
  | _ :: _, [] => false
  end.

Definition b (s : string) : bytes := list_byte_of_string s.

(** [guess_mimetype_from_data]. *)
Definition guess_mimetype_from_data (data : bytes) : option string :=
  if bstartswith data ([x89] ++ b "PNG" ++ [x0d; x0a; x1a; x0a]) then Some "image/png"
  else if bstartswith (skipn 6 data) (b "Exif") || bstartswith (skipn 6 data) (b "JFIF")
  then Some "image/jpeg"
  else if bstartswith data (b "GIF87a") || bstartswith data (b "GIF89a")
  then Some "image/gif"
  else if bstartswith data (b "RIFF") && bstartswith (skipn 8 data) (b "WEBP")
  then Some "image/webp"
  else None.

Record URL : Type := mkURL {
  URL__url : string;
  URL__filename : option string
}.

Record File : Type := mkFile {
  File_path : Path;
  File_is_spoiler : bool;
  File__filename : option string
}.

Record Bytes : Type := mkBytes {
  Bytes_data : ByteData;
  Bytes__filename : string;
  Bytes_mimetype : option string;
  Bytes_is_spoiler : bool
}.

Inductive Resource : Type :=
| ResURL (u : URL)
| ResFile (f : File)
| ResBytes (x : Bytes).

(** The classes [type(self)] ranges over. *)
Inductive pyclass : Type := ClassURL | ClassFile | ClassBytes.

(** An arbitrary object, as [__eq__] receives it. *)
Inductive object : Type :=
| ObjResource (r : Resource)
| ObjOther (type_name : string).

(** What [Bytes(...)] accepts as data. *)
Inductive BytesArg : Type :=
| ArgRaw (raw : Rawish)
| ArgLazy (kind : iter_kind) (chunks : list pyobj)
| ArgOther (type_name : string).

(** What [ensure_resource] accepts; a path-like object stands as its
    [str()]. *)
Inductive Resourceish : Type :=
| IsResource (r : Resource)
| IsRawish (raw : Rawish)
| IsPathish (s : string).

(** The truth value of an optional string: [None] and the empty string
    are false. *)
Definition truthy (s : option string) : option string :=
  match s with
  | Some EmptyString => None
  | _ => s
  end.

(** [File.__init__]. *)
Definition File_init (path : Pathish) (filename : option string) (spoiler : bool)
  : File :=
  mkFile (ensure_path path) spoiler filename.

(** [File.filename]. *)
Definition File_filename (self : File) : string :=
  let filename :=
    match truthy (File__filename self) with
    | Some f => f
    | None => path_name (File_path self)
    end in
  if File_is_spoiler self then (SPOILER_TAG ++ filename)%string else filename.

(** [File.url]. *)
Definition File_url (self : File) : string :=
  ("attachment://" ++ File_filename self)%string.

(** [Bytes.filename]. *)
Definition Bytes_filename (self : Bytes) : string :=
  if Bytes_is_spoiler self then (SPOILER_TAG ++ Bytes__filename self)%string
  else Bytes__filename self.

(** [Bytes.url]. *)
Definition Bytes_url (self : Bytes) : string :=
  ("attachment://" ++ Bytes_filename self)%string.

(** ** A concrete environment, to run the definitions on examples *)

Module Sample.

Definition types_map (name : string) : option string :=
  if Str.endswith name ".png" then Some "image/png"
  else if Str.endswith name ".txt" then Some "text/plain"
  else None.

Definition guess_extension (mimetype : string) : option string :=
  if String.eqb mimetype "image/png" then Some ".png"
  else if String.eqb mimetype "text/plain" then Some ".txt"
  else None.

Definition time_uuid : string := "0192f0c4-5b6e-7a3d-8c21-4f9e6d7a1b02".

Definition netloc_error (netloc : string) : option string := None.

Definition netloc_ok (netloc : string) : bool := true.

Definition urlopen_remote (url : string) : result bytes :=
  Raise (ValueError "unknown url type").

Definition os_expanduser (part : string) : string :=
  if String.eqb part "~" then "/home/user" else part.

Definition http_request (method url : string) : result ClientResponse :=
  Ok (mkClientResponse 200 "OK" url None None "application/octet-stream" None
        [b "payload"]).

Definition request_context_name : string := "_RequestContextManager".

(** A transport that cannot connect. *)
Definition http_down (method url : string) : result ClientResponse :=
  Raise (OSError 111 "Connect call failed").

Definition generate_error_response (resp : ClientResponse) : pyexc :=
  HTTPResponseError (resp_status resp).

(** A hash that tells the classes apart, as the hash of a tuple does. *)
Definition py_hash (key : pyclass * string) : Z :=
  match fst key with
  | ClassURL => 1
  | ClassFile => 2
  | ClassBytes => 3
  end + 4 * Z.of_nat (String.length (snd key)).

(** Canonical names with [/tmp] as the working directory. *)
Definition realpath (p : Path) : Path :=
  match root p with
  | NoRoot => mkPath Root1 ("tmp" :: parts p)
  | _ => mkPath Root1 (parts p)
  end.

(** A file system with one file and one directory. *)
Definition fs : FS :=
  mkFS realpath
    (fun p =>
       if Path_eqb p (pathlib_Path "/tmp/out.bin") then Some (RegFile (b "old"))
       else if Path_eqb p (pathlib_Path "/tmp") then Some Dir
       else None).

(** A file system where the file exists in the home directory only. *)
Definition home_fs : FS :=
  mkFS realpath
    (fun p =>
       if Path_eqb p (pathlib_Path "/home/user/out.bin") then Some (RegFile (b "old"))
       else if Path_eqb p (pathlib_Path "/home/user") then Some Dir
       else if Path_eqb p (pathlib_Path "/home") then Some Dir
       else if Path_eqb p (pathlib_Path "/tmp") then Some Dir
       else None).


End Sample.

Section Files.

Set Default Proof Using "Type".

(** The type the registry of [mimetypes] gives for a name, by its
    suffix. *)
Variable types_map : string -> option string.
(** [mimetypes.guess_extension]. *)
Variable guess_extension : string -> option string.
(** [time.uuid()] of [hikari.internal.time], which is not part of the
    sources at hand: the token it returns at the call. *)
Variable time_uuid : string.
(** The two netloc checks of [urlsplit]. *)
Variable bracketed_netloc_error : string -> option string.
Variable nfkc_netloc_ok : string -> bool.
(** [urlopen(url).read()] for a URL whose scheme is not [data]. *)
Variable urlopen_remote : string -> result bytes.
(** [os.path.expanduser] of a component that starts with a tilde. *)
Variable os_expanduser : string -> string.
(** The answer of the transport to [session.request(method, url)]. *)
Variable http_request : string -> string -> result ClientResponse.
(** The name of the class of the request context that
    [session.request] returns, which differs between versions of
    [aiohttp]. *)
Variable request_context_name : string.
(** [net.generate_error_response] of [hikari.internal.net], which is not
    part of the sources at hand. *)
Variable generate_error_response : ClientResponse -> pyexc.
(** [hash] on the pair of a class and a string. *)
Variable py_hash : pyclass * string -> Z.

(** [guess_mimetype_from_filename]. *)
Definition guess_mimetype_from_filename (name : string) : option string :=
  mimetypes.guess_type types_map name.

(** [guess_file_extension]. *)
Definition guess_file_extension (mimetype : string) : option string :=
  guess_extension mimetype.

(** [generate_filename_from_details]. *)
Definition generate_filename_from_details
    (mimetype extension : option string) (data : option bytes) : string :=
  let mimetype :=
    match data, mimetype with
    | Some d, None => guess_mimetype_from_data d
    | _, _ => mimetype
    end in
  let extension :=
    match extension, mimetype with
    | None, Some m => guess_file_extension m
    | _, _ => extension
    end in
  let extension :=
    match truthy extension with
    | None => EmptyString
    | Some e => if Str.startswith e "." then e else ("." ++ e)%string
    end in
  (time_uuid ++ extension)%string.

(** [to_data_uri]. *)
Definition to_data_uri (data : bytes) (mimetype : option string) : result string :=
  mimetype <-
    match mimetype with
    | Some m => Ok m
    | None =>
        match guess_mimetype_from_data data with
        | Some m => Ok m
        | None =>
            Raise (TypeError "Cannot infer mimetype from input data, specify it manually.")
        end
    end ;;
  let b64 := string_of_list_byte (base64.b64encode data) in
  Ok ("data:" ++ mimetype ++ ";base64," ++ b64)%string.

(** [URL.filename]. *)
Definition URL_filename (self : URL) : result string :=
  match truthy (URL__filename self) with
  | Some f => Ok f
  | None =>
      path <- urllib_parse.urlparse_path bracketed_netloc_error nfkc_netloc_ok
                (URL__url self) ;;
      Ok (posixpath.basename path)
  end.

(** [Bytes.__init__]. *)
Definition Bytes_init (data : BytesArg) (filename : string)
    (mimetype : option string) (spoiler : bool) : result Bytes :=
  data <-
    match data with
    | ArgRaw raw => d <- unwrap_bytes raw ;; Ok (DataBytes d)
    | ArgLazy kind chunks => Ok (DataChunks kind chunks)
    | ArgOther type_name => Ok (DataOther type_name)
    end ;;
  let mimetype :=
    match mimetype with
    | Some m => Some m
    | None =>
        match truthy (guess_mimetype_from_filename filename) with
        | Some m => Some m
        | None => Some "text/plain;charset=UTF-8"
        end
    end in
  Ok (mkBytes data filename mimetype spoiler).

(** [Bytes.from_data_uri]. *)
Definition from_data_uri (data_uri : string) (filename : option string)
  : result Bytes :=
  if negb (Str.startswith data_uri "data:")
  then Raise (ValueError "Invalid data URI passed")
  else
    match urllib_request.urlopen_read urlopen_remote data_uri with
    | Raise _ => Raise (ValueError "Failed to decode data URI")
    | Ok data =>
        let mimetype := mimetypes.guess_type types_map data_uri in
        let filename :=
          match filename with
          | Some f => f
          | None => generate_filename_from_details mimetype None (Some data)
          end in
        Bytes_init (ArgRaw (RawBytes data)) filename mimetype false
    end.

(** [ensure_resource]. *)
Definition ensure_resource (url_or_resource : Resourceish) : result Resource :=
  match url_or_resource with
  | IsResource r => Ok r
  | IsRawish raw =>
      data <- unwrap_bytes raw ;;
      let filename := generate_filename_from_details None None (Some data) in
      x <- Bytes_init (ArgRaw (RawBytes data)) filename None false ;;
      Ok (ResBytes x)
  | IsPathish s =>
      let as_file :=
        let path := pathlib_Path s in
        Ok (ResFile (File_init (PathObj path) (Some (path_name path)) false)) in
      if Str.startswith s "https://" || Str.startswith s "http://"
      then Ok (ResURL (mkURL s None))
      else if Str.startswith s "data:" then
        match from_data_uri s None with
        | Ok x => Ok (ResBytes x)
        | Raise (ValueError _) => as_file
        | Raise e => Raise e
        end
      else as_file
  end.

(** [Resource.filename] and [Resource.url], by variant. *)
Definition Resource_filename (self : Resource) : result string :=
  match self with
  | ResURL u => URL_filename u
  | ResFile f => Ok (File_filename f)
  | ResBytes x => Ok (Bytes_filename x)
  end.

Definition Resource_url (self : Resource) : string :=
  match self with
  | ResURL u => URL__url u
  | ResFile f => File_url f
  | ResBytes x => Bytes_url x
  end.

Definition class_of (self : Resource) : pyclass :=
  match self with
  | ResURL _ => ClassURL
  | ResFile _ => ClassFile
  | ResBytes _ => ClassBytes
  end.

(** [Resource.extension]. *)
Definition Resource_extension (self : Resource) : result (option string) :=
  filename <- Resource_filename self ;;
  let '(_, _, ext) := Str.rpartition filename "." in
  Ok (if String.eqb ext filename then None else Some ext).

(** [Resource.__eq__]. *)
Definition __eq__ (self : Resource) (other : object) : bool :=
  match other with
  | ObjResource other => String.eqb (Resource_url self) (Resource_url other)
  | ObjOther _ => false
  end.

(** [Resource.__hash__]. *)
Definition __hash__ (self : Resource) : Z :=
  py_hash (class_of self, Resource_url self).

(** *** Readers *)

Record WebReader : Type := mkWebReader {
  wr_filename : string;
  wr_mimetype : option string;
  wr_stream : list bytes;
  wr_url : string;
  wr_status : Z;
  wr_reason : string;
  wr_charset : option string;
  wr_size : option Z;
  wr_head_only : bool
}.

(** [_pointer] is the open file, held as the bytes still to be read. *)
Record ThreadedFileReader : Type := mkThreadedFileReader {
  tfr_filename : string;
  tfr_mimetype : option string;
  tfr_executor : Executor;
  tfr_pointer : bytes
}.

Record IteratorReader : Type := mkIteratorReader {
  ir_filename : string;
  ir_mimetype : option string;
  ir_data : ByteData
}.

Inductive Reader : Type :=
| RWeb (r : WebReader)
| RFile (r : ThreadedFileReader)
| RIter (r : IteratorReader).

(** [WebReader.__aiter__]. *)
Definition WebReader_aiter (self : WebReader) : trace :=
  if wr_head_only self then ([[]], None) else (wr_stream self, None).

(** [ThreadedFileReader.__aiter__]: blocks of [_MAGIC] bytes, the last one
    short (and empty when the length is a multiple of [_MAGIC]). *)
Fixpoint read_blocks (fuel : nat) (pointer : bytes) : list bytes :=
  match fuel with
  | O => []
  | S fuel' =>
      let chunk := firstn (Z.to_nat _MAGIC) pointer in
      chunk :: (if len chunk <? _MAGIC then []
                else read_blocks fuel' (skipn (Z.to_nat _MAGIC) pointer))
  end.

Definition ThreadedFileReader_aiter (self : ThreadedFileReader) : trace :=
  (read_blocks (S (List.length (tfr_pointer self))) (tfr_pointer self), None).

Definition Reader_aiter (self : Reader) : trace :=
  match self with
  | RWeb r => WebReader_aiter r
  | RFile r => ThreadedFileReader_aiter r
  | RIter r => IteratorReader_aiter (ir_data r)
  end.

(** *** Handles *)

(** [_client_response_ctx] is [None] while it holds [NotImplemented]. *)
Record WebHandle : Type := mkWebHandle {
  _web_resource : URL;
  _head_only : bool;
  _client_response_ctx : option ClientResponse
}.

Record FileHandle : Type := mkFileHandle {
  fh_executor : Executor;
  fh_file : option bytes;
  fh_filename : string;
  fh_path : Path
}.

Inductive Handle : Type :=
| HWeb (h : WebHandle)
| HFile (h : FileHandle)
| HNoOp (impl : Reader).

(** [Path.expanduser]. *)
Definition expanduser (p : Path) : result Path :=
  match root p, parts p with
  | NoRoot, String "~" rest :: ps =>
      let homedir := os_expanduser (String "~" rest) in
      if Str.startswith homedir "~"
      then Raise (RuntimeError "Could not determine home directory.")
      else
        let h := pathlib_Path homedir in
        Ok (mkPath (root h) (parts h ++ ps))
  | _, _ => Ok p
  end.

(** [_open_read_path]. *)
Definition _open_read_path (fs : FS) (path : Path) : result bytes :=
  p <- expanduser path ;; open_rb fs p.

(** [_WebReaderAsyncReaderContextManagerImpl.__aenter__].  A request that
    fails raises inside [ctx.__aenter__()], before the context has its
    response; the [except] branch then calls [ctx.__aexit__] on it, which
    looks for that response and raises [AttributeError], and this is the
    error that comes out.  After a refused status or a filename that cannot
    be derived the context has been entered, and the error is raised
    again. *)
Definition WebHandle_aenter (self : WebHandle) : result Reader * WebHandle :=
  let method := if _head_only self then "HEAD" else "GET" in
  match http_request method (URL__url (_web_resource self)) with
  | Raise e =>
      (Raise (AttributeError
                ("'" ++ request_context_name ++ "' object has no attribute '_resp'")),
       self)
  | Ok resp =>
      if negb ((200 <=? resp_status resp) && (resp_status resp <? 400))
      then (Raise (generate_error_response resp), self)
      else
        match URL_filename (_web_resource self) with
        | Raise e => (Raise e, self)
        | Ok filename =>
            let mimetype :=
              match resp_content_disposition_type resp with
              | Some (Some t) => Some t
              | _ => Some (resp_content_type resp)
              end in
            (Ok (RWeb (mkWebReader filename mimetype (resp_content resp)
                         (resp_real_url resp) (resp_status resp)
                         (resp_reason resp) (resp_charset resp)
                         (resp_content_length resp) (_head_only self))),
             mkWebHandle (_web_resource self) (_head_only self) (Some resp))
        end
  end.

(** [_WebReaderAsyncReaderContextManagerImpl.__aexit__]. *)
Definition WebHandle_aexit (self : WebHandle) : result unit * WebHandle :=
  match _client_response_ctx self with
  | None =>
      (Raise (AttributeError "'NotImplementedType' object has no attribute '__aexit__'"),
       self)
  | Some _ => (Ok tt, self)
  end.

(** [_ThreadedFileReaderContextManagerImpl.__aenter__]. *)
Definition FileHandle_aenter (fs : FS) (self : FileHandle)
  : result Reader * FileHandle :=
  match fh_file self with
  | Some _ => (Raise (RuntimeError "File is already open"), self)
  | None =>
      match _open_read_path fs (fh_path self) with
      | Raise e => (Raise e, self)
      | Ok file =>
          (Ok (RFile (mkThreadedFileReader (fh_filename self) None
                        (fh_executor self) file)),
           mkFileHandle (fh_executor self) (Some file) (fh_filename self)
             (fh_path self))
      end
  end.

(** [_ThreadedFileReaderContextManagerImpl.__aexit__]. *)
Definition FileHandle_aexit (self : FileHandle) : result unit * FileHandle :=
  match fh_file self with
  | None => (Raise (RuntimeError "File isn't open"), self)
  | Some _ =>
      (Ok tt, mkFileHandle (fh_executor self) None (fh_filename self) (fh_path self))
  end.

(** [__aenter__] and [__aexit__] of a handle, by implementation; the
    no-op one returns its reader and does nothing. *)
Definition aenter (fs : FS) (h : Handle) : result Reader * Handle :=
  match h with
  | HWeb w => let (r, w') := WebHandle_aenter w in (r, HWeb w')
  | HFile f => let (r, f') := FileHandle_aenter fs f in (r, HFile f')
  | HNoOp impl => (Ok impl, HNoOp impl)
  end.

Definition aexit (h : Handle) : result unit * Handle :=
  match h with
  | HWeb w => let (r, w') := WebHandle_aexit w in (r, HWeb w')
  | HFile f => let (r, f') := FileHandle_aexit f in (r, HFile f')
  | HNoOp impl => (Ok tt, HNoOp impl)
  end.

(** [stream], by variant. *)
Definition stream (self : Resource) (executor : Executor) (head_only : bool)
  : result Handle :=
  match self with
  | ResURL u => Ok (HWeb (mkWebHandle u head_only None))
  | ResFile f =>
      match executor with
      | OtherExecutor =>
          Raise (TypeError "The executor must be a ThreadPoolExecutor or None")
      | _ => Ok (HFile (mkFileHandle executor None (File_filename f) (File_path f)))
      end
  | ResBytes x =>
      Ok (HNoOp (RIter (mkIteratorReader (Bytes_filename x) (Bytes_mimetype x)
                          (Bytes_data x))))
  end.

(** *** Saving *)

(** [_to_write_path]. *)
Definition _to_write_path (fs : FS) (path : Pathish) (default_filename : string)
    (force : bool) : result Path :=
  let path := ensure_path path in
  d <- is_dir fs path ;;
  let path := if d then joinpath path default_filename else path in
  found <- (if negb force then path_exists fs path else Ok false) ;;
  if found
  then Raise (FileExistsError (path_str path))
  else expanduser path.

(** [_open_write_path]: the path opened and the file system after the
    open. *)
Definition _open_write_path (fs : FS) (path : Pathish) (default_filename : string)
    (force : bool) : result (Path * FS) :=
  p <- _to_write_path fs path default_filename force ;;
  fs' <- open_wb fs p ;;
  Ok (p, fs').

(** The body of [Resource.save] once the file is open at [p]: the stream
    is entered and its chunks are written one after the other. *)
Definition save_chunks (fs1 : FS) (self : Resource) (executor : Executor)
    (p : Path) : result unit * FS :=
  match stream self executor false with
  | Raise e => (Raise e, fs1)
  | Ok h =>
      match aenter fs1 h with
      | (Raise e, _) => (Raise e, fs1)
      | (Ok reader, h') =>
          let (chunks, ending) := Reader_aiter reader in
          let fs2 := fold_left (fun fs chunk => fs_write fs p chunk) chunks fs1 in
          match ending with
          | Some e => (Raise e, fs2)
          | None =>
              match aexit h' with
              | (Raise e, _) => (Raise e, fs2)
              | (Ok _, _) => (Ok tt, fs2)
              end
          end
      end
  end.

(** [Resource.save]: what the call returns and the file system it
    leaves.  [_open_write_path] runs in the executor and its result, the
    open file, comes back to the caller: across a worker process it cannot
    be pickled, and the call raises [TypeError] with the file already
    created or truncated. *)
Definition Resource_save_base (fs : FS) (self : Resource) (path : Pathish)
    (executor : Executor) (force : bool) : result unit * FS :=
  match Resource_filename self with
  | Raise e => (Raise e, fs)
  | Ok filename =>
      match _open_write_path fs path filename force with
      | Raise e => (Raise e, fs)
      | Ok (p, fs1) =>
          match executor with
          | OtherExecutor =>
              (Raise (TypeError "cannot pickle '_io.BufferedWriter' object"), fs1)
          | _ => save_chunks fs1 self executor p
          end
      end
  end.

(** [shutil._samefile]: an [OSError] of the lookup counts as two files. *)
Definition _samefile (fs : FS) (src dst : Path) : result bool :=
  match samefile fs src dst with
  | Ok same => Ok same
  | Raise e => if is_OSError e then Ok false else Raise e
  end.

(** The look that [shutil.copyfile] takes at a file before it copies: an
    [OSError] of [stat] is passed over. *)
Definition _stat_or_pass (fs : FS) (fn : Path) : result unit :=
  match os_stat fs fn with
  | Ok _ => Ok tt
  | Raise e => if is_OSError e then Ok tt else Raise e
  end.

(** [shutil.copy2(src, dst)], without the metadata. *)
Definition copy2 (fs : FS) (src dst : Path) : result unit * FS :=
  let dst := if os_path_isdir fs dst then joinpath dst (path_name src) else dst in
  match _samefile fs src dst with
  | Raise e => (Raise e, fs)
  | Ok true => (Raise SameFileError, fs)
  | Ok false =>
      match (_ <- _stat_or_pass fs src ;; _stat_or_pass fs dst) with
      | Raise e => (Raise e, fs)
      | Ok _ =>
          match open_rb fs src with
          | Raise e => (Raise e, fs)
          | Ok content =>
              match open_wb fs dst with
              | Raise e => (Raise e, fs)
              | Ok fs1 => (Ok tt, fs_write fs1 dst content)
              end
          end
      end
  end.

(** [File.save], through [_copy_to_path]. *)
Definition File_save (fs : FS) (self : File) (path : Pathish)
    (executor : Executor) (force : bool) : result unit * FS :=
  match _to_write_path fs path (File_filename self) force with
  | Raise e => (Raise e, fs)
  | Ok copy_to_path => copy2 fs (File_path self) copy_to_path
  end.

(** [_write_bytes]. *)
Definition _write_bytes (fs : FS) (path : Pathish) (default_filename : string)
    (data : bytes) (force : bool) : result unit * FS :=
  match _to_write_path fs path default_filename force with
  | Raise e => (Raise e, fs)
  | Ok p =>
      match open_wb fs p with
      | Raise e => (Raise e, fs)
      | Ok fs1 => (Ok tt, fs_write fs1 p data)
      end
  end.

(** [Bytes.save]. *)
Definition Bytes_save (fs : FS) (self : Bytes) (path : Pathish)
    (executor : Executor) (force : bool) : result unit * FS :=
  match Bytes_data self with
  | DataBytes data => _write_bytes fs path (Bytes_filename self) data force
  | _ => Resource_save_base fs (ResBytes self) path executor force
  end.

(** [save], by variant. *)
Definition save (fs : FS) (self : Resource) (path : Pathish)
    (executor : Executor) (force : bool) : result unit * FS :=
  match self with
  | ResURL _ => Resource_save_base fs self path executor force
  | ResFile f => File_save fs f path executor force
  | ResBytes x => Bytes_save fs x path executor force
  end.


(** *** Reading *)

(** [WebReader.read], which overrides [AsyncReader.read]. *)
Definition WebReader_read (self : WebReader) : result bytes :=
  if wr_head_only self then Ok [] else Ok (List.concat (wr_stream self)).

(** [reader.read()], by class of reader. *)
Definition Reader_read (self : Reader) : result bytes :=
  match self with
  | RWeb r => WebReader_read r
  | RFile r => AsyncReader_read (ThreadedFileReader_aiter r)
  | RIter r => AsyncReader_read (IteratorReader_aiter (ir_data r))
  end.

Definition Reader_mimetype (self : Reader) : option string :=
  match self with
  | RWeb r => wr_mimetype r
  | RFile r => tfr_mimetype r
  | RIter r => ir_mimetype r
  end.

(** [AsyncReader.data_uri]. *)
Definition Reader_data_uri (self : Reader) : result string :=
  data <- Reader_read self ;; to_data_uri data (Reader_mimetype self).

(** [Resource.read]: the stream is entered, read to its end and left; an
    error of [__aexit__] replaces the outcome of the body. *)
Definition Resource_read (fs : FS) (self : Resource) (executor : Executor)
  : result bytes :=
  h <- stream self executor false ;;
  match aenter fs h with
  | (Raise e, _) => Raise e
  | (Ok reader, h') =>
      match aexit h' with
      | (Raise e, _) => Raise e
      | (Ok _, _) => Reader_read reader
      end
  end.

(** * Properties *)

(** ** Strings *)

Lemma contains_app (c : ascii) (s t : string) :
  Str.contains c (s ++ t)%string = Str.contains c s || Str.contains c t.
Proof.
  induction s as [|a s IH]; simpl; [reflexivity|].
  rewrite IH, orb_assoc. reflexivity.
Qed.

Lemma rsplit1_None (c : ascii) (s : string) :
  Str.rsplit1 c s = None <-> Str.contains c s = false.
Proof.
  induction s as [|a s IH]; simpl; [split; reflexivity|].
  destruct (Str.rsplit1 c s) as [[h t]|].
  - split; [discriminate|]. intros H. apply orb_false_elim in H.
    destruct H as [_ H]. apply IH in H. discriminate.
  - destruct (Ascii.eqb a c); simpl; [split; discriminate|].
    split; intros _; [apply IH|]; reflexivity.
Qed.

Lemma rsplit1_sound (c : ascii) (s h t : string) :
  Str.rsplit1 c s = Some (h, t) ->
  s = (h ++ String c t)%string /\ Str.contains c t = false.
Proof.
  revert h t. induction s as [|a s IH]; intros h t; simpl; [discriminate|].
  destruct (Str.rsplit1 c s) as [[h' t']|] eqn:E.
  - intros H. injection H as <- <-.
    destruct (IH h' t' eq_refl) as [-> Ht]. split; [reflexivity | assumption].
  - apply rsplit1_None in E.
    destruct (Ascii.eqb_spec a c) as [->|Hne]; [|discriminate].
    intros H. injection H as <- <-. split; [reflexivity | assumption].
Qed.

Lemma rsplit1_complete (c : ascii) (h t : string) :
  Str.contains c t = false ->
  Str.rsplit1 c (h ++ String c t) = Some (h, t).
Proof.
  intros Ht. induction h as [|a h IH]; simpl.
  - apply rsplit1_None in Ht. rewrite Ht, Ascii.eqb_refl. reflexivity.
  - rewrite IH. reflexivity.
Qed.

Lemma rsplit1_Some (c : ascii) (s h t : string) :
  Str.rsplit1 c s = Some (h, t) <->
  s = (h ++ String c t)%string /\ Str.contains c t = false.
Proof.
  split; [apply rsplit1_sound|]. intros [-> Ht]. now apply rsplit1_complete.
Qed.

Lemma length_append (s t : string) :
  String.length (s ++ t) = (String.length s + String.length t)%nat.
Proof. induction s as [|a s IH]; simpl; [reflexivity | now rewrite IH]. Qed.

Lemma suffix_neq (c : ascii) (h t : string) : (h ++ String c t)%string <> t.
Proof.
  intros H. apply (f_equal String.length) in H.
  rewrite length_append in H. simpl in H. lia.
Qed.

(** ** C10: the extension of a resource *)

(** C10.  Whenever the filename of a resource resolves, [extension] is
    [None] exactly when the filename holds no dot, and otherwise it is the
    text after the last dot of the filename (so the empty string when the
    filename ends with a dot). *)
Theorem extension_after_last_dot (self : Resource) (filename : string) :
  Resource_filename self = Ok filename ->
  (Resource_extension self = Ok None <-> Str.contains "." filename = false)
  /\ (forall head ext : string,
        filename = (head ++ "." ++ ext)%string ->
        Str.contains "." ext = false ->
        Resource_extension self = Ok (Some ext))
  /\ (forall ext : string,
        Resource_extension self = Ok (Some ext) ->
        exists head : string,
          filename = (head ++ "." ++ ext)%string
          /\ Str.contains "." ext = false).
Proof.
  intros Hf. unfold Resource_extension. rewrite Hf. simpl.
  unfold Str.rpartition.
  destruct (Str.rsplit1 "." filename) as [[h t]|] eqn:E.
  - apply rsplit1_Some in E. destruct E as [-> Ht].
    assert (Hneq : String.eqb t (h ++ String "." t) = false).
    { apply String.eqb_neq. intros H. symmetry in H. now apply suffix_neq in H. }
    rewrite Hneq. repeat split.
    + discriminate.
    + intros H. rewrite contains_app in H. simpl in H.
      rewrite orb_true_r in H. discriminate.
    + intros head ext Heq Hext.
      assert (E1 : Str.rsplit1 "." (h ++ String "." t) = Some (h, t))
        by (apply rsplit1_Some; split; [reflexivity | assumption]).
      assert (E2 : Str.rsplit1 "." (h ++ String "." t) = Some (head, ext))
        by (apply rsplit1_Some; split; assumption).
      rewrite E1 in E2. injection E2 as _ ->. reflexivity.
    + intros ext H. injection H as <-. exists h. split; [reflexivity | assumption].
  - apply rsplit1_None in E. rewrite String.eqb_refl. repeat split.
    + intros _. assumption.
    + intros head ext -> _. rewrite contains_app in E. simpl in E.
      rewrite orb_true_r in E. discriminate.
    + discriminate.
Qed.

(** ** C7: filenames and the spoiler tag *)

(** C7.  The filename of a [File] or [Bytes] resource is a function of
    the constructor arguments alone: the explicit filename (for a [File],
    the final component of the path when none is given), with the literal
    ["SPOILER_"] in front when the resource is built with [spoiler=True].
    Building with or without the spoiler mark leaves the path and the data
    the same. *)
Theorem spoiler_prefixes_filename :
  SPOILER_TAG = "SPOILER_"
  /\ (forall (path : Pathish) (filename : option string) (spoiler : bool),
        File_filename (File_init path filename spoiler) =
        let plain :=
          match truthy filename with
          | Some f => f
          | None => path_name (ensure_path path)
          end in
        if spoiler then ("SPOILER_" ++ plain)%string else plain)
  /\ (forall (path : Pathish) (filename : option string),
        File_filename (File_init path filename true) =
        ("SPOILER_" ++ File_filename (File_init path filename false))%string
        /\ File_path (File_init path filename true) =
           File_path (File_init path filename false))
  /\ (forall (data : BytesArg) (filename : string) (mimetype : option string),
        match Bytes_init data filename mimetype true,
              Bytes_init data filename mimetype false with
        | Ok spoiled, Ok plain =>
            Bytes_filename plain = filename
            /\ Bytes_filename spoiled = ("SPOILER_" ++ Bytes_filename plain)%string
            /\ Bytes_data spoiled = Bytes_data plain
            /\ Bytes_mimetype spoiled = Bytes_mimetype plain
        | Raise e1, Raise e0 => e1 = e0
        | _, _ => False
        end).
Proof.
  split; [reflexivity|]. split; [|split].
  - intros path filename spoiler. unfold File_filename, File_init. simpl.
    destruct spoiler; reflexivity.
  - intros path filename. split; reflexivity.
  - intros data filename mimetype. unfold Bytes_init.
    destruct data as [raw|kind chunks|type_name]; simpl.
    + destruct (unwrap_bytes raw); simpl; auto.
    + auto.
    + auto.
Qed.

(** ** C9: the MIME type of a [Bytes] resource *)

Lemma span_rest_not_colon (s : string) :
  Str.contains ":" s = false ->
  match Str.span (fun a => negb (Ascii.eqb a "/" || Ascii.eqb a ":")) s with
  | (_, String c _) => Ascii.eqb c ":" = false
  | (_, EmptyString) => True
  end.
Proof.
  induction s as [|a s IH]; cbn [Str.span Str.contains]; [exact (fun _ => I)|].
  intros H. apply orb_false_elim in H. destruct H as [Ha Hs].
  destruct (negb (Ascii.eqb a "/" || Ascii.eqb a ":")).
  - specialize (IH Hs).
    destruct (Str.span (fun a => negb (Ascii.eqb a "/" || Ascii.eqb a ":")) s)
      as [h [|c t]]; exact IH.
  - exact Ha.
Qed.

(** A name without a colon has no scheme. *)
Lemma splittype_no_colon (s : string) :
  Str.contains ":" s = false -> urllib_parse._splittype s = (None, s).
Proof.
  intros H. unfold urllib_parse._splittype.
  pose proof (span_rest_not_colon s H) as Hrest.
  destruct (Str.span (fun a => negb (Ascii.eqb a "/" || Ascii.eqb a ":")) s)
    as [[|a pre] [|c t]]; try reflexivity.
  now rewrite Hrest.
Qed.

(** C9.  A constructed [Bytes] resource always has a MIME type.  It is the
    one given; with none given it is what [mimetypes.guess_type] finds for
    the filename, which for a filename without a colon is what the registry
    has for its suffix; and when that is nothing (or empty) it is the
    default ["text/plain;charset=UTF-8"].  The constructor raises exactly
    when [unwrap_bytes] raises on its data (text that has no UTF-8
    encoding, a closed stream, a released view), and returns otherwise. *)
Theorem bytes_mimetype_never_none
    (data : BytesArg) (filename : string) (mimetype : option string)
    (spoiler : bool) :
  (forall self : Bytes,
      Bytes_init data filename mimetype spoiler = Ok self ->
      Bytes_mimetype self <> None
      /\ Bytes_mimetype self =
         Some match mimetype with
              | Some m => m
              | None =>
                  match mimetypes.guess_type types_map filename with
                  | Some EmptyString | None => "text/plain;charset=UTF-8"
                  | Some guess => guess
                  end
              end
      /\ (forall (a : ascii) (t : string),
            mimetype = None ->
            Str.contains ":" filename = false ->
            types_map filename = Some (String a t) ->
            Bytes_mimetype self = Some (String a t))
      /\ (mimetype = None ->
          Str.contains ":" filename = false ->
          types_map filename = None ->
          Bytes_mimetype self = Some "text/plain;charset=UTF-8"))
  /\ (forall (raw : Rawish) (e : pyexc),
        data = ArgRaw raw ->
        unwrap_bytes raw = Raise e ->
        Bytes_init data filename mimetype spoiler = Raise e)
  /\ ((forall (raw : Rawish) (e : pyexc),
          data = ArgRaw raw -> unwrap_bytes raw <> Raise e) ->
      exists self : Bytes, Bytes_init data filename mimetype spoiler = Ok self).
Proof.
  split; [|split].
  - intros self H. unfold Bytes_init in H.
    destruct (match data with
              | ArgRaw raw => d <- unwrap_bytes raw;; Ok (DataBytes d)
              | ArgLazy kind chunks => Ok (DataChunks kind chunks)
              | ArgOther type_name => Ok (DataOther type_name)
              end) as [d|e]; cbn [bind] in H; [|discriminate].
    injection H as <-. cbn [Bytes_mimetype].
    unfold guess_mimetype_from_filename.
    destruct mimetype as [m|].
    + split; [discriminate|]. split; [reflexivity|].
      split; [intros a t Hm; discriminate | intros Hm; discriminate].
    + assert (Hguess : Str.contains ":" filename = false ->
                       mimetypes.guess_type types_map filename = types_map filename).
      { intros Hc. unfold mimetypes.guess_type.
        now rewrite (splittype_no_colon filename Hc). }
      split; [|split; [|split]].
      * destruct (mimetypes.guess_type types_map filename) as [[|a g]|]; discriminate.
      * destruct (mimetypes.guess_type types_map filename) as [[|a g]|]; reflexivity.
      * intros a t _ Hc Ht. rewrite (Hguess Hc), Ht. reflexivity.
      * intros _ Hc Ht. rewrite (Hguess Hc), Ht. reflexivity.
  - intros raw e -> Hraw. unfold Bytes_init. rewrite Hraw. reflexivity.
  - intros Hraw. unfold Bytes_init.
    destruct data as [raw|kind chunks|type_name];
      [|eexists; reflexivity|eexists; reflexivity].
    destruct (unwrap_bytes raw) as [d|e] eqn:E; [eexists; reflexivity|].
    exfalso. exact (Hraw raw e eq_refl E).
Qed.

(** ** C3: equality and hashing of resources *)

(** C3, as the code has it.  Two resources are equal exactly when their
    URLs are equal, whatever their variants; the hash of a resource is the
    hash of the pair of its class and its URL, so resources of one class
    with equal URLs have equal hashes.  An object that is not a resource
    equals none. *)
Theorem eq_by_url_hash_by_class_and_url :
  (forall r1 r2 : Resource,
      __eq__ r1 (ObjResource r2) = true <-> Resource_url r1 = Resource_url r2)
  /\ (forall (r : Resource) (type_name : string),
        __eq__ r (ObjOther type_name) = false)
  /\ (forall r : Resource, __hash__ r = py_hash (class_of r, Resource_url r))
  /\ (forall r1 r2 : Resource,
        class_of r1 = class_of r2 ->
        __eq__ r1 (ObjResource r2) = true ->
        __hash__ r1 = __hash__ r2).
Proof.
  repeat split.
  - apply String.eqb_eq.
  - apply String.eqb_eq.
  - intros r1 r2 Hc He. apply String.eqb_eq in He.
    unfold __hash__. rewrite Hc, He. reflexivity.
Qed.

(** ** C2: entering and leaving a handle *)

(** C2, as the code has it.  The handle of a [File] resource guards its
    state: entering it while it is open raises [RuntimeError] "File is
    already open", leaving it before it was entered raises [RuntimeError]
    "File isn't open", two different errors.  The handle of a [Bytes]
    resource has no state: entering it returns its reader every time and
    leaving it always succeeds.  The handle of a URL resource does not test
    whether it is open: entering it again asks the transport again, and
    leaving it before it was entered fails on the placeholder it holds. *)
Theorem handle_state_errors :
  (forall (f : File) (executor : Executor) (head_only : bool) (h : Handle),
      stream (ResFile f) executor head_only = Ok h ->
      aexit h = (Raise (RuntimeError "File isn't open"), h)
      /\ forall (fs : FS) (reader : Reader) (h1 : Handle),
           aenter fs h = (Ok reader, h1) ->
           forall fs' : FS,
             aenter fs' h1 = (Raise (RuntimeError "File is already open"), h1))
  /\ RuntimeError "File is already open" <> RuntimeError "File isn't open"
  /\ (forall (x : Bytes) (executor : Executor) (head_only : bool),
        exists (h : Handle) (reader : Reader),
          stream (ResBytes x) executor head_only = Ok h
          /\ (forall fs : FS, aenter fs h = (Ok reader, h))
          /\ aexit h = (Ok tt, h))
  /\ (forall (u : URL) (executor : Executor) (head_only : bool),
        exists h : Handle,
          stream (ResURL u) executor head_only = Ok h
          /\ (exists msg : string, aexit h = (Raise (AttributeError msg), h))
          /\ forall (fs : FS) (reader : Reader) (h1 : Handle),
               aenter fs h = (Ok reader, h1) ->
               forall fs' : FS, aenter fs' h1 = (Ok reader, h1)).
Proof.
  split; [|split; [discriminate|split]].
  - intros f executor head_only h Hs.
    assert (Hh : h = HFile (mkFileHandle executor None (File_filename f) (File_path f))).
    { destruct executor; simpl in Hs; congruence. }
    subst h. split; [reflexivity|].
    intros fs reader h1 He fs'. simpl in He. unfold FileHandle_aenter in He.
    simpl in He.
    destruct (_open_read_path fs (File_path f)) as [file|e]; [|discriminate].
    injection He as <- <-. reflexivity.
  - intros x executor head_only. eexists. eexists.
    split; [reflexivity|]. split; reflexivity.
  - intros u executor head_only. eexists. split; [reflexivity|]. split.
    + eexists. reflexivity.
    + intros fs reader h1 He fs'. simpl in He. unfold WebHandle_aenter in He.
      simpl in He.
      destruct (http_request (if head_only then "HEAD" else "GET") (URL__url u))
        as [resp|e] eqn:E1; [|discriminate].
      destruct (negb ((200 <=? resp_status resp) && (resp_status resp <? 400)))
        eqn:E2; [discriminate|].
      destruct (URL_filename u) as [filename|e] eqn:E3; [|discriminate].
      injection He as <- <-. simpl. unfold WebHandle_aenter. simpl.
      rewrite E1, E2, E3. reflexivity.
Qed.

(** ** C1: the sizes of the chunks [IteratorReader] yields *)

Lemma len_app {A : Type} (l1 l2 : list A) : len (l1 ++ l2) = len l1 + len l2.
Proof. unfold len. rewrite length_app. lia. Qed.

Lemma len_nonneg {A : Type} (l : list A) : 0 <= len l.
Proof. unfold len. lia. Qed.

Lemma MAGIC_value : _MAGIC = 51200.
Proof. reflexivity. Qed.

(** The shape of what [rebuffer] yields from a buffer shorter than
    [_MAGIC] and chunks of at most [m] bytes: blocks of at least [_MAGIC]
    and less than [_MAGIC + m] bytes, then at most one shorter, non-empty
    remainder, which only a normal end yields. *)
Lemma rebuffer_shape (m : Z) (chunks : list bytes) :
  forall (buff : bytes) (ending : option pyexc) (ys : list bytes)
         (e : option pyexc),
    Forall (fun c => len c <= m) chunks ->
    len buff < _MAGIC ->
    rebuffer buff chunks ending = (ys, e) ->
    e = ending
    /\ exists full rest : list bytes,
         ys = full ++ rest
         /\ Forall (fun y => _MAGIC <= len y < _MAGIC + m) full
         /\ (rest = []
             \/ exists last : bytes,
                  rest = [last] /\ 0 < len last < _MAGIC /\ ending = None)
         /\ (ending = None -> List.concat ys = buff ++ List.concat chunks).
Proof.
  induction chunks as [|c chunks IH]; intros buff ending ys e Hm Hb H; simpl in H.
  - destruct ending as [exc|].
    + injection H as <- <-. split; [reflexivity|].
      exists [], []. repeat split; auto; try discriminate.
    + destruct buff as [|x buff].
      * injection H as <- <-. split; [reflexivity|].
        exists [], []. repeat split; auto.
      * injection H as <- <-. split; [reflexivity|].
        exists [], [x :: buff]. split; [reflexivity|]. split; [constructor|]. split.
        -- right. exists (x :: buff). repeat split; auto.
        -- intros _. simpl. now rewrite !app_nil_r.
  - inversion Hm as [|? ? Hc Hm']; subst.
    destruct (len (buff ++ c) <? _MAGIC) eqn:E.
    + apply Z.ltb_lt in E.
      destruct (IH _ _ _ _ Hm' E H) as [-> (full & rest & -> & Hfull & Hrest & Hcat)].
      split; [reflexivity|]. exists full, rest. repeat split; auto.
      intros Hn. rewrite (Hcat Hn). simpl. now rewrite app_assoc.
    + apply Z.ltb_ge in E.
      destruct (rebuffer [] chunks ending) as [ys' e'] eqn:R.
      injection H as <- <-.
      assert (H0 : len (@nil byte) < _MAGIC) by (rewrite MAGIC_value; reflexivity).
      destruct (IH _ _ _ _ Hm' H0 R) as [-> (full & rest & -> & Hfull & Hrest & Hcat)].
      split; [reflexivity|]. exists ((buff ++ c) :: full), rest. repeat split; auto.
      * constructor; [|assumption]. rewrite len_app in *. lia.
      * intros Hn. simpl. rewrite (Hcat Hn). simpl. now rewrite app_assoc.
Qed.

(** An exception cuts the remainder off and nothing else. *)
Lemma rebuffer_raise_prefix (e : pyexc) (chunks : list bytes) :
  forall buff : bytes,
    snd (rebuffer buff chunks (Some e)) = Some e
    /\ exists tail : list bytes,
         fst (rebuffer buff chunks None) =
         fst (rebuffer buff chunks (Some e)) ++ tail.
Proof.
  induction chunks as [|c chunks IH]; intros buff; simpl.
  - split; [reflexivity|]. eexists. reflexivity.
  - destruct (len (buff ++ c) <? _MAGIC); [apply IH|].
    destruct (IH []) as [Hs [tail Ht]].
    destruct (rebuffer [] chunks (Some e)) as [ys1 e1].
    destruct (rebuffer [] chunks None) as [ys0 e0].
    simpl in *. split; [assumption|]. exists tail. now rewrite Ht.
Qed.

Lemma firstn_len {A : Type} (n : nat) (l : list A) : len (firstn n l) <= Z.of_nat n.
Proof. unfold len. pose proof (firstn_le_length n l). lia. Qed.

Lemma slices_bounded (fuel : nat) :
  forall data : bytes, Forall (fun c => len c <= _MAGIC) (slices fuel data).
Proof.
  induction fuel as [|fuel IH]; intros data; destruct data as [|x data];
    cbn [slices]; try constructor.
  - pose proof (firstn_len (Z.to_nat _MAGIC) (x :: data)) as H.
    rewrite Z2Nat.id in H by (rewrite MAGIC_value; lia). exact H.
  - apply IH.
Qed.

(** C1, as the code has it.  When the source of an [IteratorReader]
    yields no chunk longer than [_MAGIC] (50 KiB), the reader yields blocks
    of at least [_MAGIC] and less than twice [_MAGIC] bytes, followed by at
    most one shorter, non-empty remainder; the remainder comes only when
    the source ends normally, and then the yielded chunks concatenate to
    the source chunks.  A flat buffer is such a source. *)
Theorem rebuffered_chunk_sizes
    (data : ByteData) (chunks : list bytes) (ending : option pyexc) :
  _wrap_iter data = (chunks, ending) ->
  Forall (fun c => len c <= _MAGIC) chunks ->
  exists full rest : list bytes,
    IteratorReader_aiter data = (full ++ rest, ending)
    /\ Forall (fun y => _MAGIC <= len y < 2 * _MAGIC) full
    /\ (rest = []
        \/ exists last : bytes,
             rest = [last] /\ 0 < len last < _MAGIC /\ ending = None)
    /\ (ending = None -> List.concat (full ++ rest) = List.concat chunks).
Proof.
  intros Hw Hm. unfold IteratorReader_aiter. rewrite Hw.
  destruct (rebuffer [] chunks ending) as [ys e] eqn:R.
  assert (H0 : len (@nil byte) < _MAGIC) by (rewrite MAGIC_value; reflexivity).
  destruct (rebuffer_shape _MAGIC chunks [] ending ys e Hm H0 R)
    as [-> (full & rest & -> & Hfull & Hrest & Hcat)].
  exists full, rest. split; [reflexivity|]. split; [|split; assumption].
  eapply Forall_impl; [|exact Hfull]. cbv beta. intros y Hy. lia.
Qed.

(** A flat buffer is cut into chunks of at most [_MAGIC] bytes. *)
Lemma wrap_iter_bytes_bounded (data : bytes) :
  exists chunks : list bytes,
    _wrap_iter (DataBytes data) = (chunks, None)
    /\ Forall (fun c => len c <= _MAGIC) chunks.
Proof. eexists. split; [reflexivity | apply slices_bounded]. Qed.

(** ** C8: what the reader accepts as a chunk *)

(** Chunks that are [bytes], or [str] with a UTF-8 encoding, pass
    [assert_each] as their bytes. *)
Lemma assert_each_accepts (chunks : list pyobj) (bs : list bytes) :
  Forall2 (fun c bytes_of_c => _assert_bytes c = Ok bytes_of_c) chunks bs ->
  assert_each chunks = (bs, None).
Proof.
  induction 1 as [|c x chunks bs Hc _ IH]; simpl; [reflexivity|].
  rewrite Hc, IH. reflexivity.
Qed.

(** The first chunk that is rejected ends the source; what follows it is
    never looked at. *)
Lemma assert_each_rejects
    (pre post : list pyobj) (bad : pyobj) (bs : list bytes) (e : pyexc) :
  assert_each pre = (bs, None) ->
  _assert_bytes bad = Raise e ->
  assert_each (pre ++ bad :: post) = (bs, Some e).
Proof.
  revert bs. induction pre as [|c pre IH]; intros bs Hpre Hbad; simpl in *.
  - injection Hpre as <-. rewrite Hbad. reflexivity.
  - destruct (_assert_bytes c) as [x|e']; [|discriminate].
    destruct (assert_each pre) as [ys ending] eqn:E.
    injection Hpre as <- ->. rewrite (IH ys eq_refl Hbad). reflexivity.
Qed.

Lemma wrap_iter_chunks (kind : iter_kind) (chunks : list pyobj) :
  _wrap_iter (DataChunks kind chunks) = assert_each chunks.
Proof. destruct kind; reflexivity. Qed.

Lemma chunks_bounded (bs : list bytes) :
  exists m : Z, Forall (fun c => len c <= m) bs.
Proof.
  induction bs as [|x bs [m IH]].
  - exists 0. constructor.
  - exists (Z.max (len x) m). constructor; [lia|].
    eapply Forall_impl; [|exact IH]. cbv beta. intros c Hc. lia.
Qed.

(** C8.  [_assert_bytes] turns a [str] chunk into its UTF-8 encoding and
    returns a [bytes] chunk as it is.  When every chunk of the source is
    accepted, the reader yields exactly the accepted bytes, re-buffered.
    When the chunks up to some point are accepted and the next one is
    neither [bytes] nor [str], the iteration raises [TypeError] with the
    message "Expected bytes but received " followed by the name of the
    type of that chunk; before raising it has yielded only the complete
    blocks of the run without that chunk, and it never looks at the chunks
    after it. *)
Theorem chunks_encoded_or_rejected
    (kind : iter_kind) (pre post : list pyobj) (bs : list bytes)
    (type_name : string) :
  (forall s : pystr, _assert_bytes (PyStr s) = utf8_encode s)
  /\ (forall x : bytes, _assert_bytes (PyBytes x) = Ok x)
  /\ (Forall2 (fun c bytes_of_c =>
                 c = PyBytes bytes_of_c
                 \/ exists s : pystr, c = PyStr s /\ utf8_encode s = Ok bytes_of_c)
              pre bs ->
      (exists ys : list bytes,
          IteratorReader_aiter (DataChunks kind pre) = (ys, None)
          /\ List.concat ys = List.concat bs)
      /\ (exists ys tail : list bytes,
            IteratorReader_aiter (DataChunks kind (pre ++ PyOther type_name :: post))
            = (ys, Some (TypeError ("Expected bytes but received " ++ type_name)))
            /\ Forall (fun y => _MAGIC <= len y) ys
            /\ fst (IteratorReader_aiter (DataChunks kind pre)) = ys ++ tail)).
Proof.
  split; [reflexivity|]. split; [reflexivity|]. intros Hpre.
  assert (Hacc : assert_each pre = (bs, None)).
  { apply assert_each_accepts. eapply Forall2_impl; [|exact Hpre].
    intros c x [->|[s [-> Hs]]]; [reflexivity | exact Hs]. }
  set (e := TypeError ("Expected bytes but received " ++ type_name)).
  assert (Hrej : assert_each (pre ++ PyOther type_name :: post) = (bs, Some e))
    by (apply assert_each_rejects; [exact Hacc | reflexivity]).
  unfold IteratorReader_aiter. rewrite !wrap_iter_chunks, Hacc, Hrej.
  assert (H0 : len (@nil byte) < _MAGIC) by (rewrite MAGIC_value; reflexivity).
  destruct (chunks_bounded bs) as [m Hm].
  split.
  - destruct (rebuffer [] bs None) as [ys e0] eqn:R.
    destruct (rebuffer_shape m bs [] None ys e0 Hm H0 R)
      as [-> (full & rest & -> & _ & _ & Hcat)].
    exists (full ++ rest). split; [reflexivity|]. now apply Hcat.
  - destruct (rebuffer [] bs (Some e)) as [ys e1] eqn:R.
    destruct (rebuffer_shape m bs [] (Some e) ys e1 Hm H0 R)
      as [-> (full & rest & -> & Hfull & Hrest & _)].
    destruct (rebuffer_raise_prefix e bs []) as [_ [tail Htail]].
    rewrite R in Htail. simpl in Htail.
    exists (full ++ rest), tail. split; [reflexivity|]. split; [|exact Htail].
    destruct Hrest as [->|(last & _ & _ & Hnone)]; [|discriminate].
    rewrite app_nil_r. eapply Forall_impl; [|exact Hfull].
    cbv beta. intros y Hy. lia.
Qed.

(** ** C4: the classification of [ensure_resource] *)



Lemma Bytes_init_bytes
    (data : bytes) (filename : string) (mimetype : option string)
    (spoiler : bool) :
  exists self : Bytes,
    Bytes_init (ArgRaw (RawBytes data)) filename mimetype spoiler = Ok self
    /\ Bytes_data self = DataBytes data
    /\ Bytes__filename self = filename
    /\ Bytes_is_spoiler self = spoiler.
Proof. eexists. unfold Bytes_init. simpl. repeat split. Qed.

(** [Bytes.from_data_uri] raises nothing but [ValueError]. *)
Lemma from_data_uri_raises_ValueError
    (data_uri : string) (filename : option string) (e : pyexc) :
  from_data_uri data_uri filename = Raise e ->
  exists msg : string, e = ValueError msg.
Proof.
  unfold from_data_uri.
  destruct (negb (Str.startswith data_uri "data:")).
  - intros H. injection H as <-. eexists. reflexivity.
  - destruct (urllib_request.urlopen_read urlopen_remote data_uri) as [data|e'].
    + unfold Bytes_init. simpl. discriminate.
    + intros H. injection H as <-. eexists. reflexivity.
Qed.


(** ** C6: data URIs *)

(** *** Checking a property of all numbers below a bound by running it *)

Lemma below_in_range (k : nat) (n : N) :
  (n < N.of_nat k)%N -> In n (map N.of_nat (seq 0 k)).
Proof.
  intros H. rewrite <- (N2Nat.id n). apply in_map. apply in_seq. lia.
Qed.

Lemma check_below (k : nat) (f : N -> bool) :
  List.forallb f (map N.of_nat (seq 0 k)) = true ->
  forall n : N, (n < N.of_nat k)%N -> f n = true.
Proof.
  intros H n Hn. rewrite forallb_forall in H. apply H. now apply below_in_range.
Qed.

Lemma check_below2 (k1 k2 : nat) (f : N -> N -> bool) :
  List.forallb (fun a => List.forallb (f a) (map N.of_nat (seq 0 k2)))
               (map N.of_nat (seq 0 k1)) = true ->
  forall a c : N, (a < N.of_nat k1)%N -> (c < N.of_nat k2)%N -> f a c = true.
Proof.
  intros H a c Ha Hc.
  apply (check_below k2 (f a)); [|exact Hc].
  apply (check_below k1 (fun a => List.forallb (f a) (map N.of_nat (seq 0 k2))) H a Ha).
Qed.

(** *** Base64 *)

Lemma to_N_lt_256 (x : byte) : (Byte.to_N x < 256)%N.
Proof. pose proof (Byte.to_N_bounded x). lia. Qed.

Lemma byte_of_to_N (x : byte) : byte_of_N (Byte.to_N x) = x.
Proof. unfold byte_of_N. now rewrite Byte.of_to_N. Qed.

(** Every entry of the encoding table decodes to its index and is not the
    pad. *)
Lemma table_roundtrip (n : N) :
  (n < 64)%N ->
  binascii.table_a2b_base64 (binascii.table_b2a_base64 n) = Some n
  /\ Byte.eqb (binascii.table_b2a_base64 n) binascii.BASE64_PAD = false.
Proof.
  intros Hn.
  pose (f := fun n : N =>
               match binascii.table_a2b_base64 (binascii.table_b2a_base64 n) with
               | Some m => N.eqb m n
               | None => false
               end
               && negb (Byte.eqb (binascii.table_b2a_base64 n) binascii.BASE64_PAD)).
  assert (H : f n = true).
  { apply (check_below 64 f); [vm_compute; reflexivity | exact Hn]. }
  unfold f in H. apply andb_true_iff in H. destruct H as [H1 H2].
  destruct (binascii.table_a2b_base64 (binascii.table_b2a_base64 n)) as [m|];
    [|discriminate].
  apply N.eqb_eq in H1. subst m. split; [reflexivity|].
  now apply negb_true_iff in H2.
Qed.

(** The parts of a byte. *)
Lemma byte_parts (x : N) :
  (x < 256)%N ->
  (N.shiftr x 2 < 64 /\ N.land x 3 < 4 /\ N.shiftr x 4 < 16 /\ N.land x 15 < 16
   /\ N.shiftr x 6 < 4 /\ N.land x 63 < 64
   /\ N.lor (N.shiftl (N.shiftr x 2) 2) (N.land x 3) = x
   /\ N.lor (N.shiftl (N.shiftr x 4) 4) (N.land x 15) = x
   /\ N.lor (N.shiftl (N.shiftr x 6) 6) (N.land x 63) = x)%N.
Proof.
  intros Hx.
  pose (f := fun x : N =>
               ((N.shiftr x 2 <? 64) && (N.land x 3 <? 4) && (N.shiftr x 4 <? 16)
                && (N.land x 15 <? 16) && (N.shiftr x 6 <? 4) && (N.land x 63 <? 64)
                && (N.lor (N.shiftl (N.shiftr x 2) 2) (N.land x 3) =? x)
                && (N.lor (N.shiftl (N.shiftr x 4) 4) (N.land x 15) =? x)
                && (N.lor (N.shiftl (N.shiftr x 6) 6) (N.land x 63) =? x))%N).
  assert (H : f x = true).
  { apply (check_below 256 f); [vm_compute; reflexivity | exact Hx]. }
  unfold f in H. repeat (apply andb_true_iff in H; destruct H as [H ?]).
  repeat match goal with
         | E : (_ <? _)%N = true |- _ => apply N.ltb_lt in E
         | E : (_ =? _)%N = true |- _ => apply N.eqb_eq in E
         end.
  repeat split; assumption.
Qed.

(** A 6-bit group made of [hi] above [k] low bits [lo]. *)
Lemma sextet_join (k : N) (hi lo : N) :
  (k = 4 /\ hi < 4 /\ lo < 16 \/ k = 2 /\ hi < 16 /\ lo < 4)%N ->
  (N.lor (N.shiftl hi k) lo < 64
   /\ N.shiftr (N.lor (N.shiftl hi k) lo) k = hi
   /\ N.land (N.lor (N.shiftl hi k) lo) (N.ones k) = lo)%N.
Proof.
  pose (f := fun (k : N) (hi lo : N) =>
               ((N.lor (N.shiftl hi k) lo <? 64)
                && (N.shiftr (N.lor (N.shiftl hi k) lo) k =? hi)
                && (N.land (N.lor (N.shiftl hi k) lo) (N.ones k) =? lo))%N).
  assert (H : forall k hi lo,
             (k = 4 /\ hi < 4 /\ lo < 16 \/ k = 2 /\ hi < 16 /\ lo < 4)%N ->
             f k hi lo = true).
  { intros k' hi' lo' [(-> & Hh & Hl)|(-> & Hh & Hl)].
    - apply (check_below2 4 16 (f 4%N)); [vm_compute; reflexivity | exact Hh | exact Hl].
    - apply (check_below2 16 4 (f 2%N)); [vm_compute; reflexivity | exact Hh | exact Hl]. }
  intros Hk. specialize (H k hi lo Hk). unfold f in H.
  repeat (apply andb_true_iff in H; destruct H as [H ?]).
  repeat match goal with
         | E : (_ <? _)%N = true |- _ => apply N.ltb_lt in E
         | E : (_ =? _)%N = true |- _ => apply N.eqb_eq in E
         end.
  repeat split; assumption.
Qed.

Lemma sextets_of_bytes (n1 n2 n3 : N) :
  (n1 < 256 -> n2 < 256 -> n3 < 256 ->
   binascii.sextet1 n1 < 64
   /\ binascii.sextet2 n1 n2 < 64
   /\ binascii.sextet3 n2 n3 < 64
   /\ binascii.sextet4 n3 < 64
   /\ N.lor (N.shiftl (binascii.sextet1 n1) 2) (N.shiftr (binascii.sextet2 n1 n2) 4) = n1
   /\ N.lor (N.shiftl (N.land (binascii.sextet2 n1 n2) 15) 4)
            (N.shiftr (binascii.sextet3 n2 n3) 2) = n2
   /\ N.lor (N.shiftl (N.land (binascii.sextet3 n2 n3) 3) 6) (binascii.sextet4 n3) = n3)%N.
Proof.
  intros H1 H2 H3.
  destruct (byte_parts n1 H1) as (A1 & A2 & _ & _ & _ & _ & A7 & _ & _).
  destruct (byte_parts n2 H2) as (_ & _ & B3 & B4 & _ & _ & _ & B8 & _).
  destruct (byte_parts n3 H3) as (_ & _ & _ & _ & C5 & C6 & _ & _ & C9).
  unfold binascii.sextet1, binascii.sextet2, binascii.sextet3, binascii.sextet4.
  destruct (sextet_join 4 (N.land n1 3) (N.shiftr n2 4)) as (S1 & S2 & S3);
    [left; auto|].
  destruct (sextet_join 2 (N.land n2 15) (N.shiftr n3 6)) as (T1 & T2 & T3);
    [right; auto|].
  change (N.ones 4) with 15%N in S3. change (N.ones 2) with 3%N in T3.
  rewrite S2, S3, T2, T3. repeat split; assumption.
Qed.

Lemma a2b_step (n : N) (rest : bytes) (quad_pos leftchar pads : N) :
  (n < 64)%N ->
  binascii.a2b_loop (binascii.table_b2a_base64 n :: rest) quad_pos leftchar pads =
  (if quad_pos =? 0 then binascii.a2b_loop rest 1 n 0
   else if quad_pos =? 1 then
     out <- binascii.a2b_loop rest 2 (N.land n 15) 0 ;;
     Ok (byte_of_N (N.lor (N.shiftl leftchar 2) (N.shiftr n 4)) :: out)
   else if quad_pos =? 2 then
     out <- binascii.a2b_loop rest 3 (N.land n 3) 0 ;;
     Ok (byte_of_N (N.lor (N.shiftl leftchar 4) (N.shiftr n 2)) :: out)
   else
     out <- binascii.a2b_loop rest 0 0 0 ;;
     Ok (byte_of_N (N.lor (N.shiftl leftchar 6) n) :: out))%N.
Proof.
  intros Hn. destruct (table_roundtrip n Hn) as [Ht Hp].
  cbn [binascii.a2b_loop]. rewrite Hp, Ht. reflexivity.
Qed.

Lemma a2b_b2a_upto (k : nat) :
  forall data : bytes,
    (List.length data <= k)%nat ->
    binascii.a2b_loop (binascii.b2a_base64 data) 0 0 0 = Ok data.
Proof.
  induction k as [|k IH]; intros data Hk.
  - destruct data; [reflexivity | simpl in Hk; lia].
  - destruct data as [|b1 [|b2 [|b3 rest]]]; [reflexivity| | |].
    + pose proof (to_N_lt_256 b1) as H1.
      destruct (sextets_of_bytes (Byte.to_N b1) 0 0 H1) as (S1 & S2 & _ & _ & D1 & _);
        [reflexivity | reflexivity|].
      cbn [binascii.b2a_base64].
      rewrite (a2b_step _ _ _ _ _ S1). cbn [N.eqb].
      rewrite (a2b_step _ _ _ _ _ S2). cbn [N.eqb Pos.eqb].
      rewrite D1, byte_of_to_N. reflexivity.
    + pose proof (to_N_lt_256 b1) as H1. pose proof (to_N_lt_256 b2) as H2.
      destruct (sextets_of_bytes (Byte.to_N b1) (Byte.to_N b2) 0 H1 H2)
        as (S1 & S2 & S3 & _ & D1 & D2 & _); [reflexivity|].
      cbn [binascii.b2a_base64].
      rewrite (a2b_step _ _ _ _ _ S1). cbn [N.eqb].
      rewrite (a2b_step _ _ _ _ _ S2). cbn [N.eqb Pos.eqb].
      rewrite (a2b_step _ _ _ _ _ S3). cbn [N.eqb Pos.eqb].
      rewrite D1, D2, !byte_of_to_N. reflexivity.
    + pose proof (to_N_lt_256 b1) as H1. pose proof (to_N_lt_256 b2) as H2.
      pose proof (to_N_lt_256 b3) as H3.
      destruct (sextets_of_bytes (Byte.to_N b1) (Byte.to_N b2) (Byte.to_N b3) H1 H2 H3)
        as (S1 & S2 & S3 & S4 & D1 & D2 & D3).
      cbn [binascii.b2a_base64].
      rewrite (a2b_step _ _ _ _ _ S1). cbn [N.eqb].
      rewrite (a2b_step _ _ _ _ _ S2). cbn [N.eqb Pos.eqb].
      rewrite (a2b_step _ _ _ _ _ S3). cbn [N.eqb Pos.eqb].
      rewrite (a2b_step _ _ _ _ _ S4). cbn [N.eqb Pos.eqb].
      rewrite IH by (simpl in Hk; lia).
      rewrite D1, D2, D3, !byte_of_to_N. reflexivity.
Qed.

(** Decoding what [b64encode] produced gives the data back. *)
Lemma b64_roundtrip (data : bytes) :
  base64.decodebytes (base64.b64encode data) = Ok data.
Proof. apply (a2b_b2a_upto (List.length data)). lia. Qed.

Lemma table_is_base64_char (n : N) :
  (n < 64)%N -> binascii.is_base64_char (binascii.table_b2a_base64 n) = true.
Proof.
  intros Hn.
  apply (check_below 64 (fun n => binascii.is_base64_char (binascii.table_b2a_base64 n)));
    [vm_compute; reflexivity | exact Hn].
Qed.

Lemma b2a_chars_upto (k : nat) :
  forall data : bytes,
    (List.length data <= k)%nat ->
    Forall (fun c => binascii.is_base64_char c = true) (binascii.b2a_base64 data).
Proof.
  induction k as [|k IH]; intros data Hk.
  - destruct data; [constructor | simpl in Hk; lia].
  - destruct data as [|b1 [|b2 [|b3 rest]]]; [constructor| | |].
    + pose proof (to_N_lt_256 b1) as H1.
      destruct (sextets_of_bytes (Byte.to_N b1) 0 0 H1) as (S1 & S2 & _);
        [reflexivity | reflexivity|].
      cbn [binascii.b2a_base64].
      repeat constructor; auto using table_is_base64_char.
    + pose proof (to_N_lt_256 b1) as H1. pose proof (to_N_lt_256 b2) as H2.
      destruct (sextets_of_bytes (Byte.to_N b1) (Byte.to_N b2) 0 H1 H2)
        as (S1 & S2 & S3 & _); [reflexivity|].
      cbn [binascii.b2a_base64].
      repeat constructor; auto using table_is_base64_char.
    + pose proof (to_N_lt_256 b1) as H1. pose proof (to_N_lt_256 b2) as H2.
      pose proof (to_N_lt_256 b3) as H3.
      destruct (sextets_of_bytes (Byte.to_N b1) (Byte.to_N b2) (Byte.to_N b3) H1 H2 H3)
        as (S1 & S2 & S3 & S4 & _).
      cbn [binascii.b2a_base64].
      repeat (constructor; [auto using table_is_base64_char|]).
      apply IH. simpl in Hk. lia.
Qed.

Lemma b64encode_chars (data : bytes) :
  Forall (fun c => binascii.is_base64_char c = true) (base64.b64encode data).
Proof. apply (b2a_chars_upto (List.length data)). lia. Qed.

(** What matters of a Base64 character when it stands in a URL: it is
    ASCII, and it is none of [%], [#], [,] and white space. *)
Lemma base64_char_plain (c : byte) :
  binascii.is_base64_char c = true ->
  (N_of_ascii (ascii_of_byte c) <? 128)%N = true
  /\ Byte.eqb c "%"%byte = false
  /\ Ascii.eqb (ascii_of_byte c) "#" = false
  /\ Str.isspace (ascii_of_byte c) = false.
Proof.
  intros H. unfold binascii.is_base64_char in H.
  apply existsb_exists in H. destruct H as [x [Hin Hx]].
  apply Byte.byte_dec_bl in Hx. subst x.
  pose (f := fun c : byte =>
               (N_of_ascii (ascii_of_byte c) <? 128)%N
               && negb (Byte.eqb c "%"%byte)
               && negb (Ascii.eqb (ascii_of_byte c) "#")
               && negb (Str.isspace (ascii_of_byte c))).
  assert (Hall : List.forallb f (binascii.BASE64_PAD :: binascii.alphabet) = true)
    by (vm_compute; reflexivity).
  rewrite forallb_forall in Hall. specialize (Hall c Hin). unfold f in Hall.
  repeat (apply andb_true_iff in Hall; destruct Hall as [Hall ?]).
  repeat match goal with
         | E : negb _ = true |- _ => apply negb_true_iff in E
         end.
  repeat split; assumption.
Qed.

Lemma string_of_list_byte_cons (c : byte) (bs : bytes) :
  string_of_list_byte (c :: bs) = String (ascii_of_byte c) (string_of_list_byte bs).
Proof. reflexivity. Qed.

(** Base64 text is its own UTF-8 encoding and its own percent-decoding. *)
Lemma base64_text_plain (bs : bytes) :
  Forall (fun c => binascii.is_base64_char c = true) bs ->
  urllib_parse.unquote_to_bytes (string_of_list_byte bs) = bs
  /\ Str.contains "#" (string_of_list_byte bs) = false
  /\ Str.forallb (fun a => negb (Str.isspace a)) (string_of_list_byte bs) = true.
Proof.
  unfold urllib_parse.unquote_to_bytes.
  induction 1 as [|c bs Hc _ (IH1 & IH2 & IH3)]; [repeat split|].
  destruct (base64_char_plain c Hc) as (Ha & Hp & Hh & Hs).
  rewrite string_of_list_byte_cons. cbn [encode_utf8 Str.contains Str.forallb].
  rewrite Ha, Hh, Hs, IH2, IH3. cbn [app urllib_parse.unquote].
  rewrite byte_of_ascii_of_byte, Hp, IH1. repeat split.
Qed.

(** *** Strings, continued *)

Lemma str_app_assoc (s t u : string) : ((s ++ t) ++ u = s ++ (t ++ u))%string.
Proof. induction s as [|a s IH]; simpl; [reflexivity | now rewrite IH]. Qed.

Lemma split1_app (c : ascii) (s t : string) :
  Str.contains c s = false ->
  Str.split1 c (s ++ String c t) = Some (s, t).
Proof.
  induction s as [|a s IH]; simpl; intros H.
  - now rewrite Ascii.eqb_refl.
  - apply orb_false_elim in H. destruct H as [Ha Hs].
    rewrite Ha, (IH Hs). reflexivity.
Qed.

Lemma before_cons (c a : ascii) (s : string) :
  urllib_parse.before c (String a s) =
  if Ascii.eqb a c then EmptyString else String a (urllib_parse.before c s).
Proof.
  unfold urllib_parse.before. simpl. destruct (Ascii.eqb a c); [reflexivity|].
  destruct (Str.split1 c s) as [[h t]|]; reflexivity.
Qed.

Lemma before_app_sep (c : ascii) (s t : string) :
  urllib_parse.before c (s ++ String c t) = urllib_parse.before c s.
Proof.
  induction s as [|a s IH].
  - simpl. unfold urllib_parse.before. simpl. now rewrite Ascii.eqb_refl.
  - simpl. rewrite !before_cons, IH. reflexivity.
Qed.

Lemma before_without (c : ascii) (s : string) :
  Str.contains c s = false -> urllib_parse.before c s = s.
Proof.
  induction s as [|a s IH]; intros H; [reflexivity|].
  simpl in H. apply orb_false_elim in H. destruct H as [Ha Hs].
  rewrite before_cons, Ha, (IH Hs). reflexivity.
Qed.

Lemma forallb_app (p : ascii -> bool) (s t : string) :
  Str.forallb p (s ++ t) = Str.forallb p s && Str.forallb p t.
Proof.
  induction s as [|a s IH]; simpl; [reflexivity|].
  now rewrite IH, andb_assoc.
Qed.

Lemma existsb_app (p : ascii -> bool) (s t : string) :
  Str.existsb p (s ++ t) = Str.existsb p s || Str.existsb p t.
Proof. unfold Str.existsb. rewrite forallb_app. apply negb_andb. Qed.

Lemma substring_all (s : string) : String.substring 0 (String.length s) s = s.
Proof. induction s as [|a s IH]; simpl; [reflexivity | now rewrite IH]. Qed.

Lemma substring_skip (s p : string) :
  String.substring (String.length s) (String.length p) (s ++ p) = p.
Proof. induction s as [|a s IH]; simpl; [apply substring_all | exact IH]. Qed.

Lemma endswith_app (s p : string) : Str.endswith (s ++ p) p = true.
Proof.
  unfold Str.endswith. rewrite length_append.
  replace (String.length s + String.length p - String.length p)%nat
    with (String.length s) by lia.
  rewrite substring_skip, String.eqb_refl, andb_true_r.
  apply Nat.leb_le. lia.
Qed.

Lemma rstrip_keeps (strip : ascii -> bool) (s : string) :
  Str.forallb (fun a => negb (strip a)) s = true -> Str.rstrip strip s = s.
Proof.
  induction s as [|a s IH]; simpl; [reflexivity|]. intros H.
  apply andb_true_iff in H. destruct H as [Ha Hs]. rewrite (IH Hs).
  apply negb_true_iff in Ha. rewrite Ha. destruct s; reflexivity.
Qed.

Lemma rstrip_app (strip : ascii -> bool) (s t : string) :
  t <> EmptyString -> Str.rstrip strip t = t ->
  Str.rstrip strip (s ++ t) = (s ++ t)%string.
Proof.
  intros Hne Ht. induction s as [|a s IH]; simpl; [exact Ht|].
  rewrite IH. destruct (s ++ t)%string eqn:E; [|reflexivity].
  destruct s; simpl in E; [congruence | discriminate].
Qed.

Lemma rsplit1_app_suffix (c : ascii) (s t : string) :
  Str.contains c t = false ->
  Str.rsplit1 c (s ++ t) =
  match Str.rsplit1 c s with
  | Some (h, t') => Some (h, (t' ++ t)%string)
  | None => None
  end.
Proof.
  intros Ht. induction s as [|a s IH]; simpl.
  - now apply rsplit1_None.
  - rewrite IH. destruct (Str.rsplit1 c s) as [[h t']|]; [reflexivity|].
    destruct (Ascii.eqb a c); reflexivity.
Qed.

(** *** Opening a data URI *)

Lemma unwrap_data (rest : string) :
  Str.rstrip Str.isspace ("data:" ++ rest) = ("data:" ++ rest)%string ->
  urllib_parse.unwrap ("data:" ++ rest) = ("data:" ++ rest)%string.
Proof.
  intros H. unfold urllib_parse.unwrap, Str.strip.
  change (Str.lstrip Str.isspace ("data:" ++ rest)) with ("data:" ++ rest)%string.
  rewrite H. reflexivity.
Qed.

Lemma splittag_data (rest : string) :
  urllib_parse._splittag ("data:" ++ rest) =
  match Str.rsplit1 "#" rest with
  | Some (h, t) => (("data:" ++ h)%string, Some t)
  | None => (("data:" ++ rest)%string, None)
  end.
Proof.
  unfold urllib_parse._splittag. simpl.
  destruct (Str.rsplit1 "#" rest) as [[h t]|]; reflexivity.
Qed.

Lemma splittype_data (rest : string) :
  urllib_parse._splittype ("data:" ++ rest) = (Some "data", rest).
Proof. reflexivity. Qed.

(** The request for a data URI that ends in text which is not empty and
    holds neither [#] nor white space: it is the URI itself. *)
Lemma request_of_data_uri (rest suffix : string) :
  suffix <> EmptyString ->
  Str.contains "#" suffix = false ->
  Str.forallb (fun a => negb (Str.isspace a)) suffix = true ->
  exists req : urllib_request.Request,
    urllib_request.Request_init ("data:" ++ rest ++ suffix) = Ok req
    /\ urllib_request.full_url req = ("data:" ++ rest ++ suffix)%string
    /\ urllib_request.type req = "data".
Proof.
  intros Hne Hhash Hspace.
  assert (Hstrip : Str.rstrip Str.isspace ("data:" ++ rest ++ suffix)
                   = ("data:" ++ rest ++ suffix)%string).
  { rewrite <- str_app_assoc. apply rstrip_app; [exact Hne|].
    now apply rstrip_keeps. }
  unfold urllib_request.Request_init.
  rewrite (unwrap_data _ Hstrip), splittag_data, (rsplit1_app_suffix _ _ _ Hhash).
  destruct (Str.rsplit1 "#" rest) as [[h t]|] eqn:E.
  - rewrite splittype_data. eexists. split; [reflexivity|]. split; [|reflexivity].
    apply rsplit1_sound in E. destruct E as [-> _].
    unfold urllib_request.full_url. simpl.
    destruct (t ++ suffix)%string eqn:Et.
    + destruct t; simpl in Et; [congruence | discriminate].
    + rewrite <- Et. rewrite !str_app_assoc. reflexivity.
  - rewrite splittype_data. eexists. split; [reflexivity|]. split; reflexivity.
Qed.

(** The URI [to_data_uri] writes, cut where the media type ends. *)
Lemma data_uri_shape (m t : string) :
  ("data:" ++ m ++ ";base64," ++ t)%string
  = ("data:" ++ (m ++ ";base64") ++ String "," t)%string.
Proof.
  change (";base64," ++ t)%string with (";base64" ++ String "," t)%string.
  now rewrite str_app_assoc.
Qed.

Lemma split_media_type (m t : string) :
  Str.contains "," m = false ->
  Str.split1 "," ((m ++ ";base64") ++ String "," t) = Some ((m ++ ";base64")%string, t).
Proof.
  intros Hm. apply split1_app. rewrite contains_app, Hm. reflexivity.
Qed.

(** Reading the URI of [data] under a media type without commas and
    control characters gives [data]. *)
Lemma urlopen_data_uri (m : string) (data : bytes) :
  Str.contains "," m = false ->
  Str.existsb urllib_request.is_control m = false ->
  urllib_request.urlopen_read urlopen_remote
    ("data:" ++ m ++ ";base64," ++ string_of_list_byte (base64.b64encode data))
  = Ok data.
Proof.
  intros Hcomma Hctl.
  destruct (base64_text_plain _ (b64encode_chars data)) as (Hunq & Hhash & Hspace).
  set (t := string_of_list_byte (base64.b64encode data)) in *.
  rewrite data_uri_shape.
  destruct (request_of_data_uri (m ++ ";base64") (String "," t)) as (req & Hreq & Hfull & Hty).
  - discriminate.
  - simpl. exact Hhash.
  - simpl. exact Hspace.
  - unfold urllib_request.urlopen_read. rewrite Hreq. simpl. rewrite Hty. simpl.
    unfold urllib_request.data_open. rewrite Hfull.
    change (Str.split1 ":" ("data:" ++ (m ++ ";base64") ++ String "," t))
      with (Some ("data", ((m ++ ";base64") ++ String "," t)%string)).
    cbv iota. rewrite (split_media_type m t Hcomma).
    rewrite existsb_app, Hctl. simpl.
    rewrite endswith_app, Hunq. apply b64_roundtrip.
Qed.

(** The media type [mimetypes] reads off that URI. *)
Lemma guess_type_data_uri (m t : string) :
  Str.contains "," m = false ->
  mimetypes.guess_type types_map ("data:" ++ m ++ ";base64," ++ t) =
  Some (let type := urllib_parse.before ";" m in
        if Str.contains "=" type || negb (Str.contains "/" type)
        then "text/plain" else type).
Proof.
  intros Hcomma. rewrite data_uri_shape. unfold mimetypes.guess_type.
  rewrite splittype_data. cbv iota. unfold mimetypes.guess_type_data.
  rewrite (split_media_type m t Hcomma).
  change (m ++ ";base64")%string with (m ++ String ";" "base64")%string.
  rewrite before_app_sep. cbv zeta.
  destruct (Str.contains "=" (urllib_parse.before ";" m)
            || negb (Str.contains "/" (urllib_parse.before ";" m))); reflexivity.
Qed.

Lemma sniffed_mimetype_plain (data : bytes) (m : string) :
  guess_mimetype_from_data data = Some m ->
  Str.contains "," m = false
  /\ Str.existsb urllib_request.is_control m = false
  /\ Str.contains ";" m = false
  /\ Str.contains "=" m = false
  /\ Str.contains "/" m = true.
Proof.
  unfold guess_mimetype_from_data.
  repeat match goal with
         | |- context [if ?c then _ else _] => destruct c
         end;
    intros H; try discriminate; injection H as <-; repeat split; reflexivity.
Qed.

Lemma from_data_uri_of_encoded (m : string) (data : bytes) :
  Str.contains "," m = false ->
  Str.existsb urllib_request.is_control m = false ->
  exists x : Bytes,
    from_data_uri
      ("data:" ++ m ++ ";base64," ++ string_of_list_byte (base64.b64encode data))
      None = Ok x
    /\ Bytes_data x = DataBytes data
    /\ Bytes_mimetype x =
       Some (let type := urllib_parse.before ";" m in
             if Str.contains "=" type || negb (Str.contains "/" type)
             then "text/plain" else type).
Proof.
  intros Hcomma Hctl. unfold from_data_uri.
  change (Str.startswith
            ("data:" ++ m ++ ";base64," ++ string_of_list_byte (base64.b64encode data))
            "data:") with true.
  cbv iota. simpl negb. cbv iota.
  rewrite (urlopen_data_uri m data Hcomma Hctl).
  rewrite (guess_type_data_uri m _ Hcomma).
  unfold Bytes_init. simpl. eexists. repeat split.
Qed.

(** C6, as the code has it.  When [to_data_uri(data, mimetype)] succeeds
    and the media type it writes holds no comma and no control character
    (so for every sniffed type, and for "image/png"),
    [Bytes.from_data_uri] of the result returns a [Bytes] resource with
    exactly [data].  Its MIME type is the media type up to its first
    semicolon when that holds a slash and no equals sign, and "text/plain"
    otherwise: it is the original type for a plain [type/subtype], such as
    every sniffed type. *)
Theorem data_uri_roundtrip (data : bytes) (mimetype : option string) (uri : string) :
  to_data_uri data mimetype = Ok uri ->
  (forall m : string,
      mimetype = Some m ->
      Str.contains "," m = false
      /\ Str.existsb urllib_request.is_control m = false) ->
  exists (x : Bytes) (m : string),
    (mimetype = Some m
     \/ mimetype = None /\ guess_mimetype_from_data data = Some m)
    /\ from_data_uri uri None = Ok x
    /\ Bytes_data x = DataBytes data
    /\ Bytes_mimetype x =
       Some (let type := urllib_parse.before ";" m in
             if Str.contains "=" type || negb (Str.contains "/" type)
             then "text/plain" else type)
    /\ (Str.contains ";" m = false ->
        Str.contains "=" m = false ->
        Str.contains "/" m = true ->
        Bytes_mimetype x = Some m)
    /\ (mimetype = None -> Bytes_mimetype x = Some m).
Proof.
  intros Huri Hplain.
  assert (Hmain : forall m,
             uri = ("data:" ++ m ++ ";base64,"
                    ++ string_of_list_byte (base64.b64encode data))%string ->
             Str.contains "," m = false ->
             Str.existsb urllib_request.is_control m = false ->
             exists x : Bytes,
               from_data_uri uri None = Ok x
               /\ Bytes_data x = DataBytes data
               /\ Bytes_mimetype x =
                  Some (let type := urllib_parse.before ";" m in
                        if Str.contains "=" type || negb (Str.contains "/" type)
                        then "text/plain" else type)
               /\ (Str.contains ";" m = false ->
                   Str.contains "=" m = false ->
                   Str.contains "/" m = true ->
                   Bytes_mimetype x = Some m)).
  { intros m -> Hcomma Hctl.
    destruct (from_data_uri_of_encoded m data Hcomma Hctl) as (x & Hx & Hd & Hm).
    exists x. repeat split; try assumption.
    intros Hsemi Heq Hslash. rewrite Hm. cbv zeta.
    rewrite (before_without _ _ Hsemi), Heq, Hslash. reflexivity. }
  unfold to_data_uri in Huri. destruct mimetype as [m|].
  - simpl in Huri. injection Huri as <-.
    destruct (Hplain m eq_refl) as [Hcomma Hctl].
    destruct (Hmain m eq_refl Hcomma Hctl) as (x & Hx & Hd & Hm & Hsame).
    exists x, m. repeat split; auto. discriminate.
  - destruct (guess_mimetype_from_data data) as [m|] eqn:Hg; [|discriminate].
    simpl in Huri. injection Huri as <-.
    destruct (sniffed_mimetype_plain data m Hg) as (Hcomma & Hctl & Hsemi & Heq & Hslash).
    destruct (Hmain m eq_refl Hcomma Hctl) as (x & Hx & Hd & Hm & Hsame).
    exists x, m. repeat split; auto.
Qed.

(** * Further properties of the module *)

(** ** Chunking of flat buffers and of files *)

Lemma MAGIC_nat : Z.of_nat (Z.to_nat _MAGIC) = _MAGIC /\ (0 < Z.to_nat _MAGIC)%nat.
Proof. rewrite MAGIC_value. split; lia. Qed.

Lemma slices_nil (fuel : nat) : slices fuel [] = [].
Proof. destruct fuel; reflexivity. Qed.

Lemma slices_cons (fuel : nat) (x : byte) (data : bytes) :
  slices (S fuel) (x :: data) =
  firstn (Z.to_nat _MAGIC) (x :: data)
  :: slices fuel (skipn (Z.to_nat _MAGIC) (x :: data)).
Proof. reflexivity. Qed.

(** What [_wrap_iter] cuts a flat buffer into, and that [rebuffer] passes
    the cuts on one by one. *)
Lemma slices_shape (fuel : nat) :
  forall data : bytes,
    (List.length data <= fuel)%nat ->
    List.concat (slices fuel data) = data
    /\ Forall (fun y => 0 < len y <= _MAGIC) (slices fuel data)
    /\ (forall (pre post : list bytes) (y : bytes),
          slices fuel data = pre ++ y :: post -> post <> [] -> len y = _MAGIC)
    /\ rebuffer [] (slices fuel data) None = (slices fuel data, None).
Proof.
  destruct MAGIC_nat as [HM Hpos]. remember (Z.to_nat _MAGIC) as n eqn:Hn.
  induction fuel as [|fuel IH]; intros data Hlen.
  - destruct data; [|simpl in Hlen; lia]. repeat split; try constructor.
    intros pre post y H. destruct pre; discriminate.
  - destruct data as [|x data].
    { rewrite slices_nil. repeat split; try constructor.
      intros pre post y H. destruct pre; discriminate. }
    rewrite slices_cons, <- Hn.
    assert (Hskip : (List.length (skipn n (x :: data)) <= fuel)%nat).
    { rewrite length_skipn. cbn [List.length] in *. lia. }
    destruct (IH _ Hskip) as (Hcat & Hsize & Hfull & Hreb).
    assert (Hfirst : (List.length (firstn n (x :: data))
                      = Nat.min n (List.length (x :: data)))%nat)
      by apply length_firstn.
    split; [|split; [|split]].
    + simpl List.concat. rewrite Hcat. apply firstn_skipn.
    + constructor; [|exact Hsize]. unfold len. rewrite Hfirst. simpl List.length. lia.
    + intros pre post y H Hpost. destruct pre as [|z pre]; simpl in H.
      * injection H as <- Hrest.
        destruct (skipn n (x :: data)) as [|w rest] eqn:Es.
        { rewrite slices_nil in Hrest. congruence. }
        assert (Hl : (List.length (skipn n (x :: data)) > 0)%nat)
          by (rewrite Es; simpl; lia).
        rewrite length_skipn in Hl. unfold len. rewrite Hfirst. lia.
      * injection H as _ Hrest. exact (Hfull pre post y Hrest Hpost).
    + cbn [rebuffer app].
      destruct (len (firstn n (x :: data)) <? _MAGIC) eqn:E.
      * apply Z.ltb_lt in E. unfold len in E. rewrite Hfirst in E.
        assert (Hall : skipn n (x :: data) = [])
          by (apply skipn_all2; lia).
        rewrite Hall, slices_nil. cbn [rebuffer].
        destruct (firstn n (x :: data)) eqn:Ef; [|reflexivity].
        simpl in Hfirst. lia.
      * rewrite Hreb. reflexivity.
Qed.

(** An [IteratorReader] over a flat buffer yields the buffer in blocks of
    exactly [_MAGIC] bytes, the last one shorter when the length is not a
    multiple of [_MAGIC]; no block is empty, so an empty buffer yields
    nothing; the blocks concatenate to the buffer. *)
Theorem flat_buffer_blocks (data : bytes) :
  exists ys : list bytes,
    IteratorReader_aiter (DataBytes data) = (ys, None)
    /\ List.concat ys = data
    /\ Forall (fun y => 0 < len y <= _MAGIC) ys
    /\ (forall (pre post : list bytes) (y : bytes),
          ys = pre ++ y :: post -> post <> [] -> len y = _MAGIC)
    /\ (data = [] -> ys = []).
Proof.
  destruct (slices_shape (List.length data) data (le_n _))
    as (Hcat & Hsize & Hfull & Hreb).
  exists (slices (List.length data) data).
  unfold IteratorReader_aiter. cbn [_wrap_iter]. rewrite Hreb.
  repeat split; try assumption. intros ->. reflexivity.
Qed.

(** What [ThreadedFileReader.__aiter__] reads from a file: full blocks,
    then one short block that ends the loop. *)
Lemma read_blocks_shape (fuel : nat) :
  forall pointer : bytes,
    (List.length pointer < fuel)%nat ->
    exists (full : list bytes) (last : bytes),
      read_blocks fuel pointer = full ++ [last]
      /\ Forall (fun y => len y = _MAGIC) full
      /\ 0 <= len last < _MAGIC
      /\ List.concat (full ++ [last]) = pointer.
Proof.
  destruct MAGIC_nat as [HM Hpos]. remember (Z.to_nat _MAGIC) as n eqn:Hn.
  induction fuel as [|fuel IH]; intros pointer Hlen; [lia|].
  cbn [read_blocks]. rewrite <- Hn.
  assert (Hfirst : (List.length (firstn n pointer)
                    = Nat.min n (List.length pointer))%nat)
    by apply length_firstn.
  destruct (len (firstn n pointer) <? _MAGIC) eqn:E.
  - apply Z.ltb_lt in E. exists [], (firstn n pointer).
    split; [reflexivity|]. split; [constructor|]. split; [split; [apply len_nonneg | exact E]|].
    simpl. rewrite app_nil_r. apply firstn_all2.
    unfold len in E. rewrite Hfirst in E. lia.
  - apply Z.ltb_ge in E. unfold len in E. rewrite Hfirst in E.
    assert (Hskip : (List.length (skipn n pointer) < fuel)%nat)
      by (rewrite length_skipn; lia).
    destruct (IH _ Hskip) as (full & last & Hrb & Hfull & Hlast & Hcat).
    exists (firstn n pointer :: full), last. rewrite Hrb.
    split; [reflexivity|]. split; [|split; [exact Hlast|]].
    + constructor; [|exact Hfull]. unfold len. rewrite Hfirst. lia.
    + simpl. simpl in Hcat. rewrite Hcat. apply firstn_skipn.
Qed.

Lemma file_read_all (self : ThreadedFileReader) :
  AsyncReader_read (ThreadedFileReader_aiter self) = Ok (tfr_pointer self).
Proof.
  destruct (read_blocks_shape (S (List.length (tfr_pointer self))) (tfr_pointer self))
    as (full & last & Hrb & _ & _ & Hcat); [lia|].
  unfold ThreadedFileReader_aiter. rewrite Hrb. cbn [AsyncReader_read].
  now rewrite Hcat.
Qed.

(** A [ThreadedFileReader] always yields at least one chunk: blocks of
    exactly [_MAGIC] bytes and then one shorter chunk, which is empty when
    the rest of the file is a multiple of [_MAGIC] long (so an empty file
    yields one empty chunk).  The chunks concatenate to what was left to
    read. *)
Theorem file_reader_blocks (self : ThreadedFileReader) :
  exists (full : list bytes) (last : bytes),
    ThreadedFileReader_aiter self = (full ++ [last], None)
    /\ Forall (fun y => len y = _MAGIC) full
    /\ 0 <= len last < _MAGIC
    /\ List.concat (full ++ [last]) = tfr_pointer self
    /\ len (tfr_pointer self) = _MAGIC * len full + len last.
Proof.
  destruct (read_blocks_shape (S (List.length (tfr_pointer self))) (tfr_pointer self))
    as (full & last & Hrb & Hfull & Hlast & Hcat); [lia|].
  exists full, last. unfold ThreadedFileReader_aiter. rewrite Hrb.
  repeat split; try assumption; try apply Hlast.
  rewrite <- Hcat, concat_app, len_app. cbn [List.concat].
  rewrite app_nil_r. f_equal. clear Hcat Hrb.
  induction Hfull as [|y full Hy _ IH]; cbn [List.concat].
  - unfold len. cbn [List.length]. lia.
  - rewrite len_app, IH, Hy. unfold len. cbn [List.length]. lia.
Qed.

(** ** What re-buffering keeps *)

Lemma rebuffer_count (chunks : list bytes) :
  forall (buff : bytes) (ending : option pyexc),
    (List.length (fst (rebuffer buff chunks ending))
     <= List.length chunks + match buff with [] => 0 | _ => 1 end)%nat.
Proof.
  induction chunks as [|c chunks IH]; intros buff ending; cbn [rebuffer].
  - destruct ending; destruct buff; simpl; lia.
  - destruct (len (buff ++ c) <? _MAGIC).
    + specialize (IH (buff ++ c) ending).
      destruct (buff ++ c) eqn:E; destruct buff; cbn [List.length] in *;
        try lia; discriminate.
    + specialize (IH [] ending).
      destruct (rebuffer [] chunks ending) as [ys e].
      cbn [fst List.length] in *. destruct buff; lia.
Qed.

(** Whatever the source yields, also empty chunks and chunks of any size,
    an [IteratorReader] never yields an empty chunk, and it never yields
    more chunks than it pulled from its source. *)
Theorem reader_yields_no_empty_chunk (data : ByteData) :
  Forall (fun y => 0 < len y) (fst (IteratorReader_aiter data))
  /\ (List.length (fst (IteratorReader_aiter data))
      <= List.length (fst (_wrap_iter data)))%nat.
Proof.
  unfold IteratorReader_aiter.
  destruct (_wrap_iter data) as [chunks ending]. cbn [fst]. split.
  - destruct (chunks_bounded chunks) as [m Hm].
    destruct (rebuffer [] chunks ending) as [ys e] eqn:R.
    assert (H0 : len (@nil byte) < _MAGIC) by (rewrite MAGIC_value; reflexivity).
    destruct (rebuffer_shape m chunks [] ending ys e Hm H0 R)
      as [_ (full & rest & -> & Hfull & Hrest & _)].
    cbn [fst]. apply Forall_app. split.
    + eapply Forall_impl; [|exact Hfull]. cbv beta. intros y Hy.
      rewrite MAGIC_value in Hy. lia.
    + destruct Hrest as [->|(last & -> & Hlast & _)]; repeat constructor.
      apply Hlast.
  - pose proof (rebuffer_count chunks [] ending) as H. cbv iota in H. lia.
Qed.

Lemma read_through_rebuffer (data : ByteData) :
  AsyncReader_read (IteratorReader_aiter data) = AsyncReader_read (_wrap_iter data).
Proof.
  unfold IteratorReader_aiter.
  destruct (_wrap_iter data) as [chunks ending].
  destruct (chunks_bounded chunks) as [m Hm].
  destruct (rebuffer [] chunks ending) as [ys e] eqn:R.
  assert (H0 : len (@nil byte) < _MAGIC) by (rewrite MAGIC_value; reflexivity).
  destruct (rebuffer_shape m chunks [] ending ys e Hm H0 R)
    as [-> (full & rest & -> & _ & _ & Hcat)].
  destruct ending as [exc|]; [reflexivity|].
  cbn [AsyncReader_read]. now rewrite (Hcat eq_refl).
Qed.

(** Re-buffering changes the cuts and nothing else: reading an
    [IteratorReader] to its end gives the concatenation of what its source
    yields, and raises what the source raises. *)
Theorem rebuffering_preserves_read
    (data : ByteData) (chunks : list bytes) (ending : option pyexc) :
  _wrap_iter data = (chunks, ending) ->
  AsyncReader_read (IteratorReader_aiter data)
  = match ending with
    | Some e => Raise e
    | None => Ok (List.concat chunks)
    end.
Proof.
  intros H. rewrite read_through_rebuffer, H. reflexivity.
Qed.

(** [read()] on a [Bytes] resource over a flat buffer returns the buffer,
    whatever the file system and the executor. *)
Theorem bytes_read_returns_data
    (fs : FS) (self : Bytes) (executor : Executor) (data : bytes) :
  Bytes_data self = DataBytes data ->
  Resource_read fs (ResBytes self) executor = Ok data.
Proof.
  intros Hd. unfold Resource_read. cbn [stream bind aenter aexit Reader_read ir_data].
  rewrite read_through_rebuffer, Hd. cbn [_wrap_iter AsyncReader_read].
  now rewrite (proj1 (slices_shape (List.length data) data (le_n _))).
Qed.

(** ** The file system *)

Lemma parts_eqb_refl (ps : list string) : parts_eqb ps ps = true.
Proof.
  induction ps as [|x ps IH]; simpl; [reflexivity|].
  now rewrite String.eqb_refl, IH.
Qed.

Lemma Path_eqb_refl (p : Path) : Path_eqb p p = true.
Proof.
  unfold Path_eqb. rewrite parts_eqb_refl. destruct (root p); reflexivity.
Qed.

Lemma parts_eqb_eq (ps qs : list string) : parts_eqb ps qs = true -> ps = qs.
Proof.
  revert qs. induction ps as [|x ps IH]; intros [|y qs] H; try discriminate;
    [reflexivity|].
  cbn [parts_eqb] in H. apply andb_true_iff in H. destruct H as [Hx Hps].
  apply String.eqb_eq in Hx. now rewrite Hx, (IH qs Hps).
Qed.

Lemma Path_eqb_eq (p q : Path) : Path_eqb p q = true -> p = q.
Proof.
  destruct p as [rp pp], q as [rq pq]. unfold Path_eqb. cbn [root parts].
  intros H. apply andb_true_iff in H. destruct H as [Hr Hp].
  rewrite (parts_eqb_eq _ _ Hp). destruct rp, rq; try discriminate; reflexivity.
Qed.

(** A path that names something holds no NUL. *)
Lemma lookup_no_nul (fs : FS) (p : Path) (n : node) :
  fs p = Some n -> has_nul p = false.
Proof. unfold lookup. destruct (has_nul p); [discriminate | reflexivity]. Qed.

(** Paths that name one file are looked up alike. *)
Lemma same_name_lookup (fs : FS) (p q : Path) :
  same_name fs p q = true -> fs p = fs q.
Proof.
  unfold same_name, lookup. intros H.
  apply andb_true_iff in H. destruct H as [H Heq].
  apply andb_true_iff in H. destruct H as [Hp Hq].
  apply negb_true_iff in Hp, Hq. now rewrite Hp, Hq, (Path_eqb_eq _ _ Heq).
Qed.

Lemma same_name_refl (fs : FS) (p : Path) :
  has_nul p = false -> same_name fs p p = true.
Proof. intros H. unfold same_name. now rewrite H, Path_eqb_refl. Qed.

Lemma updated_at_self (fs fs' : FS) (p : Path) (n : node) :
  has_nul p = false -> updated_at fs fs' p n -> fs' p = Some n.
Proof. intros Hp (_ & H & _). apply H, same_name_refl, Hp. Qed.

Lemma updated_at_set (fs : FS) (p : Path) (n : node) :
  has_nul p = false -> updated_at fs (fs_set fs p n) p n.
Proof.
  intros Hp. unfold updated_at, fs_set, lookup, same_name. cbn [realpath entry].
  rewrite Hp. cbn [negb andb]. split; [reflexivity|].
  split; intros q Hq; destruct (has_nul q); cbn [negb andb] in Hq;
    try discriminate; try reflexivity; now rewrite Hq.
Qed.

Lemma updated_at_again (fs fs1 fs2 : FS) (p : Path) (n m : node) :
  updated_at fs fs1 p n -> updated_at fs1 fs2 p m -> updated_at fs fs2 p m.
Proof.
  intros (Hr1 & Hs1 & Ho1) (Hr2 & Hs2 & Ho2).
  assert (Hsame : forall q, same_name fs1 q p = same_name fs q p)
    by (intros q; unfold same_name; now rewrite Hr1).
  split; [now rewrite Hr2|]. split.
  - intros q Hq. apply Hs2. now rewrite Hsame.
  - intros q Hq. rewrite Ho2 by now rewrite Hsame. now apply Ho1.
Qed.

Lemma open_wb_spec (fs fs1 : FS) (p : Path) :
  open_wb fs p = Ok fs1 ->
  has_nul p = false
  /\ updated_at fs fs1 p (RegFile [])
  /\ os_path_isdir fs p = false.
Proof.
  unfold open_wb, os_path_isdir, os_stat. intros H.
  destruct (has_nul p) eqn:Hp; [discriminate|]. split; [reflexivity|].
  destruct (fs p) as [[|c|errno]|]; try discriminate.
  - injection H as <-. split; [now apply updated_at_set | reflexivity].
  - destruct (missing_errno fs p =? ENOTDIR); [discriminate|].
    destruct (parent_is_dir fs p); [|discriminate].
    injection H as <-. split; [now apply updated_at_set|].
    destruct (oserror (missing_errno fs p) (path_str p)); reflexivity.
Qed.

Lemma fs_write_spec (fs : FS) (p : Path) (content chunk : bytes) :
  fs p = Some (RegFile content) ->
  updated_at fs (fs_write fs p chunk) p (RegFile (content ++ chunk)).
Proof.
  intros H. unfold fs_write. rewrite H.
  apply updated_at_set. exact (lookup_no_nul _ _ _ H).
Qed.

(** Writing chunks one after the other appends their concatenation. *)
Lemma write_chunks (p : Path) (chunks : list bytes) :
  forall (fs : FS) (content : bytes),
    fs p = Some (RegFile content) ->
    updated_at fs (fold_left (fun fs chunk => fs_write fs p chunk) chunks fs) p
               (RegFile (content ++ List.concat chunks)).
Proof.
  induction chunks as [|c chunks IH]; intros fs content H; cbn [fold_left List.concat].
  - rewrite app_nil_r. split; [reflexivity|]. split; [|reflexivity].
    intros q Hq. now rewrite (same_name_lookup fs q p Hq).
  - pose proof (fs_write_spec fs p content c H) as Hw.
    pose proof (IH _ _ (updated_at_self _ _ _ _ (lookup_no_nul _ _ _ H) Hw)) as Hrest.
    rewrite app_assoc. exact (updated_at_again _ _ _ _ _ _ Hw Hrest).
Qed.

Lemma is_OSError_oserror (errno : Z) (filename : string) :
  is_OSError (oserror errno filename) = true.
Proof.
  unfold oserror.
  destruct (errno =? ENOENT); [reflexivity|].
  destruct (errno =? ENOTDIR); [reflexivity|].
  destruct (errno =? EISDIR); reflexivity.
Qed.

(** [stat] raises nothing but an [OSError] on a path without NUL. *)
Lemma stat_or_pass_ok (fs : FS) (p : Path) :
  has_nul p = false -> _stat_or_pass fs p = Ok tt.
Proof.
  intros H. unfold _stat_or_pass, os_stat. rewrite H.
  destruct (fs p) as [[|c|errno]|]; try reflexivity;
    now rewrite is_OSError_oserror.
Qed.

Lemma split_slash_no_nul (s : string) :
  forall cur : string,
    Str.contains "000"%char s = false ->
    Str.contains "000"%char cur = false ->
    List.existsb (Str.contains "000"%char) (split_slash s cur) = false.
Proof.
  induction s as [|a s IH]; intros cur Hs Hcur; cbn [split_slash List.existsb].
  - now rewrite Hcur.
  - cbn [Str.contains] in Hs. apply orb_false_elim in Hs. destruct Hs as [Ha Hs].
    destruct (Ascii.eqb a "/").
    + cbn [List.existsb]. rewrite Hcur. now apply IH.
    + apply IH; [exact Hs|]. rewrite contains_app, Hcur. cbn [Str.contains].
      now rewrite Ha.
Qed.

Lemma existsb_filter_false {A : Type} (f g : A -> bool) (l : list A) :
  List.existsb f l = false -> List.existsb f (filter g l) = false.
Proof.
  induction l as [|x l IH]; cbn [List.existsb filter]; [reflexivity|].
  intros H. apply orb_false_elim in H. destruct H as [Hx Hl].
  destruct (g x); cbn [List.existsb]; [rewrite Hx|]; now apply IH.
Qed.

Lemma existsb_last_false {A : Type} (f : A -> bool) (l : list A) (d : A) :
  List.existsb f l = false -> f d = false -> f (List.last l d) = false.
Proof.
  intros Hl Hd. induction l as [|x l IH]; [exact Hd|].
  cbn [List.existsb] in Hl. apply orb_false_elim in Hl. destruct Hl as [Hx Hl].
  destruct l as [|y l]; [exact Hx|]. now apply IH.
Qed.

(** A name joined to a path brings no NUL that it does not hold. *)
Lemma has_nul_joinpath (p : Path) (name : string) :
  has_nul p = false ->
  Str.contains "000"%char name = false ->
  has_nul (joinpath p name) = false.
Proof.
  intros Hp Hn. unfold has_nul in *. unfold joinpath, pathlib_Path. cbv zeta.
  cbn [root parts].
  pose proof (existsb_filter_false _ keep_part _
                (split_slash_no_nul name EmptyString Hn eq_refl)) as Hq.
  destruct (splitroot name); cbn [parts]; try exact Hq.
  now rewrite List.existsb_app, Hp, Hq.
Qed.

(** ** Reading and saving *)

(** [read()] on a [File] resource is the opening of the file at the
    expanded path: its content, or the error of the open
    ([FileNotFoundError] when nothing is there, [IsADirectoryError] when a
    directory is).  An executor that is neither [None] nor a thread pool is
    refused with a [TypeError] before the file system is looked at. *)
Theorem file_read_opens_expanded_path
    (fs : FS) (f : File) (executor : Executor) (p : Path) :
  expanduser (File_path f) = Ok p ->
  (executor <> OtherExecutor -> Resource_read fs (ResFile f) executor = open_rb fs p)
  /\ (forall content : bytes,
        executor <> OtherExecutor ->
        fs p = Some (RegFile content) ->
        Resource_read fs (ResFile f) executor = Ok content)
  /\ (executor = OtherExecutor ->
      Resource_read fs (ResFile f) executor =
      Raise (TypeError "The executor must be a ThreadPoolExecutor or None")).
Proof.
  intros Hp.
  assert (Hread : executor <> OtherExecutor ->
                  Resource_read fs (ResFile f) executor = open_rb fs p).
  { intros Hex. unfold Resource_read.
    assert (Hs : stream (ResFile f) executor false
                 = Ok (HFile (mkFileHandle executor None (File_filename f) (File_path f))))
      by (destruct executor; [reflexivity | reflexivity | congruence]).
    rewrite Hs. cbn [bind aenter]. unfold FileHandle_aenter. cbn [fh_file fh_path].
    unfold _open_read_path. rewrite Hp. cbn [bind].
    destruct (open_rb fs p) as [content|e]; [|reflexivity].
    cbn [aexit]. unfold FileHandle_aexit.
    cbn [fh_file fh_filename fh_executor fh_path Reader_read].
    exact (file_read_all (mkThreadedFileReader (File_filename f) None executor content)). }
  split; [exact Hread|]. split.
  - intros content Hex Hfs. rewrite (Hread Hex). unfold open_rb.
    now rewrite (lookup_no_nul _ _ _ Hfs), Hfs.
  - intros ->. reflexivity.
Qed.

(** Leaving an entered [File] handle puts it back as [stream] made it, so
    it can be entered again, and a second leave fails.  An enter that fails
    leaves the handle closed. *)
Theorem file_handle_cycle
    (fs : FS) (f : File) (executor : Executor) (head_only : bool) (h : Handle) :
  stream (ResFile f) executor head_only = Ok h ->
  (forall (reader : Reader) (h1 : Handle),
      aenter fs h = (Ok reader, h1) ->
      h1 <> h
      /\ aexit h1 = (Ok tt, h)
      /\ aexit (snd (aexit h1)) = (Raise (RuntimeError "File isn't open"), h))
  /\ (forall (e : pyexc) (h1 : Handle), aenter fs h = (Raise e, h1) -> h1 = h).
Proof.
  intros Hs.
  assert (Hh : h = HFile (mkFileHandle executor None (File_filename f) (File_path f)))
    by (destruct executor; simpl in Hs; congruence).
  subst h. cbn [aenter]. unfold FileHandle_aenter. cbn [fh_file fh_path].
  destruct (_open_read_path fs (File_path f)) as [file|e']; split.
  - intros reader h1 H. injection H as <- <-.
    split; [discriminate|]. split; reflexivity.
  - discriminate.
  - discriminate.
  - intros e h1 H. injection H as _ <-. reflexivity.
Qed.

Lemma open_write_path_ok
    (fs fs1 : FS) (path : Pathish) (name : string) (force : bool) (p : Path) :
  _to_write_path fs path name force = Ok p ->
  open_wb fs p = Ok fs1 ->
  _open_write_path fs path name force = Ok (p, fs1).
Proof. intros H1 H2. unfold _open_write_path. now rewrite H1; cbn [bind]; rewrite H2. Qed.

(** The chunks of a [Bytes] resource written through [save_chunks]. *)
Lemma save_chunks_bytes
    (fs fs1 : FS) (self : Bytes) (executor : Executor) (p : Path)
    (chunks : list bytes) (ending : option pyexc) :
  has_nul p = false ->
  updated_at fs fs1 p (RegFile []) ->
  _wrap_iter (Bytes_data self) = (chunks, ending) ->
  exists (fs2 : FS) (written : bytes),
    save_chunks fs1 (ResBytes self) executor p
    = (match ending with None => Ok tt | Some e => Raise e end, fs2)
    /\ (forall q : Path, same_name fs q p = true -> fs2 q = Some (RegFile written))
    /\ (forall q : Path, same_name fs q p = false -> fs2 q = fs q)
    /\ (exists rest : bytes, List.concat chunks = written ++ rest)
    /\ (ending = None -> written = List.concat chunks).
Proof.
  intros Hnul Hup1 Hwrap.
  pose proof (updated_at_self _ _ _ _ Hnul Hup1) as Hp1.
  unfold save_chunks.
  cbn [stream aenter Reader_aiter ir_data]. unfold IteratorReader_aiter.
  rewrite Hwrap.
  destruct (chunks_bounded chunks) as [m Hm].
  assert (H0 : len (@nil byte) < _MAGIC) by (rewrite MAGIC_value; reflexivity).
  destruct (rebuffer [] chunks ending) as [ys e] eqn:R.
  destruct (rebuffer_shape m chunks [] ending ys e Hm H0 R)
    as [-> (full & rest & Hys & _ & _ & Hcat)].
  pose proof (write_chunks p ys fs1 [] Hp1) as Hw. cbn [app] in Hw.
  destruct (updated_at_again _ _ _ _ _ _ Hup1 Hw) as (_ & Hs2 & Ho2).
  assert (Hprefix : exists tail : bytes, List.concat chunks = List.concat ys ++ tail).
  { destruct ending as [exc|].
    - destruct (rebuffer_raise_prefix exc chunks []) as [_ [tail Htail]].
      rewrite R in Htail. cbn [fst] in Htail.
      destruct (rebuffer [] chunks None) as [ys0 e0] eqn:R0.
      destruct (rebuffer_shape m chunks [] None ys0 e0 Hm H0 R0)
        as [_ (_ & _ & _ & _ & _ & Hcat0)].
      cbn [fst] in Htail. exists (List.concat tail).
      pose proof (Hcat0 eq_refl) as Hc. cbn [app] in Hc.
      rewrite <- Hc, Htail. apply concat_app.
    - exists []. rewrite app_nil_r. symmetry. exact (Hcat eq_refl). }
  destruct ending as [exc|].
  - eexists. exists (List.concat ys). split; [reflexivity|].
    split; [exact Hs2|]. split; [exact Ho2|]. split; [exact Hprefix | discriminate].
  - cbn [aexit]. eexists. exists (List.concat ys). split; [reflexivity|].
    split; [exact Hs2|]. split; [exact Ho2|].
    split; [exact Hprefix | intros _; exact (Hcat eq_refl)].
Qed.

(** Saving a [Bytes] resource to a target that can be opened for writing
    leaves the file of the target, under every path that names it, holding
    what was written, and every other file as it was.  A flat buffer is
    written whole under any executor.  A lazy source is written through
    [Resource.save]: under [None] or a thread pool the target gets all of
    it when it ends normally, and when it raises, [save] raises the same
    error and the target, which has lost its old content, holds a prefix of
    what the source gave.  Under an executor in another process the open
    file cannot come back: [save] raises [TypeError] and leaves the target
    empty. *)
Theorem bytes_save_writes_source
    (fs fs1 : FS) (self : Bytes) (path : Pathish) (executor : Executor)
    (force : bool) (p : Path) (chunks : list bytes) (ending : option pyexc) :
  _to_write_path fs path (Bytes_filename self) force = Ok p ->
  open_wb fs p = Ok fs1 ->
  _wrap_iter (Bytes_data self) = (chunks, ending) ->
  exists (fs2 : FS) (written : bytes),
    snd (save fs (ResBytes self) path executor force) = fs2
    /\ (forall q : Path, same_name fs q p = true -> fs2 q = Some (RegFile written))
    /\ (forall q : Path, same_name fs q p = false -> fs2 q = fs q)
    /\ (exists rest : bytes, List.concat chunks = written ++ rest)
    /\ ((executor <> OtherExecutor \/ exists data, Bytes_data self = DataBytes data) ->
        fst (save fs (ResBytes self) path executor force)
        = match ending with None => Ok tt | Some e => Raise e end
        /\ (ending = None -> written = List.concat chunks))
    /\ (executor = OtherExecutor ->
        (forall data : bytes, Bytes_data self <> DataBytes data) ->
        fst (save fs (ResBytes self) path executor force)
        = Raise (TypeError "cannot pickle '_io.BufferedWriter' object")
        /\ written = []).
Proof.
  intros Hto Hopen Hwrap.
  destruct (open_wb_spec fs fs1 p Hopen) as (Hnul & Hup1 & _).
  pose proof (updated_at_self _ _ _ _ Hnul Hup1) as Hp1.
  cbn [save]. unfold Bytes_save.
  destruct (Bytes_data self) as [data|kind objs|type_name] eqn:Hd.
  { (* a flat buffer *)
    cbn [_wrap_iter] in Hwrap. injection Hwrap as <- <-.
    unfold _write_bytes. rewrite Hto, Hopen. cbn [fst snd].
    pose proof (fs_write_spec fs1 p [] data Hp1) as Hw. cbn [app] in Hw.
    destruct (updated_at_again _ _ _ _ _ _ Hup1 Hw) as (_ & Hs2 & Ho2).
    pose proof (proj1 (slices_shape (List.length data) data (le_n _))) as Hcat.
    eexists. exists data. split; [reflexivity|]. split; [exact Hs2|].
    split; [exact Ho2|]. split; [exists []; now rewrite Hcat, app_nil_r|]. split.
    - intros _. split; [reflexivity | intros _; now rewrite Hcat].
    - intros _ Hlazy. exfalso. exact (Hlazy data eq_refl). }
  all: rewrite <- Hd in *;
    assert (Hlazy : forall data : bytes, Bytes_data self <> DataBytes data)
      by (rewrite Hd; discriminate);
    unfold Resource_save_base; cbn [Resource_filename];
    rewrite (open_write_path_ok _ _ _ _ _ _ Hto Hopen);
    destruct (save_chunks_bytes fs fs1 self executor p chunks ending Hnul Hup1 Hwrap)
      as (fs2 & written & H1 & H3 & H4 & H5 & H6);
    destruct executor;
    [ rewrite H1; exists fs2, written; cbn [fst snd];
      split; [reflexivity|]; split; [exact H3|]; split; [exact H4|];
      split; [exact H5|]; split; [intros _; split; [reflexivity | exact H6]|];
      discriminate
    | rewrite H1; exists fs2, written; cbn [fst snd];
      split; [reflexivity|]; split; [exact H3|]; split; [exact H4|];
      split; [exact H5|]; split; [intros _; split; [reflexivity | exact H6]|];
      discriminate
    | exists fs1, []; cbn [fst snd]; destruct Hup1 as (_ & Hs1 & Ho1);
      split; [reflexivity|]; split; [exact Hs1|]; split; [exact Ho1|];
      split; [exists (List.concat chunks); reflexivity|];
      split; [|intros _ _; split; reflexivity];
      intros [Hne | [data Hdata]];
      [now contradiction Hne | exfalso; exact (Hlazy data Hdata)] ].
Qed.

(** Saving a [File] resource copies.  When the source path (taken as it
    is, without [expanduser]) names a regular file and the target names
    another file that can be opened for writing, the target, under every
    path that names it, ends up with the content of the source, and every
    other file is as it was.  When source and target name one file the
    save fails with [SameFileError] and the file keeps its content.  When
    the source cannot be opened and is not a directory, the save raises the
    error of that open ([FileNotFoundError], or [NotADirectoryError] when
    the path goes through a regular file) and the target is not
    truncated.  No executor is refused. *)
Theorem file_save_copies
    (fs : FS) (f : File) (path : Pathish) (executor : Executor) (force : bool)
    (dst : Path) :
  _to_write_path fs path (File_filename f) force = Ok dst ->
  (forall (content : bytes) (fs1 : FS),
      fs (File_path f) = Some (RegFile content) ->
      same_name fs (File_path f) dst = false ->
      open_wb fs dst = Ok fs1 ->
      exists fs2 : FS,
        save fs (ResFile f) path executor force = (Ok tt, fs2)
        /\ fs2 (File_path f) = Some (RegFile content)
        /\ (forall q : Path, same_name fs q dst = true -> fs2 q = Some (RegFile content))
        /\ (forall q : Path, same_name fs q dst = false -> fs2 q = fs q))
  /\ (forall content : bytes,
        fs (File_path f) = Some (RegFile content) ->
        same_name fs (File_path f) dst = true ->
        save fs (ResFile f) path executor force = (Raise SameFileError, fs))
  /\ (forall e : pyexc,
        open_rb fs (File_path f) = Raise e ->
        fs (File_path f) <> Some Dir ->
        has_nul dst = false ->
        save fs (ResFile f) path executor force = (Raise e, fs))
  /\ (fs (File_path f) = None ->
      has_nul (File_path f) = false ->
      open_rb fs (File_path f) = Raise (FileNotFoundError (path_str (File_path f)))
      \/ open_rb fs (File_path f) = Raise (NotADirectoryError (path_str (File_path f)))).
Proof.
  intros Hto. cbn [save]. unfold File_save. rewrite Hto. unfold copy2.
  split; [|split; [|split]].
  - intros content fs1 Hsrc Hne Hopen.
    destruct (open_wb_spec fs fs1 dst Hopen) as (Hnul & Hup1 & Hnd).
    pose proof (lookup_no_nul _ _ _ Hsrc) as Hsnul.
    rewrite Hnd. unfold _samefile, samefile.
    assert (Hsame : match (_ <- os_stat fs (File_path f) ;;
                           _ <- os_stat fs dst ;;
                           Ok (same_name fs (File_path f) dst)) with
                    | Ok same => Ok same
                    | Raise e => if is_OSError e then Ok false else Raise e
                    end = Ok false).
    { unfold os_stat. rewrite Hsnul, Hsrc, Hnul. cbn [bind].
      destruct (fs dst) as [[|c|errno]|]; cbn [bind];
        rewrite ?Hne, ?is_OSError_oserror; reflexivity. }
    rewrite Hsame, (stat_or_pass_ok fs _ Hsnul), (stat_or_pass_ok fs _ Hnul).
    cbn [bind]. unfold open_rb. rewrite Hsnul, Hsrc, Hopen.
    pose proof (fs_write_spec fs1 dst [] content
                  (updated_at_self _ _ _ _ Hnul Hup1)) as Hw.
    cbn [app] in Hw.
    destruct (updated_at_again _ _ _ _ _ _ Hup1 Hw) as (_ & Hs2 & Ho2).
    eexists. split; [reflexivity|]. split; [|split; [exact Hs2 | exact Ho2]].
    now rewrite (Ho2 _ Hne).
  - intros content Hsrc Hsame.
    assert (Hdst : fs dst = Some (RegFile content))
      by now rewrite <- (same_name_lookup fs _ _ Hsame).
    unfold os_path_isdir, _samefile, samefile, os_stat.
    rewrite (lookup_no_nul _ _ _ Hdst), (lookup_no_nul _ _ _ Hsrc), Hdst, Hsrc.
    cbn [bind]. rewrite (lookup_no_nul _ _ _ Hdst), Hdst. cbn [bind].
    now rewrite Hsame.
  - intros e Hopen Hnd Hdnul.
    set (target := if os_path_isdir fs dst
                   then joinpath dst (path_name (File_path f)) else dst).
    destruct (has_nul (File_path f)) eqn:Hsnul.
    + (* the source holds a NUL: [samefile] raises the [ValueError] *)
      unfold open_rb in Hopen. rewrite Hsnul in Hopen. injection Hopen as <-.
      unfold _samefile, samefile, os_stat. rewrite Hsnul. reflexivity.
    + assert (Hstat : os_stat fs (File_path f) = Raise e /\ is_OSError e = true).
      { unfold open_rb in Hopen. unfold os_stat. rewrite Hsnul in Hopen |- *.
        destruct (fs (File_path f)) as [[|c|errno]|].
        - now contradiction Hnd.
        - discriminate.
        - injection Hopen as <-. split; [reflexivity | apply is_OSError_oserror].
        - injection Hopen as <-. split; [reflexivity | apply is_OSError_oserror]. }
      destruct Hstat as [Hstat Hos].
      assert (Htnul : has_nul target = false).
      { unfold target. destruct (os_path_isdir fs dst); [|exact Hdnul].
        apply has_nul_joinpath; [exact Hdnul|].
        unfold path_name. unfold has_nul in Hsnul.
        now apply existsb_last_false. }
      unfold _samefile, samefile. rewrite Hstat. cbn [bind]. rewrite Hos.
      rewrite (stat_or_pass_ok fs _ Hsnul), (stat_or_pass_ok fs _ Htnul).
      cbn [bind]. now rewrite Hopen.
  - intros Hsrc Hnul. unfold open_rb, oserror, missing_errno. rewrite Hnul, Hsrc.
    destruct (List.existsb _ _); [right | left]; reflexivity.
Qed.

(** Saving a URL resource opens the target before it asks the transport:
    whatever happens next, the old content of the target is gone.  Under
    [None] or a thread pool, after a status from 200 to 399 the target
    holds the body; after any other status the save raises the error made
    from the answer, and when the request itself fails it raises the
    [AttributeError] of the cleanup, not the error of the transport; both
    leave the target empty.  Under an executor in another process the open
    file cannot come back, and the save raises [TypeError] without a
    request.  Every other file is as it was. *)
Theorem url_save_truncates_first
    (fs fs1 : FS) (u : URL) (path : Pathish) (executor : Executor) (force : bool)
    (name : string) (p : Path) :
  URL_filename u = Ok name ->
  _to_write_path fs path name force = Ok p ->
  open_wb fs p = Ok fs1 ->
  exists (fs2 : FS) (written : bytes),
    snd (save fs (ResURL u) path executor force) = fs2
    /\ (forall q : Path, same_name fs q p = true -> fs2 q = Some (RegFile written))
    /\ (forall q : Path, same_name fs q p = false -> fs2 q = fs q)
    /\ (executor = OtherExecutor ->
        fst (save fs (ResURL u) path executor force)
        = Raise (TypeError "cannot pickle '_io.BufferedWriter' object")
        /\ written = [])
    /\ (executor <> OtherExecutor ->
        match http_request "GET" (URL__url u) with
        | Raise e =>
            fst (save fs (ResURL u) path executor force)
            = Raise (AttributeError
                       ("'" ++ request_context_name
                        ++ "' object has no attribute '_resp'"))
            /\ written = []
        | Ok resp =>
            if (200 <=? resp_status resp) && (resp_status resp <? 400)
            then fst (save fs (ResURL u) path executor force) = Ok tt
                 /\ written = List.concat (resp_content resp)
            else fst (save fs (ResURL u) path executor force)
                 = Raise (generate_error_response resp)
                 /\ written = []
        end).
Proof.
  intros Hname Hto Hopen.
  destruct (open_wb_spec fs fs1 p Hopen) as (Hnul & Hup1 & _).
  pose proof (updated_at_self _ _ _ _ Hnul Hup1) as Hp1.
  cbn [save]. unfold Resource_save_base. cbn [Resource_filename].
  rewrite Hname, (open_write_path_ok _ _ _ _ _ _ Hto Hopen).
  assert (Hempty : forall (r : result unit),
             (forall q : Path, same_name fs q p = true ->
                               snd (r, fs1) q = Some (RegFile []))
             /\ (forall q : Path, same_name fs q p = false -> snd (r, fs1) q = fs q))
    by (intros r; destruct Hup1 as (_ & Hs1 & Ho1); split; assumption).
  destruct executor.
  1, 2:
    unfold save_chunks;
    cbn [stream aenter]; unfold WebHandle_aenter; cbn [_head_only _web_resource];
    destruct (http_request "GET" (URL__url u)) as [resp|e];
    [ destruct ((200 <=? resp_status resp) && (resp_status resp <? 400)) eqn:Est;
      cbn [negb];
      [ rewrite Hname; cbn [Reader_aiter]; unfold WebReader_aiter;
        cbn [wr_head_only wr_stream];
        pose proof (write_chunks p (resp_content resp) fs1 [] Hp1) as Hw;
        cbn [app] in Hw;
        destruct (updated_at_again _ _ _ _ _ _ Hup1 Hw) as (_ & Hs2 & Ho2);
        cbn [aexit]; unfold WebHandle_aexit; cbn [_client_response_ctx fst snd];
        eexists; exists (List.concat (resp_content resp));
        split; [reflexivity|]; split; [exact Hs2|]; split; [exact Ho2|];
        split; [discriminate|]; intros _; split; reflexivity
      | exists fs1, []; split; [reflexivity|];
        split; [exact (proj1 (Hempty (Ok tt)))|];
        split; [exact (proj2 (Hempty (Ok tt)))|];
        split; [discriminate|]; intros _; split; reflexivity ]
    | exists fs1, []; split; [reflexivity|];
      split; [exact (proj1 (Hempty (Ok tt)))|];
      split; [exact (proj2 (Hempty (Ok tt)))|];
      split; [discriminate|]; intros _; split; reflexivity ].
  exists fs1, []. split; [reflexivity|].
  split; [exact (proj1 (Hempty (Ok tt)))|].
  split; [exact (proj2 (Hempty (Ok tt)))|].
  split; [intros _; split; reflexivity|]. intros H. now contradiction H.
Qed.

(** ** Sniffing the MIME type *)

Lemma bstartswith_app (prefix rest : bytes) : bstartswith (prefix ++ rest) prefix = true.
Proof.
  induction prefix as [|x prefix IH]; [destruct rest; reflexivity|].
  cbn [app bstartswith]. rewrite IH, andb_true_r.
  now apply Byte.byte_dec_lb.
Qed.

Lemma bstartswith_mismatch
    (head pre : bytes) (x y : byte) (tail post : bytes) :
  List.length head = List.length pre ->
  Byte.eqb y x = false ->
  bstartswith (head ++ x :: tail) (pre ++ y :: post) = false.
Proof.
  revert pre. induction head as [|h head IH]; intros [|p pre] Hlen Hxy;
    try discriminate; cbn [app bstartswith].
  - now rewrite Hxy.
  - injection Hlen as Hlen. rewrite (IH pre Hlen Hxy). apply andb_false_r.
Qed.

(** [guess_mimetype_from_data] answers with one of four image types or
    with nothing.  Fewer than six bytes are never recognised.  The PNG
    signature is recognised whatever follows it.  "JFIF" or "Exif" at
    offset 6 makes the data JPEG whatever the first six bytes are, even
    a GIF header, because that test comes before the GIF test. *)
Theorem sniffing_by_header :
  (forall data : bytes,
      In (guess_mimetype_from_data data)
         [None; Some "image/png"; Some "image/jpeg"; Some "image/gif";
          Some "image/webp"])
  /\ (forall data : bytes,
        (List.length data < 6)%nat -> guess_mimetype_from_data data = None)
  /\ (forall rest : bytes,
        guess_mimetype_from_data ([x89] ++ b "PNG" ++ [x0d; x0a; x1a; x0a] ++ rest)
        = Some "image/png")
  /\ (forall head rest : bytes,
        List.length head = 6%nat ->
        guess_mimetype_from_data (head ++ b "JFIF" ++ rest) = Some "image/jpeg"
        /\ guess_mimetype_from_data (head ++ b "Exif" ++ rest) = Some "image/jpeg").
Proof.
  split; [|split; [|split]].
  - intros data. unfold guess_mimetype_from_data.
    repeat match goal with
           | |- context [if ?c then _ else _] => destruct c
           end; cbn [In]; repeat (first [left; reflexivity | right]).
  - intros data Hlen.
    unfold guess_mimetype_from_data.
    do 6 (destruct data as [|? data];
          [cbn -[Byte.eqb]; rewrite ?andb_false_r; reflexivity|]).
    simpl in Hlen. lia.
  - intros rest. unfold guess_mimetype_from_data.
    change ([x89] ++ b "PNG" ++ [x0d; x0a; x1a; x0a] ++ rest)
      with (([x89] ++ b "PNG" ++ [x0d; x0a; x1a; x0a]) ++ rest).
    now rewrite bstartswith_app.
  - intros head rest Hlen.
    assert (Hpng : forall (x : byte) (tail : bytes),
               Byte.eqb x1a x = false ->
               bstartswith (head ++ x :: tail)
                           ([x89] ++ b "PNG" ++ [x0d; x0a; x1a; x0a]) = false).
    { intros x tail Hx.
      apply (bstartswith_mismatch head ([x89] ++ b "PNG" ++ [x0d; x0a]) x x1a tail [x0a]);
        [exact Hlen | exact Hx]. }
    assert (Hskip : forall tail : bytes, skipn 6 (head ++ tail) = tail).
    { intros tail. rewrite skipn_app, Hlen, Nat.sub_diag.
      rewrite skipn_all2 by lia. reflexivity. }
    unfold guess_mimetype_from_data. rewrite !Hskip. split.
    + change (b "JFIF" ++ rest) with (x4a :: (b "FIF" ++ rest)) at 1.
      rewrite Hpng by reflexivity. rewrite bstartswith_app, orb_true_r. reflexivity.
    + change (b "Exif" ++ rest) with (x45 :: (b "xif" ++ rest)) at 1.
      rewrite Hpng by reflexivity. rewrite bstartswith_app. reflexivity.
Qed.

(** ** Generated filenames and data URIs *)

(** A generated filename is the token of [time.uuid()] followed by an
    extension that is empty or starts with a dot.  An extension given by
    the caller is used, a dot put in front when it has none, and neither
    the MIME type nor the data is looked at; with no extension and no way
    to a MIME type the filename is the bare token. *)
Theorem generated_filename_shape :
  (forall (mimetype extension : option string) (data : option bytes),
      exists ext : string,
        generate_filename_from_details mimetype extension data
        = (time_uuid ++ ext)%string
        /\ (ext = EmptyString \/ Str.startswith ext "." = true))
  /\ (forall (mimetype : option string) (data : option bytes) (e : string),
        generate_filename_from_details mimetype (Some e) data
        = (time_uuid ++ (if String.eqb e EmptyString then EmptyString
                         else if Str.startswith e "." then e
                              else "." ++ e))%string)
  /\ generate_filename_from_details None None None = time_uuid
  /\ (forall data : bytes,
        guess_mimetype_from_data data = None ->
        generate_filename_from_details None None (Some data) = time_uuid).
Proof.
  assert (Hnil : forall s : string, (s ++ EmptyString)%string = s)
    by (induction s as [|a s IH]; simpl; [reflexivity | now rewrite IH]).
  split; [|split; [|split]].
  - intros mimetype extension data. unfold generate_filename_from_details.
    match goal with
    | |- context [truthy ?x] => destruct (truthy x) as [e|]
    end.
    + destruct (Str.startswith e ".") eqn:E.
      * exists e. split; [reflexivity | right; exact E].
      * exists ("." ++ e)%string. split; [reflexivity | right; reflexivity].
    + exists EmptyString. split; [reflexivity | left; reflexivity].
  - intros mimetype data e. unfold generate_filename_from_details.
    destruct data as [d|]; destruct mimetype as [m|]; destruct e as [|a e];
      reflexivity.
  - unfold generate_filename_from_details. cbn. apply Hnil.
  - intros data Hd. unfold generate_filename_from_details. rewrite Hd. cbn.
    apply Hnil.
Qed.

Lemma b2a_length_upto (k : nat) :
  forall data : bytes,
    (List.length data <= k)%nat ->
    List.length (binascii.b2a_base64 data) = (4 * ((List.length data + 2) / 3))%nat.
Proof.
  induction k as [|k IH]; intros data Hk.
  - destruct data; [reflexivity | simpl in Hk; lia].
  - destruct data as [|b1 [|b2 [|b3 rest]]]; [reflexivity | reflexivity | reflexivity|].
    cbn [binascii.b2a_base64 List.length]. rewrite IH by (simpl in Hk; lia).
    replace (S (S (S (List.length rest))) + 2)%nat
      with ((List.length rest + 2) + 1 * 3)%nat by lia.
    rewrite Nat.div_add by lia. lia.
Qed.

Lemma length_string_of_list_byte (bs : bytes) :
  String.length (string_of_list_byte bs) = List.length bs.
Proof.
  induction bs as [|c bs IH]; [reflexivity|].
  rewrite string_of_list_byte_cons. simpl. now rewrite IH.
Qed.

(** [to_data_uri] fails, with a [TypeError], exactly when no MIME type is
    given and none can be sniffed.  Otherwise the URI is "data:", the MIME
    type, ";base64," and the payload; the payload takes four characters
    for every three bytes of data, rounded up. *)
Theorem data_uri_encoding (data : bytes) (mimetype : option string) :
  ((exists e : pyexc, to_data_uri data mimetype = Raise e)
   <-> mimetype = None /\ guess_mimetype_from_data data = None)
  /\ (forall e : pyexc,
        to_data_uri data mimetype = Raise e ->
        e = TypeError "Cannot infer mimetype from input data, specify it manually.")
  /\ (forall uri : string,
        to_data_uri data mimetype = Ok uri ->
        exists m payload : string,
          (mimetype = Some m
           \/ mimetype = None /\ guess_mimetype_from_data data = Some m)
          /\ uri = ("data:" ++ m ++ ";base64," ++ payload)%string
          /\ Str.startswith uri "data:" = true
          /\ String.length payload = (4 * ((List.length data + 2) / 3))%nat).
Proof.
  assert (Hlen : String.length (string_of_list_byte (base64.b64encode data))
                 = (4 * ((List.length data + 2) / 3))%nat).
  { rewrite length_string_of_list_byte.
    apply (b2a_length_upto (List.length data)). lia. }
  unfold to_data_uri.
  destruct mimetype as [m|]; [|destruct (guess_mimetype_from_data data) as [m|]];
    cbn [bind].
  - split; [split; [intros [e H]; discriminate | intros [H _]; discriminate]|].
    split; [discriminate|]. intros uri H. injection H as <-.
    exists m. eexists. split; [left; reflexivity|]. split; [reflexivity|].
    split; [reflexivity | exact Hlen].
  - split; [split; [intros [e H]; discriminate | intros [_ H]; discriminate]|].
    split; [discriminate|]. intros uri H. injection H as <-.
    exists m. eexists. split; [right; split; reflexivity|]. split; [reflexivity|].
    split; [reflexivity | exact Hlen].
  - split; [split; [intros _; split; reflexivity | intros _; eexists; reflexivity]|].
    split; [|discriminate]. intros e H. injection H as <-. reflexivity.
Qed.

(** ** Text chunks *)

Lemma utf8_codepoint_spec (c : codepoint) :
  match utf8_codepoint c with
  | Some bs =>
      (1 <= List.length bs <= 4)%nat
      /\ ~ ((0xD800 <= c <= 0xDFFF) \/ 0x110000 <= c)%N
      /\ ((c < 128)%N -> bs = [byte_of_N c])
  | None => ((0xD800 <= c <= 0xDFFF) \/ 0x110000 <= c)%N
  end.
Proof.
  unfold utf8_codepoint.
  destruct (c <? 0x80)%N eqn:E1; [apply N.ltb_lt in E1|apply N.ltb_ge in E1].
  { split; [simpl; lia|]. split; [lia | reflexivity]. }
  destruct (c <? 0x800)%N eqn:E2; [apply N.ltb_lt in E2|apply N.ltb_ge in E2].
  { split; [simpl; lia|]. split; lia. }
  destruct ((0xD800 <=? c) && (c <=? 0xDFFF))%N eqn:E3.
  { apply andb_true_iff in E3. destruct E3 as [E3 E4].
    apply N.leb_le in E3. apply N.leb_le in E4. left. lia. }
  apply andb_false_iff in E3.
  assert (Hns : ~ (0xD800 <= c <= 0xDFFF)%N).
  { destruct E3 as [E3|E3]; apply N.leb_gt in E3; lia. }
  destruct (c <? 0x10000)%N eqn:E4; [apply N.ltb_lt in E4|apply N.ltb_ge in E4].
  { split; [simpl; lia|]. split; lia. }
  destruct (c <? 0x110000)%N eqn:E5; [apply N.ltb_lt in E5|apply N.ltb_ge in E5].
  { split; [simpl; lia|]. split; lia. }
  right. exact E5.
Qed.

Lemma utf8_encode_raises (s : pystr) (e : pyexc) :
  utf8_encode s = Raise e -> e = UnicodeEncodeError.
Proof.
  induction s as [|c s IH]; cbn [utf8_encode]; [discriminate|].
  destruct (utf8_codepoint c) as [cb|].
  - destruct (utf8_encode s) as [rest|e0]; cbn [bind]; [discriminate|].
    intros H. injection H as <-. now apply IH.
  - intros H. injection H as <-. reflexivity.
Qed.

(** A [str] chunk (and the text of a [StringIO]) is rejected exactly when
    it holds a lone surrogate or something above U+10FFFF, and then with
    [UnicodeEncodeError], not with the [TypeError] of a wrong type.  An
    accepted chunk of [n] code points becomes between [n] and [4 n] bytes,
    and exactly its own bytes when it is ASCII. *)
Theorem text_chunk_encoding (s : pystr) :
  (forall bs : bytes,
      _assert_bytes (PyStr s) = Ok bs ->
      (List.length s <= List.length bs <= 4 * List.length s)%nat)
  /\ ((exists e : pyexc, _assert_bytes (PyStr s) = Raise e)
      <-> exists c : codepoint,
            In c s /\ ((0xD800 <= c <= 0xDFFF) \/ 0x110000 <= c)%N)
  /\ (forall e : pyexc, _assert_bytes (PyStr s) = Raise e -> e = UnicodeEncodeError)
  /\ (Forall (fun c => (c < 128)%N) s ->
      _assert_bytes (PyStr s) = Ok (map byte_of_N s))
  /\ unwrap_bytes (RawStringIO s) = _assert_bytes (PyStr s).
Proof.
  cbn [_assert_bytes unwrap_bytes].
  induction s as [|c s (IH1 & IH2 & IH3 & IH4 & _)]; cbn [utf8_encode].
  - split; [intros bs H; injection H as <-; simpl; lia|].
    split; [split; [intros [e H]; discriminate | intros [c [[] _]]]|].
    split; [discriminate|]. split; reflexivity.
  - pose proof (utf8_codepoint_spec c) as Hc.
    destruct (utf8_codepoint c) as [cb|].
    + destruct Hc as (Hlen & Hvalid & Hascii).
      destruct (utf8_encode s) as [rest|e0]; cbn [bind].
      * split; [|split; [|split; [discriminate|split; [|reflexivity]]]].
        -- intros bs H. injection H as <-. rewrite length_app.
           specialize (IH1 rest eq_refl). cbn [List.length]. lia.
        -- split; [intros [e H]; discriminate|].
           intros [c' [[<-|Hin] Hbad]]; [contradiction|].
           destruct (proj2 IH2) as [e H]; [|discriminate].
           exists c'. split; assumption.
        -- intros Hall. inversion Hall as [|? ? Hc1 Hrest]; subst.
           rewrite (Hascii Hc1). specialize (IH4 Hrest). injection IH4 as ->.
           reflexivity.
      * split; [discriminate|]. split; [|split; [|split; [|reflexivity]]].
        -- split; [|intros _; eexists; reflexivity].
           intros _. destruct (proj1 IH2) as [c' [Hin Hbad]]; [eexists; reflexivity|].
           exists c'. split; [right; exact Hin | exact Hbad].
        -- intros e H. injection H as <-. now apply IH3.
        -- intros Hall. inversion Hall as [|? ? Hc1 Hrest]; subst.
           specialize (IH4 Hrest). discriminate.
    + split; [discriminate|]. split; [|split; [|split; [|reflexivity]]].
      * split; [|intros _; eexists; reflexivity].
        intros _. exists c. split; [left; reflexivity | exact Hc].
      * intros e H. injection H as <-. reflexivity.
      * intros Hall. inversion Hall as [|? ? Hc1 Hrest]; subst. lia.
Qed.

(** ** [ensure_resource] on strings *)

(** A string or path is always classified: [ensure_resource] never raises
    on it.  On raw data it raises exactly when [unwrap_bytes] does, with
    the same error: [UnicodeEncodeError] for a [StringIO] whose text cannot
    be encoded, [ValueError] for a closed [BytesIO] or [StringIO] and for a
    released [memoryview].  It never raises on [bytes], on a [bytearray],
    or on an open [BytesIO] or a live [memoryview]. *)
Theorem ensure_resource_total :
  (forall s : string, exists r : Resource, ensure_resource (IsPathish s) = Ok r)
  /\ (forall (raw : Rawish) (data : bytes),
        unwrap_bytes raw = Ok data ->
        exists x : Bytes, ensure_resource (IsRawish raw) = Ok (ResBytes x))
  /\ (forall (raw : Rawish) (e : pyexc),
        unwrap_bytes raw = Raise e ->
        ensure_resource (IsRawish raw) = Raise e
        /\ ((exists text : pystr, raw = RawStringIO text /\ e = UnicodeEncodeError)
            \/ (raw = RawClosedStringIO /\ e = ValueError "I/O operation on closed file")
            \/ (raw = RawClosedBytesIO /\ e = ValueError "I/O operation on closed file.")
            \/ (raw = RawReleasedMemoryview
                /\ e = ValueError "operation forbidden on released memoryview object")))
  /\ (forall data : bytes,
        unwrap_bytes (RawBytes data) = Ok data
        /\ unwrap_bytes (RawBytearray data) = Ok data
        /\ unwrap_bytes (RawBytesIO data) = Ok data
        /\ unwrap_bytes (RawMemoryview data) = Ok data).
Proof.
  split; [|split; [|split]].
  - intros s. unfold ensure_resource.
    destruct (Str.startswith s "https://" || Str.startswith s "http://");
      [eexists; reflexivity|].
    destruct (Str.startswith s "data:"); [|eexists; reflexivity].
    destruct (from_data_uri s None) as [x|e] eqn:E; [eexists; reflexivity|].
    destruct (from_data_uri_raises_ValueError _ _ _ E) as [msg ->].
    eexists; reflexivity.
  - intros raw data Hraw. unfold ensure_resource. rewrite Hraw.
    eexists. reflexivity.
  - intros raw e Hraw. split; [unfold ensure_resource; now rewrite Hraw|].
    destruct raw as [x|x|x|x|text| | |]; cbn [unwrap_bytes] in Hraw;
      try discriminate.
    + left. exists text. split; [reflexivity|].
      exact (utf8_encode_raises text e Hraw).
    + right. right. right. injection Hraw as <-. split; reflexivity.
    + right. right. left. injection Hraw as <-. split; reflexivity.
    + right. left. injection Hraw as <-. split; reflexivity.
  - intros data. repeat split.
Qed.

(** ** Names and identity *)

(** [==] between resources is an equivalence relation.  The spoiler mark
    is part of the URL of a [File] or [Bytes] resource, so marking a
    resource makes it unequal to its unmarked self. *)
Theorem resource_equality :
  (forall r : Resource, __eq__ r (ObjResource r) = true)
  /\ (forall r1 r2 : Resource,
        __eq__ r1 (ObjResource r2) = __eq__ r2 (ObjResource r1))
  /\ (forall r1 r2 r3 : Resource,
        __eq__ r1 (ObjResource r2) = true ->
        __eq__ r2 (ObjResource r3) = true ->
        __eq__ r1 (ObjResource r3) = true)
  /\ (forall (path : Pathish) (filename : option string),
        __eq__ (ResFile (File_init path filename true))
               (ObjResource (ResFile (File_init path filename false))) = false)
  /\ (forall (data : ByteData) (filename : string) (mimetype : option string),
        __eq__ (ResBytes (mkBytes data filename mimetype true))
               (ObjResource (ResBytes (mkBytes data filename mimetype false))) = false).
Proof.
  assert (Htag : forall f : string,
             String.eqb ("attachment://" ++ SPOILER_TAG ++ f) ("attachment://" ++ f)
             = false).
  { intros f. apply String.eqb_neq. intros H.
    apply (f_equal String.length) in H. rewrite !length_append in H.
    simpl in H. lia. }
  split; [|split; [|split; [|split]]].
  - intros r. apply String.eqb_refl.
  - intros r1 r2. apply String.eqb_sym.
  - intros r1 r2 r3 H12 H23. cbn [__eq__] in *.
    apply String.eqb_eq in H12. apply String.eqb_eq in H23.
    apply String.eqb_eq. congruence.
  - intros path filename. cbn [__eq__ Resource_url]. unfold File_url, File_filename.
    cbn [File_init File_is_spoiler File__filename File_path]. apply Htag.
  - intros data filename mimetype. cbn [__eq__ Resource_url].
    unfold Bytes_url, Bytes_filename. cbn [Bytes_is_spoiler Bytes__filename].
    apply Htag.
Qed.

Lemma split_slash_parts (s : string) :
  forall cur : string,
    Str.contains "/" cur = false ->
    Forall (fun part => Str.contains "/" part = false) (split_slash s cur).
Proof.
  induction s as [|a s IH]; intros cur Hcur; cbn [split_slash].
  - repeat constructor. exact Hcur.
  - destruct (Ascii.eqb a "/") eqn:E.
    + constructor; [exact Hcur | now apply IH].
    + apply IH. rewrite contains_app, Hcur. simpl. now rewrite E.
Qed.

Lemma last_in_or_default {A : Type} (l : list A) (d : A) :
  List.last l d = d \/ In (List.last l d) l.
Proof.
  induction l as [|x l IH]; [left; reflexivity|].
  destruct l as [|y l]; [right; left; reflexivity|].
  destruct IH as [IH|IH]; [|right; right; exact IH].
  change (List.last (x :: y :: l) d) with (List.last (y :: l) d).
  rewrite IH. now left.
Qed.

(** A filename that is derived, not given, holds no slash: the final
    component of the path of a [File] built from a string, with or without
    the spoiler tag, and the last segment of the path of a URL. *)
Theorem derived_filename_has_no_slash :
  (forall (s : string) (spoiler : bool),
      Str.contains "/" (File_filename (File_init (PathStr s) None spoiler)) = false)
  /\ (forall url name : string,
        URL_filename (mkURL url None) = Ok name -> Str.contains "/" name = false).
Proof.
  split.
  - intros s spoiler.
    assert (Hname : Str.contains "/" (path_name (pathlib_Path s)) = false).
    { unfold path_name, pathlib_Path. cbn [parts].
      destruct (last_in_or_default
                  (filter keep_part (split_slash s EmptyString)) EmptyString)
        as [->|Hin]; [reflexivity|].
      apply filter_In in Hin. destruct Hin as [Hin _].
      pose proof (split_slash_parts s EmptyString eq_refl) as Hall.
      rewrite Forall_forall in Hall. now apply Hall. }
    unfold File_filename, File_init.
    cbn [File__filename File_is_spoiler File_path truthy ensure_path].
    destruct spoiler; [|exact Hname].
    rewrite contains_app, Hname. reflexivity.
  - intros url name. unfold URL_filename. cbn [URL__filename truthy URL__url].
    destruct (urllib_parse.urlparse_path bracketed_netloc_error nfkc_netloc_ok url)
      as [path|e]; cbn [bind]; [|discriminate].
    intros H. injection H as <-. unfold posixpath.basename.
    destruct (Str.rsplit1 "/" path) as [[h t]|] eqn:E.
    + now apply rsplit1_sound in E.
    + now apply rsplit1_None.
Qed.

Lemma rsplit1_app_prefix (c : ascii) (pre s : string) :
  Str.contains c pre = false ->
  Str.rsplit1 c (pre ++ s) =
  match Str.rsplit1 c s with
  | Some (h, t) => Some ((pre ++ h)%string, t)
  | None => None
  end.
Proof.
  intros Hpre. induction pre as [|a pre IH]; cbn [append Str.rsplit1].
  - destruct (Str.rsplit1 c s) as [[h t]|]; reflexivity.
  - simpl in Hpre. apply orb_false_elim in Hpre. destruct Hpre as [Ha Hp].
    rewrite (IH Hp). destruct (Str.rsplit1 c s) as [[h t]|]; [reflexivity|].
    now rewrite Ha.
Qed.

(** The spoiler mark does not change the extension of a [File] or
    [Bytes] resource. *)
Theorem extension_ignores_spoiler :
  (forall (path : Pathish) (filename : option string),
      Resource_extension (ResFile (File_init path filename true))
      = Resource_extension (ResFile (File_init path filename false)))
  /\ (forall (data : ByteData) (filename : string) (mimetype : option string),
        Resource_extension (ResBytes (mkBytes data filename mimetype true))
        = Resource_extension (ResBytes (mkBytes data filename mimetype false))).
Proof.
  assert (Hext : forall f : string,
             (let '(_, _, ext) := Str.rpartition (SPOILER_TAG ++ f) "." in
              @Ok (option string)
                  (if String.eqb ext (SPOILER_TAG ++ f) then None else Some ext))
             = (let '(_, _, ext) := Str.rpartition f "." in
                Ok (if String.eqb ext f then None else Some ext))).
  { intros f. unfold Str.rpartition.
    rewrite (rsplit1_app_prefix "." SPOILER_TAG f eq_refl).
    destruct (Str.rsplit1 "." f) as [[h t]|] eqn:E.
    - apply rsplit1_sound in E. destruct E as [-> _].
      assert (H1 : String.eqb t (SPOILER_TAG ++ h ++ String "." t) = false).
      { apply String.eqb_neq. intros H. symmetry in H.
        rewrite <- str_app_assoc in H. now apply suffix_neq in H. }
      assert (H2 : String.eqb t (h ++ String "." t) = false).
      { apply String.eqb_neq. intros H. symmetry in H. now apply suffix_neq in H. }
      now rewrite H1, H2.
    - now rewrite !String.eqb_refl. }
  split.
  - intros path filename. unfold Resource_extension. cbn [Resource_filename bind].
    unfold File_filename, File_init.
    cbn [File__filename File_is_spoiler File_path]. apply Hext.
  - intros data filename mimetype. unfold Resource_extension.
    cbn [Resource_filename bind]. unfold Bytes_filename.
    cbn [Bytes__filename Bytes_is_spoiler]. apply Hext.
Qed.

(** ** Data URIs are opened locally *)

Lemma startswith_inv (s p : string) :
  Str.startswith s p = true -> exists rest : string, s = (p ++ rest)%string.
Proof.
  revert s. induction p as [|c p IH]; intros s H.
  - exists s. reflexivity.
  - destruct s as [|a s]; [discriminate|]. cbn [Str.startswith] in H.
    apply andb_true_iff in H. destruct H as [Ha Hs].
    apply Ascii.eqb_eq in Ha. subst a.
    destruct (IH s Hs) as [rest ->]. exists rest. reflexivity.
Qed.

Lemma rstrip_keeps_head (strip : ascii -> bool) (a : ascii) (s : string) :
  strip a = false ->
  Str.rstrip strip (String a s) = String a (Str.rstrip strip s).
Proof.
  intros Ha. cbn [Str.rstrip]. rewrite Ha.
  destruct (Str.rstrip strip s); reflexivity.
Qed.

Lemma unwrap_keeps_data_scheme (rest : string) :
  urllib_parse.unwrap ("data:" ++ rest)
  = ("data:" ++ Str.rstrip Str.isspace rest)%string.
Proof.
  unfold urllib_parse.unwrap, Str.strip.
  change (Str.lstrip Str.isspace ("data:" ++ rest)) with ("data:" ++ rest)%string.
  change ("data:" ++ rest)%string
    with (String "d" (String "a" (String "t" (String "a" (String ":" rest))))).
  rewrite !rstrip_keeps_head by reflexivity. reflexivity.
Qed.

(** A URL that starts with "data:" is a request of type [data]. *)
Lemma request_type_of_data_url (url : string) (req : urllib_request.Request) :
  Str.startswith url "data:" = true ->
  urllib_request.Request_init url = Ok req ->
  urllib_request.type req = "data".
Proof.
  intros Hs. destruct (startswith_inv _ _ Hs) as [rest ->].
  unfold urllib_request.Request_init.
  rewrite unwrap_keeps_data_scheme, splittag_data.
  destruct (Str.rsplit1 "#" (Str.rstrip Str.isspace rest)) as [[h t]|];
    rewrite splittype_data; intros H; injection H as <-; reflexivity.
Qed.

(** Opening a URL that starts with "data:" never reaches the opener of
    the other schemes. *)
Lemma urlopen_data_is_local (remote1 remote2 : string -> result bytes) (url : string) :
  Str.startswith url "data:" = true ->
  urllib_request.urlopen_read remote1 url = urllib_request.urlopen_read remote2 url.
Proof.
  intros Hs. unfold urllib_request.urlopen_read.
  destruct (urllib_request.Request_init url) as [req|e] eqn:E; [|reflexivity].
  cbn [bind]. now rewrite (request_type_of_data_url url req Hs E).
Qed.

(** ** The path a save writes to *)







(** What [Path.exists()] answers where something is, and where nothing
    is. *)
Lemma path_exists_found (fs : FS) (p : Path) (n : node) :
  fs p = Some n -> (forall errno : Z, n <> Broken errno) -> path_exists fs p = Ok true.
Proof.
  intros H Hn. unfold path_exists, os_stat. rewrite (lookup_no_nul _ _ _ H), H.
  destruct n as [|c|errno]; [reflexivity | reflexivity|].
  exfalso. exact (Hn errno eq_refl).
Qed.




Lemma to_write_path_refuses
    (fs : FS) (path : Pathish) (name : string) (d : bool) :
  is_dir fs (ensure_path path) = Ok d ->
  path_exists fs (if d then joinpath (ensure_path path) name else ensure_path path)
  = Ok true ->
  _to_write_path fs path name false
  = Raise (FileExistsError
             (path_str (if d then joinpath (ensure_path path) name
                        else ensure_path path))).
Proof.
  intros Hd Hex. unfold _to_write_path. cbv zeta. rewrite Hd. cbn [bind negb].
  now rewrite Hex.
Qed.

(** With [force=False], a save whose target [exists()] finds fails with
    the already-exists error before anything is opened, and leaves the file
    system as it was: when the path given is a file, and when it is a
    directory that holds an entry of the resource's filename.  This is so
    for every variant and every executor.  The filename is asked for first:
    a URL resource whose filename cannot be derived fails with the error of
    its [filename] property instead, whatever the target; every [File] and
    [Bytes] resource has a filename. *)
Theorem save_refuses_existing_target
    (fs : FS) (self : Resource) (path : Pathish) (executor : Executor) :
  (forall (name : string) (d : bool),
      Resource_filename self = Ok name ->
      is_dir fs (ensure_path path) = Ok d ->
      path_exists fs (if d then joinpath (ensure_path path) name else ensure_path path)
      = Ok true ->
      save fs self path executor false
      = (Raise (FileExistsError
                  (path_str (if d then joinpath (ensure_path path) name
                             else ensure_path path))), fs))
  /\ (forall (name : string) (content : bytes),
        Resource_filename self = Ok name ->
        fs (ensure_path path) = Some (RegFile content) ->
        save fs self path executor false
        = (Raise (FileExistsError (path_str (ensure_path path))), fs))
  /\ (forall (name : string) (n : node),
        Resource_filename self = Ok name ->
        fs (ensure_path path) = Some Dir ->
        fs (joinpath (ensure_path path) name) = Some n ->
        (forall errno : Z, n <> Broken errno) ->
        save fs self path executor false
        = (Raise (FileExistsError (path_str (joinpath (ensure_path path) name))), fs))
  /\ (forall e : pyexc,
        Resource_filename self = Raise e ->
        save fs self path executor false = (Raise e, fs))
  /\ ((forall u : URL, self <> ResURL u) ->
      exists name : string, Resource_filename self = Ok name).
Proof.
  assert (Hgen : forall (name : string) (d : bool),
             Resource_filename self = Ok name ->
             is_dir fs (ensure_path path) = Ok d ->
             path_exists fs (if d then joinpath (ensure_path path) name
                             else ensure_path path) = Ok true ->
             save fs self path executor false
             = (Raise (FileExistsError
                         (path_str (if d then joinpath (ensure_path path) name
                                    else ensure_path path))), fs)).
  { intros name d Hname Hd Hex.
    pose proof (to_write_path_refuses fs path name d Hd Hex) as Hto.
    assert (Hbase : Resource_save_base fs self path executor false
                    = (Raise (FileExistsError
                                (path_str (if d then joinpath (ensure_path path) name
                                           else ensure_path path))), fs)).
    { unfold Resource_save_base, _open_write_path. now rewrite Hname, Hto. }
    destruct self as [u|f|x]; cbn [save].
    - exact Hbase.
    - cbn [Resource_filename] in Hname. injection Hname as <-.
      unfold File_save. now rewrite Hto.
    - unfold Bytes_save. destruct (Bytes_data x); [|exact Hbase|exact Hbase].
      cbn [Resource_filename] in Hname. injection Hname as <-.
      unfold _write_bytes. now rewrite Hto. }
  split; [exact Hgen|]. split; [|split; [|split]].
  - intros name content Hname Hfs.
    apply (Hgen name false Hname).
    + unfold is_dir, os_stat. now rewrite (lookup_no_nul _ _ _ Hfs), Hfs.
    + apply (path_exists_found fs _ _ Hfs). discriminate.
  - intros name n Hname Hdir Hn Hnb.
    apply (Hgen name true Hname).
    + unfold is_dir, os_stat. now rewrite (lookup_no_nul _ _ _ Hdir), Hdir.
    + exact (path_exists_found fs _ _ Hn Hnb).
  - intros e Hf. destruct self as [u|f|x]; cbn [Resource_filename] in Hf;
      try discriminate.
    cbn [save]. unfold Resource_save_base. cbn [Resource_filename]. now rewrite Hf.
  - intros Hnot. destruct self as [u|f|x]; cbn [Resource_filename];
      [exfalso; now apply (Hnot u) | eexists; reflexivity | eexists; reflexivity].
Qed.

(** ** Web readers and data URIs of readers *)

(** A stream opened with [head_only=True] asks with the HEAD method, and
    its reader gives no data whatever body the answer carries: iterating
    it yields one empty chunk and [read()] returns the empty bytes.  For
    every reader [read()] returns what iterating it and joining the chunks
    gives.  The MIME type of a web reader is the type of the content
    disposition when the answer has one, else its content type. *)
Theorem web_reader_contents :
  (forall (fs : FS) (u : URL) (executor : Executor) (reader : Reader) (h1 : Handle),
      aenter fs (HWeb (mkWebHandle u true None)) = (Ok reader, h1) ->
      stream (ResURL u) executor true = Ok (HWeb (mkWebHandle u true None))
      /\ Reader_aiter reader = ([[]], None)
      /\ Reader_read reader = Ok []
      /\ exists resp : ClientResponse,
           http_request "HEAD" (URL__url u) = Ok resp
           /\ 200 <= resp_status resp < 400
           /\ Reader_mimetype reader =
              Some match resp_content_disposition_type resp with
                   | Some (Some t) => t
                   | _ => resp_content_type resp
                   end)
  /\ (forall reader : Reader,
        Reader_read reader = AsyncReader_read (Reader_aiter reader)).
Proof.
  split.
  - intros fs u executor reader h1. cbn [aenter]. unfold WebHandle_aenter.
    cbn [_head_only _web_resource].
    destruct (http_request "HEAD" (URL__url u)) as [resp|e]; [|discriminate].
    destruct ((200 <=? resp_status resp) && (resp_status resp <? 400)) eqn:Est;
      cbn [negb]; [|discriminate].
    destruct (URL_filename u) as [filename|e]; [|discriminate].
    intros H. injection H as <- _.
    split; [reflexivity|]. split; [reflexivity|]. split; [reflexivity|].
    exists resp. split; [reflexivity|].
    apply andb_true_iff in Est. destruct Est as [E1 E2].
    apply Z.leb_le in E1. apply Z.ltb_lt in E2. split; [lia|].
    cbn [Reader_mimetype wr_mimetype].
    destruct (resp_content_disposition_type resp) as [[t|]|]; reflexivity.
  - intros [r|r|r]; [|reflexivity|reflexivity].
    cbn [Reader_read Reader_aiter]. unfold WebReader_read, WebReader_aiter.
    destruct (wr_head_only r); reflexivity.
Qed.

Lemma bytes_init_mimetype
    (data : BytesArg) (filename : string) (mimetype : option string)
    (spoiler : bool) (self : Bytes) :
  Bytes_init data filename mimetype spoiler = Ok self ->
  exists m : string, Bytes_mimetype self = Some m.
Proof.
  unfold Bytes_init.
  destruct (match data with
            | ArgRaw raw => d <- unwrap_bytes raw;; Ok (DataBytes d)
            | ArgLazy kind chunks => Ok (DataChunks kind chunks)
            | ArgOther type_name => Ok (DataOther type_name)
            end) as [d|e]; cbn [bind]; [|discriminate].
  intros H. injection H as <-. cbn [Bytes_mimetype].
  destruct mimetype as [m|]; [eexists; reflexivity|].
  destruct (guess_mimetype_from_filename filename) as [[|a g]|];
    eexists; reflexivity.
Qed.

(** The reader of a [Bytes] resource always has a MIME type, so its
    [data_uri()] never fails for want of one: when the source ends normally
    it is the URI of everything the source gave under the MIME type of the
    resource.  The reader of a [File] resource has no MIME type, so its
    [data_uri()] is [to_data_uri] of the file with nothing given: it fails
    with the [TypeError] unless the file starts like one of the known
    images. *)
Theorem reader_data_uri :
  (forall (data : BytesArg) (filename : string) (mimetype : option string)
          (spoiler : bool) (self : Bytes) (chunks : list bytes),
      Bytes_init data filename mimetype spoiler = Ok self ->
      _wrap_iter (Bytes_data self) = (chunks, None) ->
      exists m : string,
        Bytes_mimetype self = Some m
        /\ Reader_data_uri
             (RIter (mkIteratorReader (Bytes_filename self) (Bytes_mimetype self)
                       (Bytes_data self)))
           = Ok ("data:" ++ m ++ ";base64,"
                 ++ string_of_list_byte (base64.b64encode (List.concat chunks)))%string)
  /\ (forall (filename : string) (executor : Executor) (content : bytes),
        Reader_data_uri (RFile (mkThreadedFileReader filename None executor content))
        = to_data_uri content None
        /\ (guess_mimetype_from_data content = None ->
            Reader_data_uri (RFile (mkThreadedFileReader filename None executor content))
            = Raise (TypeError "Cannot infer mimetype from input data, specify it manually."))).
Proof.
  split.
  - intros data filename mimetype spoiler self chunks Hinit Hwrap.
    destruct (bytes_init_mimetype _ _ _ _ _ Hinit) as [m Hsome].
    exists m. split; [exact Hsome|].
    unfold Reader_data_uri. cbn [Reader_read ir_data Reader_mimetype ir_mimetype].
    rewrite read_through_rebuffer, Hwrap. cbn [AsyncReader_read bind].
    rewrite Hsome. reflexivity.
  - intros filename executor content.
    assert (Hread : Reader_read (RFile (mkThreadedFileReader filename None executor content))
                    = Ok content).
    { cbn [Reader_read].
      exact (file_read_all (mkThreadedFileReader filename None executor content)). }
    unfold Reader_data_uri. rewrite Hread. cbn [bind Reader_mimetype tfr_mimetype].
    split; [reflexivity|]. intros Hg. unfold to_data_uri. rewrite Hg. reflexivity.
Qed.

End Files.

(** * The theorems at concrete inputs *)

(** C10 at the filename "archive.tar.gz". *)
Lemma extension_after_last_dot_witness :
  let self := ResBytes (mkBytes (DataBytes []) "archive.tar.gz" (Some "application/gzip") false) in
  Resource_filename Sample.netloc_error Sample.netloc_ok self = Ok "archive.tar.gz"
  /\ Resource_extension Sample.netloc_error Sample.netloc_ok self = Ok (Some "gz").
Proof.
  intros self. split; [reflexivity|].
  apply (proj1 (proj2 (extension_after_last_dot Sample.netloc_error Sample.netloc_ok
                         self "archive.tar.gz" eq_refl)) "archive.tar" "gz");
    reflexivity.
Defined.

(** C9 at a filename whose suffix the registry knows. *)
Lemma bytes_mimetype_never_none_witness :
  exists self : Bytes,
    Bytes_init Sample.types_map (ArgRaw (RawBytes (b "hi"))) "picture.png" None false
    = Ok self
    /\ Sample.types_map "picture.png" = Some "image/png"
    /\ Bytes_mimetype self <> None
    /\ Bytes_mimetype self = Some "image/png".
Proof.
  destruct (bytes_mimetype_never_none Sample.types_map (ArgRaw (RawBytes (b "hi")))
              "picture.png" None false) as (Hmime & _ & Htotal).
  destruct Htotal as [self Hself].
  { intros raw e Hraw. injection Hraw as <-. discriminate. }
  exists self. split; [exact Hself|]. split; [reflexivity|].
  destruct (Hmime self Hself) as (Hsome & _ & Hknown & _).
  split; [exact Hsome|].
  exact (Hknown "i"%char "mage/png" eq_refl eq_refl eq_refl).
Defined.

(** C3 at two [File] resources with one URL. *)
Lemma eq_by_url_hash_by_class_and_url_witness :
  let r1 := ResFile (File_init (PathStr "a.png") None false) in
  let r2 := ResFile (File_init (PathStr "pictures/a.png") None false) in
  class_of r1 = class_of r2
  /\ __eq__ r1 (ObjResource r2) = true
  /\ __hash__ Sample.py_hash r1 = __hash__ Sample.py_hash r2.
Proof.
  split; [reflexivity|]. split; [reflexivity|].
  apply (proj2 (proj2 (proj2 (eq_by_url_hash_by_class_and_url Sample.py_hash))));
    reflexivity.
Defined.

(** Against C3 as stated: a [File] and a [Bytes] resource with the same
    filename have the same URL and compare equal, but the pairs of class and
    URL that are hashed differ, and so do the hashes under a hash that tells
    the classes apart. *)
Lemma hash_differs_across_variants :
  let r1 := ResFile (File_init (PathStr "a.png") None false) in
  let r2 := ResBytes (mkBytes (DataBytes []) "a.png" (Some "image/png") false) in
  Resource_url r1 = Resource_url r2
  /\ __eq__ r1 (ObjResource r2) = true
  /\ (class_of r1, Resource_url r1) <> (class_of r2, Resource_url r2)
  /\ __hash__ Sample.py_hash r1 <> __hash__ Sample.py_hash r2.
Proof.
  split; [reflexivity|]. split; [reflexivity|]. split; discriminate.
Qed.

(** C2 at the handle of a file that exists. *)
Lemma handle_state_errors_witness :
  let enter := aenter Sample.netloc_error Sample.netloc_ok Sample.os_expanduser
                 Sample.http_request
                   Sample.request_context_name Sample.generate_error_response Sample.fs in
  exists (h h1 : Handle) (reader : Reader),
    stream (ResFile (File_init (PathStr "/tmp/out.bin") None false)) NoExecutor false
    = Ok h
    /\ enter h = (Ok reader, h1)
    /\ enter h1 = (Raise (RuntimeError "File is already open"), h1)
    /\ aexit h = (Raise (RuntimeError "File isn't open"), h).
Proof.
  intros enter.
  destruct (handle_state_errors Sample.netloc_error Sample.netloc_ok Sample.os_expanduser
              Sample.http_request
                Sample.request_context_name Sample.generate_error_response) as [Hfile _].
  destruct (Hfile (File_init (PathStr "/tmp/out.bin") None false) NoExecutor false _ eq_refl)
    as [Hexit Henter].
  eexists. eexists. eexists. split; [reflexivity|]. split; [reflexivity|].
  split; [|exact Hexit].
  apply (Henter Sample.fs _ _ eq_refl).
Defined.

(** Against C2 as stated: the handle of a [Bytes] resource is entered twice
    and left without having been entered, and nothing fails. *)
Lemma noop_handle_reenters :
  let enter := aenter Sample.netloc_error Sample.netloc_ok Sample.os_expanduser
                 Sample.http_request
                   Sample.request_context_name Sample.generate_error_response Sample.fs in
  let reader := RIter (mkIteratorReader "a.txt" (Some "text/plain") (DataBytes (b "hi"))) in
  let h := HNoOp reader in
  stream (ResBytes (mkBytes (DataBytes (b "hi")) "a.txt" (Some "text/plain") false))
         NoExecutor false = Ok h
  /\ enter h = (Ok reader, h)
  /\ enter (snd (enter h)) = (Ok reader, h)
  /\ aexit h = (Ok tt, h).
Proof. repeat split. Qed.

(** C1 at a source of two small chunks, one of them text. *)
Lemma rebuffered_chunk_sizes_witness :
  let data := DataChunks Iterable [PyBytes (b "abc"); PyStr [100; 101]%N] in
  _wrap_iter data = ([b "abc"; b "de"], None)
  /\ Forall (fun c => len c <= _MAGIC) [b "abc"; b "de"]
  /\ exists full rest : list bytes,
       IteratorReader_aiter data = (full ++ rest, None)
       /\ Forall (fun y => _MAGIC <= len y < 2 * _MAGIC) full
       /\ (rest = []
           \/ exists last : bytes,
                rest = [last] /\ 0 < len last < _MAGIC /\ @None pyexc = None)
       /\ (@None pyexc = None ->
           List.concat (full ++ rest) = List.concat [b "abc"; b "de"]).
Proof.
  intros data.
  assert (Hsmall : Forall (fun c => len c <= _MAGIC) [b "abc"; b "de"])
    by (repeat constructor; discriminate).
  split; [reflexivity|]. split; [exact Hsmall|].
  exact (rebuffered_chunk_sizes data [b "abc"; b "de"] None eq_refl Hsmall).
Defined.

(** Against C1 as stated: two source chunks of 30 KiB, each below the 50 KiB
    block size, come out as one chunk of 60 KiB. *)
Lemma two_chunks_exceed_block :
  let chunk := repeat x00 (Z.to_nat 30720) in
  let data := DataChunks Iterator [PyBytes chunk; PyBytes chunk] in
  map len (fst (_wrap_iter data)) = [30720; 30720]
  /\ 30720 <= _MAGIC
  /\ map len (fst (IteratorReader_aiter data)) = [61440]
  /\ snd (IteratorReader_aiter data) = None
  /\ _MAGIC < 61440.
Proof.
  split; [vm_compute; reflexivity|]. split; [discriminate|].
  split; [vm_compute; reflexivity|]. split; [vm_compute; reflexivity|].
  reflexivity.
Qed.

(** C8 at a generator that yields bytes, text, and then an [int]. *)
Lemma chunks_encoded_or_rejected_witness :
  let pre := [PyBytes (b "ab"); PyStr [233]%N] in
  let bs := [b "ab"; [xc3; xa9]] in
  Forall2 (fun c bytes_of_c =>
             c = PyBytes bytes_of_c
             \/ exists s : pystr, c = PyStr s /\ utf8_encode s = Ok bytes_of_c)
          pre bs
  /\ (exists ys : list bytes,
        IteratorReader_aiter (DataChunks Generator pre) = (ys, None)
        /\ List.concat ys = [x61; x62; xc3; xa9])
  /\ exists ys : list bytes,
       IteratorReader_aiter
         (DataChunks Generator (pre ++ PyOther "int" :: [PyBytes (b "zz")]))
       = (ys, Some (TypeError "Expected bytes but received int")).
Proof.
  intros pre bs.
  assert (Hpre : Forall2 (fun c bytes_of_c =>
                            c = PyBytes bytes_of_c
                            \/ exists s : pystr,
                                 c = PyStr s /\ utf8_encode s = Ok bytes_of_c)
                         pre bs).
  { constructor; [left; reflexivity|].
    constructor; [right; exists [233%N]; split; reflexivity | constructor]. }
  split; [exact Hpre|].
  destruct (proj2 (proj2 (chunks_encoded_or_rejected Generator pre [PyBytes (b "zz")]
                            bs "int")) Hpre)
    as [(ys & Hys & Hcat) (ys' & tail & Hraise & _ & _)].
  split.
  - exists ys. split; [exact Hys | exact Hcat].
  - exists ys'. exact Hraise.
Defined.


(** C5, at an input where the code breaks it.  [_to_write_path] tests
    [path.exists()] on the path as given and calls [expanduser] after the
    test.  The target "~/out.bin" is looked up below the working directory,
    where nothing is, and then expanded to a file that exists: with
    [force=False] the save does not fail, and the file has the new content.
    The same save with the target written out is refused. *)
Theorem save_overwrites_file_under_home :
  let self := ResBytes (mkBytes (DataBytes (b "new")) "x.bin" (Some "text/plain") false) in
  let save_to := fun target : string =>
    save Sample.netloc_error Sample.netloc_ok Sample.os_expanduser Sample.http_request
     
        Sample.request_context_name Sample.generate_error_response Sample.home_fs self (PathStr target)
      NoExecutor false in
  expanduser Sample.os_expanduser (ensure_path (PathStr "~/out.bin"))
  = Ok (pathlib_Path "/home/user/out.bin")
  /\ Sample.home_fs (pathlib_Path "/home/user/out.bin") = Some (RegFile (b "old"))
  /\ path_exists Sample.home_fs (ensure_path (PathStr "~/out.bin")) = Ok false
  /\ fst (save_to "~/out.bin") = Ok tt
  /\ snd (save_to "~/out.bin") (pathlib_Path "/home/user/out.bin")
     = Some (RegFile (b "new"))
  /\ save_to "/home/user/out.bin"
     = (Raise (FileExistsError "/home/user/out.bin"), Sample.home_fs).
Proof. repeat split. Qed.

(** C6 at the example of the specification: a PNG header under
    "image/png". *)
Lemma data_uri_roundtrip_witness :
  let data := [x89] ++ b "PNG" ++ [x0d; x0a; x1a; x0a] ++ b "..." in
  exists (uri : string) (x : Bytes),
    to_data_uri data (Some "image/png") = Ok uri
    /\ from_data_uri Sample.types_map Sample.guess_extension Sample.time_uuid
         Sample.urlopen_remote uri None = Ok x
    /\ Bytes_data x = DataBytes data
    /\ Bytes_mimetype x = Some "image/png".
Proof.
  intros data.
  destruct (data_uri_roundtrip Sample.types_map Sample.guess_extension
              Sample.time_uuid Sample.urlopen_remote data (Some "image/png") _ eq_refl)
    as (x & m & Hm & Hx & Hdata & _ & Hsame & _).
  - intros m Hm. injection Hm as <-. split; reflexivity.
  - destruct Hm as [Hm|[Hm _]]; [|discriminate]. injection Hm as <-.
    eexists. exists x. split; [reflexivity|]. split; [exact Hx|].
    split; [exact Hdata|]. apply Hsame; reflexivity.
Defined.

(** Against C6 as stated: under a media type that holds a comma the URI is
    cut at that comma, and what comes back is not the data. *)
Lemma comma_in_mimetype_breaks_roundtrip :
  let uri := "data:text/plain;note=a,b;base64,aGk=" in
  to_data_uri (b "hi") (Some "text/plain;note=a,b") = Ok uri
  /\ exists x : Bytes,
       from_data_uri Sample.types_map Sample.guess_extension Sample.time_uuid
         Sample.urlopen_remote uri None = Ok x
       /\ Bytes_data x = DataBytes (b "b;base64,aGk=")
       /\ Bytes_data x <> DataBytes (b "hi").
Proof.
  split; [reflexivity|].
  exists (mkBytes (DataBytes (b "b;base64,aGk=")) (Sample.time_uuid ++ ".txt")%string
                  (Some "text/plain") false).
  split; [vm_compute; reflexivity|].
  split; [reflexivity | discriminate].
Qed.

(** * Further properties, at concrete inputs and across environments *)

(** [Bytes.from_data_uri] and [ensure_resource] never open a remote URL:
    what they return is the same whatever a request to another scheme would
    answer.  A string that does not start with "data:" is refused by
    [from_data_uri] before anything is opened. *)
Theorem data_uri_never_opens_remote
    (types_map guess_extension : string -> option string) (time_uuid : string)
    (remote1 remote2 : string -> result bytes) :
  (forall (data_uri : string) (filename : option string),
      from_data_uri types_map guess_extension time_uuid remote1 data_uri filename
      = from_data_uri types_map guess_extension time_uuid remote2 data_uri filename)
  /\ (forall x : Resourceish,
        ensure_resource types_map guess_extension time_uuid remote1 x
        = ensure_resource types_map guess_extension time_uuid remote2 x)
  /\ (forall (data_uri : string) (filename : option string),
        Str.startswith data_uri "data:" = false ->
        from_data_uri types_map guess_extension time_uuid remote1 data_uri filename
        = Raise (ValueError "Invalid data URI passed")).
Proof.
  assert (Hfrom : forall (data_uri : string) (filename : option string),
             from_data_uri types_map guess_extension time_uuid remote1 data_uri filename
             = from_data_uri types_map guess_extension time_uuid remote2 data_uri filename).
  { intros data_uri filename. unfold from_data_uri.
    destruct (Str.startswith data_uri "data:") eqn:Hs; [|reflexivity].
    cbn [negb]. now rewrite (urlopen_data_is_local remote1 remote2 data_uri Hs). }
  split; [exact Hfrom|]. split.
  - intros [r|raw|s]; [reflexivity | reflexivity|].
    unfold ensure_resource. now rewrite Hfrom.
  - intros data_uri filename Hs. unfold from_data_uri. now rewrite Hs.
Qed.

(** Reading a [Bytes] resource over the bytes "hello". *)
Lemma bytes_read_returns_data_witness :
  let self := mkBytes (DataBytes (b "hello")) "greeting.txt" (Some "text/plain") false in
  Bytes_data self = DataBytes (b "hello")
  /\ Resource_read Sample.netloc_error Sample.netloc_ok Sample.os_expanduser
       Sample.http_request
         Sample.request_context_name Sample.generate_error_response Sample.fs
       (ResBytes self) NoExecutor = Ok (b "hello").
Proof.
  intros self. split; [reflexivity|].
  exact (bytes_read_returns_data Sample.netloc_error Sample.netloc_ok Sample.os_expanduser
           Sample.http_request
             Sample.request_context_name Sample.generate_error_response Sample.fs self
           NoExecutor (b "hello") eq_refl).
Defined.

(** Reading the file of the sample file system. *)
Lemma file_read_opens_expanded_path_witness :
  let f := File_init (PathStr "/tmp/out.bin") None false in
  expanduser Sample.os_expanduser (File_path f) = Ok (pathlib_Path "/tmp/out.bin")
  /\ Resource_read Sample.netloc_error Sample.netloc_ok Sample.os_expanduser
       Sample.http_request
         Sample.request_context_name Sample.generate_error_response Sample.fs
       (ResFile f) NoExecutor = Ok (b "old").
Proof.
  intros f. split; [reflexivity|].
  apply (proj1 (proj2 (file_read_opens_expanded_path Sample.netloc_error Sample.netloc_ok
                         Sample.os_expanduser Sample.http_request
                        
                           Sample.request_context_name Sample.generate_error_response Sample.fs f NoExecutor
                         (pathlib_Path "/tmp/out.bin") eq_refl)) (b "old"));
    [discriminate | reflexivity].
Defined.

(** The handle of the file of the sample file system, entered and left. *)
Lemma file_handle_cycle_witness :
  let f := File_init (PathStr "/tmp/out.bin") None false in
  let h := HFile (mkFileHandle NoExecutor None "out.bin" (pathlib_Path "/tmp/out.bin")) in
  let entered := aenter Sample.netloc_error Sample.netloc_ok Sample.os_expanduser
                   Sample.http_request
                     Sample.request_context_name Sample.generate_error_response Sample.fs h in
  stream (ResFile f) NoExecutor false = Ok h
  /\ fst entered = Ok (RFile (mkThreadedFileReader "out.bin" None NoExecutor (b "old")))
  /\ aexit (snd entered) = (Ok tt, h).
Proof.
  intros f h entered. split; [reflexivity|]. split; [reflexivity|].
  apply (proj1 (file_handle_cycle Sample.netloc_error Sample.netloc_ok Sample.os_expanduser
                  Sample.http_request
                    Sample.request_context_name Sample.generate_error_response Sample.fs f
                  NoExecutor false h eq_refl)
               (RFile (mkThreadedFileReader "out.bin" None NoExecutor (b "old")))
               (snd entered) eq_refl).
Defined.

(** Saving a generator over the file of the sample file system, with
    [force=True].  In a thread, the generator fails on its second item: the
    save raises its error and the file holds what came before.  Through a
    worker process the save raises [TypeError] and the file is left empty,
    also under its relative name. *)
Lemma bytes_save_writes_source_witness :
  let self := mkBytes (DataChunks Generator [PyBytes (b "ab"); PyOther "int"])
                "x.bin" (Some "text/plain") false in
  let p := pathlib_Path "/tmp/out.bin" in
  let e := TypeError "Expected bytes but received int" in
  let save_in := fun executor : Executor =>
    save Sample.netloc_error Sample.netloc_ok Sample.os_expanduser
      Sample.http_request
        Sample.request_context_name Sample.generate_error_response Sample.fs
      (ResBytes self) (PathStr "/tmp/out.bin") executor true in
  _to_write_path Sample.os_expanduser Sample.fs (PathStr "/tmp/out.bin")
    (Bytes_filename self) true = Ok p
  /\ (exists fs1 : FS, open_wb Sample.fs p = Ok fs1)
  /\ _wrap_iter (Bytes_data self) = ([b "ab"], Some e)
  /\ fst (save_in ThreadPoolExecutor) = Raise e
  /\ (exists written : bytes,
        snd (save_in ThreadPoolExecutor) p = Some (RegFile written)
        /\ exists rest : bytes, b "ab" = written ++ rest)
  /\ fst (save_in OtherExecutor)
     = Raise (TypeError "cannot pickle '_io.BufferedWriter' object")
  /\ snd (save_in OtherExecutor) p = Some (RegFile [])
  /\ snd (save_in OtherExecutor) (pathlib_Path "out.bin") = Some (RegFile []).
Proof.
  intros self p e save_in.
  split; [reflexivity|]. split; [eexists; reflexivity|]. split; [reflexivity|].
  destruct (bytes_save_writes_source Sample.netloc_error Sample.netloc_ok
              Sample.os_expanduser Sample.http_request
                Sample.request_context_name Sample.generate_error_response
              Sample.fs (fs_set Sample.fs p (RegFile [])) self (PathStr "/tmp/out.bin")
              ThreadPoolExecutor true p [b "ab"] (Some e) eq_refl eq_refl eq_refl)
    as (fs2 & written & Hsnd & Hsame & _ & Hrest & Hlocal & _).
  destruct (bytes_save_writes_source Sample.netloc_error Sample.netloc_ok
              Sample.os_expanduser Sample.http_request
                Sample.request_context_name Sample.generate_error_response
              Sample.fs (fs_set Sample.fs p (RegFile [])) self (PathStr "/tmp/out.bin")
              OtherExecutor true p [b "ab"] (Some e) eq_refl eq_refl eq_refl)
    as (fs3 & written3 & Hsnd3 & Hsame3 & _ & _ & _ & Hother).
  destruct (Hother eq_refl) as [Hfst3 Hw3]; [discriminate|]. subst written3.
  split; [apply Hlocal; left; discriminate|].
  split.
  { exists written. split; [|exact Hrest].
    unfold save_in. rewrite Hsnd. apply Hsame. reflexivity. }
  split; [exact Hfst3|].
  unfold save_in. rewrite Hsnd3. split; apply Hsame3; reflexivity.
Defined.

(** Copying the file of the sample file system: to a new name, and onto
    itself, the source given by its relative name and the target by its
    absolute one. *)
Lemma file_save_copies_witness :
  let save_file := fun (src target : string) (force : bool) =>
    save Sample.netloc_error Sample.netloc_ok Sample.os_expanduser
      Sample.http_request
        Sample.request_context_name Sample.generate_error_response Sample.fs
      (ResFile (File_init (PathStr src) None false)) (PathStr target)
      OtherExecutor force in
  _to_write_path Sample.os_expanduser Sample.fs (PathStr "/tmp/copy.bin")
    "out.bin" false = Ok (pathlib_Path "/tmp/copy.bin")
  /\ (exists fs2 : FS,
        save_file "/tmp/out.bin" "/tmp/copy.bin" false = (Ok tt, fs2)
        /\ fs2 (pathlib_Path "/tmp/copy.bin") = Some (RegFile (b "old"))
        /\ fs2 (pathlib_Path "copy.bin") = Some (RegFile (b "old"))
        /\ fs2 (pathlib_Path "/tmp/out.bin") = Some (RegFile (b "old")))
  /\ same_name Sample.fs (pathlib_Path "out.bin") (pathlib_Path "/tmp/out.bin") = true
  /\ save_file "out.bin" "/tmp/out.bin" true = (Raise SameFileError, Sample.fs).
Proof.
  intros save_file. split; [reflexivity|]. split.
  - destruct (proj1 (file_save_copies Sample.netloc_error Sample.netloc_ok
                       Sample.os_expanduser Sample.http_request
                       Sample.request_context_name Sample.generate_error_response Sample.fs
                       (File_init (PathStr "/tmp/out.bin") None false)
                       (PathStr "/tmp/copy.bin") OtherExecutor false
                       (pathlib_Path "/tmp/copy.bin") eq_refl)
                    (b "old") (fs_set Sample.fs (pathlib_Path "/tmp/copy.bin") (RegFile []))
                    eq_refl eq_refl eq_refl)
      as (fs2 & Hsave & Hsrc & Hdst & _).
    exists fs2. split; [exact Hsave|].
    split; [apply Hdst; reflexivity|]. split; [apply Hdst; reflexivity | exact Hsrc].
  - split; [reflexivity|].
    exact (proj1 (proj2 (file_save_copies Sample.netloc_error Sample.netloc_ok
                           Sample.os_expanduser Sample.http_request
                          
                             Sample.request_context_name Sample.generate_error_response Sample.fs
                           (File_init (PathStr "out.bin") None false)
                           (PathStr "/tmp/out.bin") OtherExecutor true
                           (pathlib_Path "/tmp/out.bin") eq_refl))
                 (b "old") eq_refl eq_refl).
Defined.

(** Saving a URL into the directory of the sample file system: the
    transport answers 200 with the body "payload"; the transport cannot
    connect; the executor is a process pool. *)
Lemma url_save_truncates_first_witness :
  let u := mkURL "https://example.com/a.png" None in
  let p := pathlib_Path "/tmp/a.png" in
  let save_with := fun (http : string -> string -> result ClientResponse)
                       (executor : Executor) =>
    save Sample.netloc_error Sample.netloc_ok Sample.os_expanduser
      http Sample.request_context_name Sample.generate_error_response Sample.fs
      (ResURL u) (PathStr "/tmp") executor false in
  URL_filename Sample.netloc_error Sample.netloc_ok u = Ok "a.png"
  /\ _to_write_path Sample.os_expanduser Sample.fs (PathStr "/tmp") "a.png" false = Ok p
  /\ (exists fs1 : FS, open_wb Sample.fs p = Ok fs1)
  /\ (fst (save_with Sample.http_request NoExecutor) = Ok tt
      /\ snd (save_with Sample.http_request NoExecutor) p = Some (RegFile (b "payload")))
  /\ (fst (save_with Sample.http_down NoExecutor)
      = Raise (AttributeError "'_RequestContextManager' object has no attribute '_resp'")
      /\ snd (save_with Sample.http_down NoExecutor) p = Some (RegFile []))
  /\ (fst (save_with Sample.http_request OtherExecutor)
      = Raise (TypeError "cannot pickle '_io.BufferedWriter' object")
      /\ snd (save_with Sample.http_request OtherExecutor) p = Some (RegFile [])).
Proof.
  intros u p save_with.
  split; [reflexivity|]. split; [reflexivity|]. split; [eexists; reflexivity|].
  assert (Hat : forall (http : string -> string -> result ClientResponse)
                       (executor : Executor),
             exists written : bytes,
               snd (save_with http executor) p = Some (RegFile written)
               /\ (executor = OtherExecutor ->
                   fst (save_with http executor)
                   = Raise (TypeError "cannot pickle '_io.BufferedWriter' object")
                   /\ written = [])
               /\ (executor <> OtherExecutor ->
                   match http "GET" (URL__url u) with
                   | Raise e =>
                       fst (save_with http executor)
                       = Raise (AttributeError
                                  "'_RequestContextManager' object has no attribute '_resp'")
                       /\ written = []
                   | Ok resp =>
                       if (200 <=? resp_status resp) && (resp_status resp <? 400)
                       then fst (save_with http executor) = Ok tt
                            /\ written = List.concat (resp_content resp)
                       else fst (save_with http executor)
                            = Raise (Sample.generate_error_response resp)
                            /\ written = []
                   end)).
  { intros http executor.
    destruct (url_save_truncates_first Sample.netloc_error Sample.netloc_ok
                Sample.os_expanduser http
                  Sample.request_context_name Sample.generate_error_response
                Sample.fs (fs_set Sample.fs p (RegFile [])) u (PathStr "/tmp")
                executor false "a.png" p eq_refl eq_refl eq_refl)
      as (fs2 & written & Hsnd & Hsame & _ & Hother & Hlocal).
    exists written. split; [|split; [exact Hother | exact Hlocal]].
    unfold save_with. rewrite Hsnd. apply Hsame. reflexivity. }
  split; [|split].
  - destruct (Hat Sample.http_request NoExecutor) as (written & Hp & _ & Hlocal).
    destruct Hlocal as [Hfst Hw]; [discriminate|].
    split; [exact Hfst|]. rewrite Hp, Hw. reflexivity.
  - destruct (Hat Sample.http_down NoExecutor) as (written & Hp & _ & Hlocal).
    destruct Hlocal as [Hfst Hw]; [discriminate|].
    split; [exact Hfst|]. rewrite Hp, Hw. reflexivity.
  - destruct (Hat Sample.http_request OtherExecutor) as (written & Hp & Hother & _).
    destruct (Hother eq_refl) as [Hfst Hw].
    split; [exact Hfst|]. rewrite Hp, Hw. reflexivity.
Defined.

(** Saves that are refused: over the file of the sample file system, into
    its directory under the name of that file, and of a URL that has no
    filename. *)
Lemma save_refuses_existing_target_witness :
  let save_to := fun (self : Resource) (target : string) =>
    save Sample.netloc_error Sample.netloc_ok Sample.os_expanduser
      Sample.http_request
        Sample.request_context_name Sample.generate_error_response Sample.fs self
      (PathStr target) NoExecutor false in
  let named := fun name : string =>
    ResBytes (mkBytes (DataBytes (b "new")) name (Some "text/plain") false) in
  save_to (named "x.bin") "/tmp/out.bin"
  = (Raise (FileExistsError "/tmp/out.bin"), Sample.fs)
  /\ save_to (named "out.bin") "/tmp"
     = (Raise (FileExistsError "/tmp/out.bin"), Sample.fs)
  /\ save_to (ResURL (mkURL "http://[" None)) "/tmp/out.bin"
     = (Raise (ValueError "Invalid IPv6 URL"), Sample.fs).
Proof.
  intros save_to named.
  pose proof (fun self target =>
                save_refuses_existing_target Sample.netloc_error Sample.netloc_ok
                  Sample.os_expanduser Sample.http_request
                 
                    Sample.request_context_name Sample.generate_error_response Sample.fs self (PathStr target)
                  NoExecutor) as H.
  split; [|split].
  - exact (proj1 (proj2 (H (named "x.bin") "/tmp/out.bin")) "x.bin" (b "old")
                 eq_refl eq_refl).
  - refine (proj1 (proj2 (proj2 (H (named "out.bin") "/tmp"))) "out.bin"
                  (RegFile (b "old")) eq_refl eq_refl eq_refl _).
    discriminate.
  - exact (proj1 (proj2 (proj2 (proj2 (H (ResURL (mkURL "http://[" None))
                                         "/tmp/out.bin"))))
                 (ValueError "Invalid IPv6 URL") eq_refl).
Defined.


(** Reading through the re-buffering, at a source whose third item is not
    bytes: the read raises the [TypeError] of that item. *)
Lemma rebuffering_preserves_read_witness :
  let data := DataChunks Generator [PyBytes (b "abc"); PyStr [100; 101]%N; PyOther "int"] in
  _wrap_iter data
  = ([b "abc"; b "de"], Some (TypeError "Expected bytes but received int"))
  /\ AsyncReader_read (IteratorReader_aiter data)
     = Raise (TypeError "Expected bytes but received int").
Proof.
  intros data. split; [reflexivity|].
  exact (rebuffering_preserves_read data [b "abc"; b "de"]
           (Some (TypeError "Expected bytes but received int")) eq_refl).
Defined.
